(** * oSSH honeypot: overlay sandbox manager and corpus / auth logic

  A shallow embedding of [server.go] (corpus store, capture saving, auth
  policy) and of the overlay file-system manager (NewSession, Mount, Close,
  the path-scoped file API), together with the properties stated about them.

  Go strings are byte strings: they are modelled as [string] (a list of
  8-bit [ascii]).  Go maps [map[string]uint] are [gmap string Z] where a
  missing key reads as the zero value and [uint] arithmetic wraps at 2^64. *)

From Stdlib Require Import ZArith Ascii String List Lia Bool DecimalString.
From stdpp Require Import base gmap strings list fin_maps sorting.

Local Open Scope Z_scope.

(* ===================================================================== *)
(** * Go's [strings] and [strconv] packages, as far as the program uses them *)
(* ===================================================================== *)

Module GoStrings.

(** [strings.HasPrefix(s, prefix)]: a comparison of bytes. *)
Fixpoint HasPrefix (s prefix : string) {struct prefix} : bool :=
  match prefix with
  | EmptyString => true
  | String p prefix' =>
      match s with
      | EmptyString => false
      | String c s' => if Ascii.eqb c p then HasPrefix s' prefix' else false
      end
  end.

(** [strings.Split(s, sep)] for a separator of one byte (every call of the
    program passes one: a newline, a colon, or the path separator). *)
Fixpoint Split (s : string) (sep : ascii) : list string :=
  match s with
  | EmptyString => [EmptyString]
  | String c s' =>
      if Ascii.eqb c sep then EmptyString :: Split s' sep
      else match Split s' sep with
           | [] => [String c EmptyString]
           | piece :: pieces => String c piece :: pieces
           end
  end.

(** [strings.Join(elems, sep)]. *)
Fixpoint Join (elems : list string) (sep : string) : string :=
  match elems with
  | [] => EmptyString
  | [e] => e
  | e :: rest => e +:+ sep +:+ Join rest sep
  end.

Definition byte (n : nat) : ascii := ascii_of_nat n.
Definition bytes (l : list nat) : string :=
  fold_right (fun n s => String (byte n) s) EmptyString l.

(** The white space of [unicode.IsSpace], each rune in its UTF-8 encoding:
    tab, line feed, vertical tab, form feed, carriage return, space,
    U+0085, U+00A0, U+1680, U+2000..U+200A, U+2028, U+2029, U+202F, U+205F,
    U+3000. *)
Definition spaceRunes : list string :=
  map bytes
    [ [9]; [10]; [11]; [12]; [13]; [32];
      [194; 133]; [194; 160]; [225; 154; 128];
      [226; 128; 128]; [226; 128; 129]; [226; 128; 130]; [226; 128; 131];
      [226; 128; 132]; [226; 128; 133]; [226; 128; 134]; [226; 128; 135];
      [226; 128; 136]; [226; 128; 137]; [226; 128; 138];
      [226; 128; 168]; [226; 128; 169]; [226; 128; 175];
      [226; 129; 159]; [227; 128; 128] ]%nat.

(** Drop [n] bytes from the front of [s]. *)
Fixpoint dropBytes (n : nat) (s : string) : string :=
  match n, s with
  | O, _ => s
  | S n', String _ s' => dropBytes n' s'
  | S _, EmptyString => EmptyString
  end.

(** The width of the white-space rune [s] starts with, if it starts with one. *)
Definition leadingSpace (s : string) : option nat :=
  String.length <$> List.find (HasPrefix s) spaceRunes.

(** [strings.TrimLeftFunc(s, unicode.IsSpace)]: rune after rune.  The fuel
    is the length of the string, which bounds the number of runes. *)
Fixpoint trimLeftFuel (fuel : nat) (s : string) : string :=
  match fuel with
  | O => s
  | S fuel' =>
      match leadingSpace s with
      | Some w => trimLeftFuel fuel' (dropBytes w s)
      | None => s
      end
  end.

Definition TrimLeftSpace (s : string) : string :=
  trimLeftFuel (String.length s) s.

Definition revString (s : string) : string :=
  string_of_list_ascii (rev (list_ascii_of_string s)).

(** The same from the right end: the bytes of [s] reversed start with a
    reversed white-space rune. *)
Definition trailingSpace (r : string) : option nat :=
  String.length <$> List.find (fun sp => HasPrefix r (revString sp)) spaceRunes.

Fixpoint trimRightFuel (fuel : nat) (r : string) : string :=
  match fuel with
  | O => r
  | S fuel' =>
      match trailingSpace r with
      | Some w => trimRightFuel fuel' (dropBytes w r)
      | None => r
      end
  end.

Definition TrimRightSpace (s : string) : string :=
  revString (trimRightFuel (String.length s) (revString s)).

(** [strings.TrimSpace(s)]: leading white space goes first, then trailing. *)
Definition TrimSpace (s : string) : string :=
  TrimRightSpace (TrimLeftSpace s).

(** ** [strconv.Atoi] *)

Definition isDigit (c : ascii) : bool :=
  (48 <=? nat_of_ascii c)%nat && (nat_of_ascii c <=? 57)%nat.

Definition digitVal (c : ascii) : Z := Z.of_nat (nat_of_ascii c) - 48.

(** The digits of [s] read in base 10, [None] when a byte is no digit. *)
Fixpoint parseDigits (s : string) (acc : Z) : option Z :=
  match s with
  | EmptyString => Some acc
  | String c s' =>
      if isDigit c then parseDigits s' (acc * 10 + digitVal c) else None
  end.

Definition maxInt : Z := 2 ^ 63 - 1.
Definition minInt : Z := - 2 ^ 63.

(** [strconv.Atoi(s)] on a 64-bit platform: the value and whether the
    error is non-nil.  A syntax error gives 0, a range error the nearest
    representable value. *)
Definition Atoi (s : string) : Z * bool :=
  let '(neg, body) :=
    match s with
    | String c s' =>
        if Ascii.eqb c "-" then (true, s')
        else if Ascii.eqb c "+" then (false, s')
        else (false, s)
    | EmptyString => (false, s)
    end in
  match body with
  | EmptyString => (0, true)
  | _ =>
      match parseDigits body 0 with
      | None => (0, true)
      | Some v =>
          if neg then (if 2 ^ 63 <? v then (minInt, true) else (- v, false))
          else (if 2 ^ 63 <=? v then (maxInt, true) else (v, false))
      end
  end.

End GoStrings.

Import GoStrings.

(* ===================================================================== *)
(** * Go's [path/filepath] on a Unix system *)
(* ===================================================================== *)

Module FilePath.

Definition Separator : ascii := "/"%char.

Definition isDot (e : string) : bool := String.eqb e ".".
Definition isDotDot (e : string) : bool := String.eqb e "..".

(** The element loop of [filepath.Clean].  [stack] holds the elements
    written so far, last one first: the buffer [out] of the Go code.  An
    empty element and [.] are skipped; [..] removes the last real element,
    is dropped at the root, and is kept in front of a relative path. *)
Fixpoint cleanElems (rooted : bool) (elems stack : list string) : list string :=
  match elems with
  | [] => rev stack
  | e :: rest =>
      if String.eqb e EmptyString || isDot e then cleanElems rooted rest stack
      else if isDotDot e then
        match stack with
        | top :: below =>
            if isDotDot top then cleanElems rooted rest (e :: stack)
            else cleanElems rooted rest below
        | [] =>
            if rooted then cleanElems rooted rest []
            else cleanElems rooted rest [e]
        end
      else cleanElems rooted rest (e :: stack)
  end.

Definition IsAbs (path : string) : bool := HasPrefix path "/".

(** [filepath.Clean(path)]. *)
Definition Clean (path : string) : string :=
  match path with
  | EmptyString => "."
  | _ =>
      let rooted := IsAbs path in
      let elems := cleanElems rooted (Split path Separator) [] in
      if rooted then "/" +:+ GoStrings.Join elems "/"
      else match elems with
           | [] => "."
           | _ => GoStrings.Join elems "/"
           end
  end.

(** [filepath.Join(elem...)]: the elements from the first non-empty one on
    are joined with the separator and the result is cleaned. *)
Fixpoint Join (elem : list string) : string :=
  match elem with
  | [] => EmptyString
  | e :: rest =>
      if String.eqb e EmptyString then Join rest
      else Clean (GoStrings.Join elem "/")
  end.

(** [filepath.Abs(path)] in the working directory [wd]. *)
Definition Abs (wd path : string) : string :=
  if IsAbs path then Clean path else Join [wd; path].

End FilePath.

(* ===================================================================== *)
(** * The operating system under the program: files, directories, mounts *)
(* ===================================================================== *)

Module OS.

(** Octal notation: [octal 755] is Go's [0755]. *)
Fixpoint octalDigits (fuel : nat) (d : Z) : Z :=
  match fuel with
  | O => 0
  | S fuel' => if d =? 0 then 0 else d mod 10 + 8 * octalDigits fuel' (d / 10)
  end.

Definition octal (d : Z) : Z := octalDigits 16 d.

Inductive node : Type :=
| Dir (mode : Z)
| File (mode : Z) (data : string).

Definition isDir (n : node) : bool :=
  match n with Dir _ => true | File _ _ => false end.

Definition modeOf (n : node) : Z :=
  match n with Dir m => m | File m _ => m end.

(** The state of the machine.  [nodes] is keyed by absolute clean path; the
    root directory is always there.  [mounts] maps a mount point to the
    data string of its overlay mount.  [clock] is what [time.Now().Unix()]
    reads, a 64-bit integer. *)
Record World : Type := mkWorld {
  nodes : gmap string node;
  mounts : gmap string string;
  umask : Z;
  wd : string;
  clock : Z
}.

Definition setNodes (w : World) (ns : gmap string node) : World :=
  mkWorld ns (mounts w) (umask w) (wd w) (clock w).

Definition setMounts (w : World) (ms : gmap string string) : World :=
  mkWorld (nodes w) ms (umask w) (wd w) (clock w).

Inductive result (A : Type) : Type :=
| Ok (a : A)
| Err (msg : string).
Arguments Ok {A} a.
Arguments Err {A} msg.

Definition isOk {A} (r : result A) : bool :=
  match r with Ok _ => true | Err _ => false end.

(** A call that may change the machine and may fail with an error. *)
Definition M (A : Type) : Type := World -> World * result A.

Definition ret {A} (a : A) : M A := fun w => (w, Ok a).

Definition bind {A B} (c : M A) (k : A -> M B) : M B :=
  fun w => match c w with
           | (w', Ok a) => k a w'
           | (w', Err e) => (w', Err e)
           end.

(** [fmt.Errorf(prefix + "%w", err)] on the error path of a call. *)
Definition wrapErr {A} (prefix : string) (c : M A) : M A :=
  fun w => match c w with
           | (w', Ok a) => (w', Ok a)
           | (w', Err e) => (w', Err (prefix +:+ e))
           end.

Definition fail {A} (msg : string) : M A := fun w => (w, Err msg).

Definition resolve (w : World) (path : string) : string :=
  FilePath.Abs (wd w) path.

Definition lookupNode (w : World) (key : string) : option node :=
  if String.eqb key "/" then Some (Dir (octal 755)) else nodes w !! key.

Definition parentOf (key : string) : string := FilePath.Clean (key +:+ "/..").

Definition baseOf (key : string) : string :=
  List.last (Split key FilePath.Separator) EmptyString.

(** [key] is strictly below the directory [dir]. *)
Definition below (dir key : string) : bool :=
  if String.eqb dir "/" then negb (String.eqb key "/") && HasPrefix key "/"
  else HasPrefix key (dir +:+ "/").

(** [key] is [dir] or below it. *)
Definition within (dir key : string) : bool :=
  String.eqb key dir || below dir key.

(** Go's [fs.FileMode] bits and [os.syscallMode]: the nine permission bits,
    and the setuid, setgid and sticky bits moved to their Unix places. *)
Definition ModeSetuid : Z := 2 ^ 23.
Definition ModeSetgid : Z := 2 ^ 22.
Definition ModeSticky : Z := 2 ^ 20.

Definition syscallMode (perm : Z) : Z :=
  let o := Z.land perm (octal 777) in
  let o := if Z.land perm ModeSetuid =? 0 then o else Z.lor o (octal 4000) in
  let o := if Z.land perm ModeSetgid =? 0 then o else Z.lor o (octal 2000) in
  if Z.land perm ModeSticky =? 0 then o else Z.lor o (octal 1000).

(** The mode a new node gets: the requested bits without those of the umask. *)
Definition createMode (w : World) (perm : Z) : Z :=
  Z.ldiff (syscallMode perm) (umask w).

(** [os.Mkdir(name, perm)]. *)
Definition Mkdir (name : string) (perm : Z) : M unit :=
  fun w =>
    let key := resolve w name in
    match lookupNode w key with
    | Some _ => (w, Err ("mkdir " +:+ name +:+ ": file exists"))
    | None =>
        match lookupNode w (parentOf key) with
        | Some (Dir _) =>
            (setNodes w (<[key := Dir (createMode w perm)]> (nodes w)), Ok tt)
        | Some (File _ _) => (w, Err ("mkdir " +:+ name +:+ ": not a directory"))
        | None => (w, Err ("mkdir " +:+ name +:+ ": no such file or directory"))
        end
    end.

(** A directory entry: its name and whether it is a directory. *)
Record DirEntry : Type := mkDirEntry { Name : string; IsDir : bool }.

Fixpoint insertEntry (e : DirEntry) (sorted : list DirEntry) : list DirEntry :=
  match sorted with
  | [] => [e]
  | x :: rest =>
      if String.ltb (Name e) (Name x) then e :: sorted else x :: insertEntry e rest
  end.

Definition sortEntries (l : list DirEntry) : list DirEntry :=
  fold_right insertEntry [] l.

(** What can be the name of a directory entry: not empty, not [.] or [..]. *)
Definition isFileName (name : string) : bool :=
  negb (String.eqb name EmptyString) && negb (FilePath.isDot name)
  && negb (FilePath.isDotDot name).

Definition childrenOf (w : World) (key : string) : list DirEntry :=
  sortEntries
    (omap (fun kn : string * node =>
             if String.eqb (parentOf kn.1) key && negb (String.eqb kn.1 key)
                && isFileName (baseOf kn.1)
             then Some (mkDirEntry (baseOf kn.1) (isDir kn.2)) else None)
          (map_to_list (nodes w))).

(** [os.ReadDir(name)]: the entries of the directory, sorted by file name. *)
Definition ReadDir (name : string) : M (list DirEntry) :=
  fun w =>
    let key := resolve w name in
    match lookupNode w key with
    | Some (Dir _) => (w, Ok (childrenOf w key))
    | Some (File _ _) => (w, Err ("open " +:+ name +:+ ": not a directory"))
    | None => (w, Err ("open " +:+ name +:+ ": no such file or directory"))
    end.

(** [os.Remove(name)]: a file, or a directory that is empty and no mount point. *)
Definition Remove (name : string) : M unit :=
  fun w =>
    let key := resolve w name in
    match lookupNode w key with
    | None => (w, Err ("remove " +:+ name +:+ ": no such file or directory"))
    | Some n =>
        if String.eqb key "/" || bool_decide (is_Some (mounts w !! key))
        then (w, Err ("remove " +:+ name +:+ ": device or resource busy"))
        else if isDir n && negb (bool_decide (childrenOf w key = []))
        then (w, Err ("remove " +:+ name +:+ ": directory not empty"))
        else (setNodes w (delete key (nodes w)), Ok tt)
    end.

Definition endsWithDot (path : string) : bool :=
  String.eqb (baseOf path) ".".

(** [os.RemoveAll(path)]: the path and everything below it; nothing to do
    for the empty path or a path that is not there.  Permission and busy
    errors are not modelled. *)
Definition RemoveAll (path : string) : M unit :=
  fun w =>
    if String.eqb path EmptyString then (w, Ok tt)
    else if endsWithDot path
    then (w, Err ("RemoveAll " +:+ path +:+ ": invalid argument"))
    else
      let key := resolve w path in
      (setNodes w (filter (fun kn : string * node => within key kn.1 = false) (nodes w)),
       Ok tt).

(** [unix.Mount("overlay", target, "overlay", 0, data)]. *)
Definition MountOverlay (target data : string) : M unit :=
  fun w =>
    let key := resolve w target in
    match lookupNode w key with
    | Some (Dir _) => (setMounts w (<[key := data]> (mounts w)), Ok tt)
    | Some (File _ _) => (w, Err "not a directory")
    | None => (w, Err "no such file or directory")
    end.

(** [unix.Unmount(target, 0)]: the view of the mounted file system, the
    nodes below the mount point, goes away with the mount. *)
Definition Unmount (target : string) : M unit :=
  fun w =>
    let key := resolve w target in
    match mounts w !! key with
    | Some _ =>
        (mkWorld (filter (fun kn : string * node => below key kn.1 = false) (nodes w))
                 (delete key (mounts w)) (umask w) (wd w) (clock w),
         Ok tt)
    | None => (w, Err "invalid argument")
    end.

(** [time.Now().Unix()]. *)
Definition NowUnix : M Z := fun w => (w, Ok (clock w)).

(** Flags of [os.OpenFile]. *)
Definition O_ACCMODE : Z := 3.
Definition O_CREATE : Z := 64.
Definition O_EXCL : Z := 128.
Definition O_TRUNC : Z := 512.

Definition hasFlag (flag bit : Z) : bool := negb (Z.land flag bit =? 0).

(** [os.OpenFile(name, flag, perm)]; the open file is known by its path. *)
Definition OpenFile (name : string) (flag perm : Z) : M string :=
  fun w =>
    let key := resolve w name in
    match lookupNode w key with
    | Some (Dir _) =>
        if hasFlag flag O_CREATE && hasFlag flag O_EXCL
        then (w, Err ("open " +:+ name +:+ ": file exists"))
        else if Z.land flag O_ACCMODE =? 0 then (w, Ok key)
        else (w, Err ("open " +:+ name +:+ ": is a directory"))
    | Some (File m d) =>
        if hasFlag flag O_CREATE && hasFlag flag O_EXCL
        then (w, Err ("open " +:+ name +:+ ": file exists"))
        else if hasFlag flag O_TRUNC && negb (Z.land flag O_ACCMODE =? 0)
        then (setNodes w (<[key := File m EmptyString]> (nodes w)), Ok key)
        else (w, Ok key)
    | None =>
        if hasFlag flag O_CREATE then
          match lookupNode w (parentOf key) with
          | Some (Dir _) =>
              (setNodes w (<[key := File (createMode w perm) EmptyString]> (nodes w)),
               Ok key)
          | Some (File _ _) => (w, Err ("open " +:+ name +:+ ": not a directory"))
          | None => (w, Err ("open " +:+ name +:+ ": no such file or directory"))
          end
        else (w, Err ("open " +:+ name +:+ ": no such file or directory"))
    end.

(** [os.ReadFile(name)]. *)
Definition ReadFile (name : string) : M string :=
  fun w =>
    match lookupNode w (resolve w name) with
    | Some (File _ d) => (w, Ok d)
    | Some (Dir _) => (w, Err ("read " +:+ name +:+ ": is a directory"))
    | None => (w, Err ("open " +:+ name +:+ ": no such file or directory"))
    end.

(** [os.WriteFile(name, data, perm)]: creates the file or replaces its
    content; the mode of a file that is there stays. *)
Definition WriteFile (name data : string) (perm : Z) : M unit :=
  fun w =>
    let key := resolve w name in
    match lookupNode w key with
    | Some (File m _) => (setNodes w (<[key := File m data]> (nodes w)), Ok tt)
    | Some (Dir _) => (w, Err ("open " +:+ name +:+ ": is a directory"))
    | None =>
        match lookupNode w (parentOf key) with
        | Some (Dir _) =>
            (setNodes w (<[key := File (createMode w perm) data]> (nodes w)), Ok tt)
        | Some (File _ _) => (w, Err ("open " +:+ name +:+ ": not a directory"))
        | None => (w, Err ("open " +:+ name +:+ ": no such file or directory"))
        end
    end.

End OS.

#[global] Instance M_ret : MRet OS.M := @OS.ret.
#[global] Instance M_bind : MBind OS.M := fun A B k c => OS.bind c k.

(* ===================================================================== *)
(** * The overlay file-system manager and its sessions *)
(* ===================================================================== *)

Module Overlay.
Import OS.

Record OverlayFSManager : Type := mkManager { baseDir : string }.

Record OverlayFS : Type := mkOverlayFS {
  mergedDir : string;
  upperDir : string;
  workDir : string;
  lowerDirs : list string
}.

(** Modelled from the spec: the helper [DirExists(path)] of the repository
    is not among the source files; it says whether [path] is there and is a
    directory. *)
Definition DirExists (path : string) : M bool :=
  fun w =>
    (w, Ok (match lookupNode w (resolve w path) with
            | Some (Dir _) => true
            | _ => false
            end)).

(** [strconv.FormatInt(i, 10)]. *)
Definition FormatInt (i : Z) : string :=
  DecimalString.NilZero.string_of_int (Z.to_int i).

(** [sort.Slice(x, less)], by insertion as Go sorts a short slice: each
    element moves towards the front while it is less than the one before it.
    [sorted] is the part that is in order already, last element first. *)
Fixpoint insertBack {A} (less : A -> A -> bool) (x : A) (sorted : list A) : list A :=
  match sorted with
  | [] => [x]
  | y :: before =>
      if less x y then y :: insertBack less x before else x :: sorted
  end.

Definition sortSlice {A} (less : A -> A -> bool) (x : list A) : list A :=
  rev (fold_left (fun sorted e => insertBack less e sorted) x []).

(** The comparison [NewSession] hands to [sort.Slice]: both elements of the
    slice go through [strconv.Atoi], whose error is ignored. *)
Definition lessLayer (a b : string) : bool :=
  let numA := (Atoi a).1 in
  let numB := (Atoi b).1 in
  numA <? numB.

Definition NewSession (ofsm : OverlayFSManager) (sandboxKey : string) : M OverlayFS :=
  let sandboxPath := FilePath.Join [baseDir ofsm; "sandboxes"; sandboxKey] in
  there ← DirExists sandboxPath;
  (if there : bool then mret tt
   else wrapErr "make sandbox dir: " (Mkdir sandboxPath (octal 755)));;
  there ← DirExists (FilePath.Join [sandboxPath; "layers"]);
  (if there : bool then mret tt
   else wrapErr "make sandbox dir: "
          (Mkdir (FilePath.Join [sandboxPath; "layers"]) (octal 755)));;
  now ← NowUnix;
  let timeKey := FormatInt now in
  let mergeLayerPath := FilePath.Join [sandboxPath; "merge-" +:+ timeKey] in
  let workLayerPath := FilePath.Join [sandboxPath; "work-" +:+ timeKey] in
  let upperLayerPath := FilePath.Join [sandboxPath; "layers"; timeKey] in
  entries ← wrapErr "read layers dir: "
              (ReadDir (FilePath.Join [sandboxPath; "layers"]));
  let lowerLayers :=
    map (fun entry => FilePath.Join [sandboxPath; "layers"; Name entry])
        (List.filter IsDir entries) in
  let lowerLayers := sortSlice lessLayer lowerLayers in
  let lowerLayers := lowerLayers ++ [FilePath.Join [baseDir ofsm; "defaultfs"]] in
  mret (mkOverlayFS mergeLayerPath upperLayerPath workLayerPath lowerLayers).

Definition Mount (ofs : OverlayFS) : M unit :=
  wrapErr "mkdir merged: " (Mkdir (mergedDir ofs) 700);;
  wrapErr "mkdir workdir: " (Mkdir (workDir ofs) 700);;
  wrapErr "mkdir upper: " (Mkdir (upperDir ofs) 700);;
  let lowedirs := GoStrings.Join (lowerDirs ofs) ":" in
  let data := "lowerdir=" +:+ lowedirs +:+ ",upperdir=" +:+ upperDir ofs
              +:+ ",workdir=" +:+ workDir ofs in
  wrapErr "mount: " (MountOverlay (mergedDir ofs) data);;
  mret tt.

Definition Close (ofs : OverlayFS) : M unit :=
  wrapErr "unmount: " (Unmount (mergedDir ofs));;
  wrapErr "remove mergedDir: " (Remove (mergedDir ofs));;
  wrapErr "remove workdir: " (RemoveAll (workDir ofs));;
  mret tt.

Definition insideMerged (ofs : OverlayFS) (path : string) (w : World) : bool :=
  let mergedAbs := FilePath.Abs (wd w) (mergedDir ofs) in
  let absPath := FilePath.Abs (wd w) (FilePath.Join [mergedAbs; path]) in
  HasPrefix absPath mergedAbs.

Definition OpenFile (ofs : OverlayFS) (path : string) (flag perm : Z) : M string :=
  fun w =>
    if negb (insideMerged ofs path w) then (w, Err "path outside root")
    else OS.OpenFile (FilePath.Join [mergedDir ofs; path]) flag perm w.

Definition sessionDirExists (ofs : OverlayFS) (path : string) : M bool :=
  fun w =>
    if negb (insideMerged ofs path w) then (w, Ok false)
    else DirExists (FilePath.Join [mergedDir ofs; path]) w.

Definition Mkdir (ofs : OverlayFS) (path : string) (mode : Z) : M unit :=
  fun w =>
    if negb (insideMerged ofs path w) then (w, Err "path outside root")
    else OS.Mkdir (FilePath.Join [mergedDir ofs; path]) mode w.

Definition ReadDir (ofs : OverlayFS) (path : string) : M (list DirEntry) :=
  fun w =>
    if negb (insideMerged ofs path w) then (w, Err "path outside root")
    else OS.ReadDir (FilePath.Join [mergedDir ofs; path]) w.

End Overlay.

(* ===================================================================== *)
(** * The server: corpus store, capture files, auth policy *)
(* ===================================================================== *)

Module Server.

(** Go's [uint] on a 64-bit platform wraps around at 2^64. *)
Definition uintWrap (x : Z) : Z := x mod 2 ^ 64.

(** Go's [int] on a 64-bit platform wraps around into -2^63 .. 2^63-1. *)
Definition intWrap (x : Z) : Z := (x + 2 ^ 63) mod 2 ^ 64 - 2 ^ 63.

(** Reading [m[k]] from a Go map: the zero value when the key is absent. *)
Definition getCount (m : gmap string Z) (k : string) : Z := default 0 (m !! k).

(** [_, ok := m[k]]. *)
Definition hasKey {V} (m : gmap string V) (k : string) : bool :=
  bool_decide (is_Some (m !! k)).

Record SyncNode : Type := mkSyncNode {
  nodeHost : string;
  nodePort : Z;
  nodeUser : string;
  nodePassword : string
}.

Record Config : Type := mkConfig {
  PathHosts : string;
  PathUsers : string;
  PathPasswords : string;
  PathFingerprints : string;
  PathCaptures : string;
  SyncNodes : list SyncNode
}.

(** What the server reads of a fake shell: when it was created. *)
Record FakeShell : Type := mkFakeShell {
  created : Z;
  shellUser : string
}.

Record FakeShellStats : Type := mkFakeShellStats {
  statsHost : string;
  statsUser : string;
  CommandHistory : list string;
  TimeSpent : Z;
  CommandsExecuted : Z
}.

(** [OSSHServer]; the nested [Stats] and [Stats.Logins] structs are
    flattened into their fields. *)
Record OSSHServer : Type := mkOSSHServer {
  shells : gmap string FakeShell;
  syncClients : gmap string bool;
  Attempts : gmap string Z;
  Failed : gmap string Z;
  OK : gmap string Z;
  Users : gmap string Z;
  Passwords : gmap string Z;
  Hosts : gmap string Z;
  Fingerprints : gmap string Z;
  TimeWasted : Z
}.

Definition withShells (o : OSSHServer) (m : gmap string FakeShell) : OSSHServer :=
  mkOSSHServer m (syncClients o) (Attempts o) (Failed o) (OK o) (Users o)
               (Passwords o) (Hosts o) (Fingerprints o) (TimeWasted o).
Definition withSyncClients (o : OSSHServer) (m : gmap string bool) : OSSHServer :=
  mkOSSHServer (shells o) m (Attempts o) (Failed o) (OK o) (Users o)
               (Passwords o) (Hosts o) (Fingerprints o) (TimeWasted o).
Definition withAttempts (o : OSSHServer) (m : gmap string Z) : OSSHServer :=
  mkOSSHServer (shells o) (syncClients o) m (Failed o) (OK o) (Users o)
               (Passwords o) (Hosts o) (Fingerprints o) (TimeWasted o).
Definition withFailed (o : OSSHServer) (m : gmap string Z) : OSSHServer :=
  mkOSSHServer (shells o) (syncClients o) (Attempts o) m (OK o) (Users o)
               (Passwords o) (Hosts o) (Fingerprints o) (TimeWasted o).
Definition withOK (o : OSSHServer) (m : gmap string Z) : OSSHServer :=
  mkOSSHServer (shells o) (syncClients o) (Attempts o) (Failed o) m (Users o)
               (Passwords o) (Hosts o) (Fingerprints o) (TimeWasted o).
Definition withUsers (o : OSSHServer) (m : gmap string Z) : OSSHServer :=
  mkOSSHServer (shells o) (syncClients o) (Attempts o) (Failed o) (OK o) m
               (Passwords o) (Hosts o) (Fingerprints o) (TimeWasted o).
Definition withPasswords (o : OSSHServer) (m : gmap string Z) : OSSHServer :=
  mkOSSHServer (shells o) (syncClients o) (Attempts o) (Failed o) (OK o) (Users o)
               m (Hosts o) (Fingerprints o) (TimeWasted o).
Definition withHosts (o : OSSHServer) (m : gmap string Z) : OSSHServer :=
  mkOSSHServer (shells o) (syncClients o) (Attempts o) (Failed o) (OK o) (Users o)
               (Passwords o) m (Fingerprints o) (TimeWasted o).
Definition withFingerprints (o : OSSHServer) (m : gmap string Z) : OSSHServer :=
  mkOSSHServer (shells o) (syncClients o) (Attempts o) (Failed o) (OK o) (Users o)
               (Passwords o) (Hosts o) m (TimeWasted o).
Definition withTimeWasted (o : OSSHServer) (t : Z) : OSSHServer :=
  mkOSSHServer (shells o) (syncClients o) (Attempts o) (Failed o) (OK o) (Users o)
               (Passwords o) (Hosts o) (Fingerprints o) t.

(** The maps of [NewOSSHServer] before [init] loads the corpus files. *)
Definition emptyServer : OSSHServer := mkOSSHServer ∅ ∅ ∅ ∅ ∅ ∅ ∅ ∅ ∅ 0.

(** ** The corpus multisets *)

Definition hasFingerprint (o : OSSHServer) (sha1 : string) : bool :=
  if negb (hasKey (Fingerprints o) sha1) then false else true.

Definition hasUser (o : OSSHServer) (usr : string) : bool :=
  if negb (hasKey (Users o) usr) then false else true.

Definition hasPassword (o : OSSHServer) (pwd : string) : bool :=
  if negb (hasKey (Passwords o) pwd) then false else true.

Definition hasHost (o : OSSHServer) (host : string) : bool :=
  if negb (hasKey (Hosts o) host) then false else true.

(** [m[k]++]. *)
Definition increment (m : gmap string Z) (k : string) : gmap string Z :=
  <[k := uintWrap (getCount m k + 1)]> m.

Definition addFingerprint (sha1 : string) (o : OSSHServer) : OSSHServer :=
  let sha1 := TrimSpace sha1 in
  if String.eqb sha1 EmptyString then o
  else
    let o := if negb (hasFingerprint o sha1)
             then withFingerprints o (<[sha1 := 0]> (Fingerprints o)) else o in
    withFingerprints o (increment (Fingerprints o) sha1).

Definition addUser (usr : string) (o : OSSHServer) : OSSHServer :=
  let usr := TrimSpace usr in
  if String.eqb usr EmptyString then o
  else
    let o := if negb (hasUser o usr)
             then withUsers o (<[usr := 0]> (Users o)) else o in
    withUsers o (increment (Users o) usr).

Definition addPassword (pwd : string) (o : OSSHServer) : OSSHServer :=
  let pwd := TrimSpace pwd in
  if String.eqb pwd EmptyString then o
  else
    let o := if negb (hasPassword o pwd)
             then withPasswords o (<[pwd := 0]> (Passwords o)) else o in
    withPasswords o (increment (Passwords o) pwd).

Definition addHost (host : string) (o : OSSHServer) : OSSHServer :=
  let host := TrimSpace host in
  if String.eqb host EmptyString then o
  else
    let o := if negb (hasHost o host)
             then
               let o := withHosts o (<[host := 0]> (Hosts o)) in
               let o := withAttempts o (<[host := 0]> (Attempts o)) in
               let o := withFailed o (<[host := 0]> (Failed o)) in
               withOK o (<[host := 0]> (OK o))
             else o in
    withHosts o (increment (Hosts o) host).

Definition incCounter (stat : gmap string Z) (host : string) : gmap string Z :=
  let h := getCount stat host in
  <[host := uintWrap (h + 1)]> stat.

(** ** Log lines *)

Inductive LogArg : Type :=
| AStr (s : string)
| AColor (s : string) (color : Z)
| AInt (n : Z).

(** A call [Log(kind, format, args...)]: the marker, the format without its
    final line feed, and the arguments. *)
Record LogLine : Type := mkLogLine {
  logKind : string;
  logFormat : string;
  logArgs : list LogArg
}.

(** The server, the machine under it and the lines logged, newest first. *)
Record State : Type := mkState {
  ossh : OSSHServer;
  world : OS.World;
  logged : list LogLine
}.

Definition onServer (f : OSSHServer -> OSSHServer) (st : State) : State :=
  mkState (f (ossh st)) (world st) (logged st).

Definition Log (kind format : string) (args : list LogArg) (st : State) : State :=
  mkState (ossh st) (world st) (mkLogLine kind format args :: logged st).

Definition addLoginFailure (usr pwd host reason : string) (st : State) : State :=
  let pwd := if String.eqb pwd EmptyString then "(empty)" else pwd in
  let st := onServer (addUser usr) st in
  let st := onServer (addPassword pwd) st in
  let st := onServer (addHost host) st in
  let st := onServer (fun o => withAttempts o (incCounter (Attempts o) host)) st in
  let st := onServer (fun o => withFailed o (incCounter (Failed o) host)) st in
  Log "-" "%s@%s failed to login with password %s: %s. (%d attempts; %d failed; %d success)"
      [AColor usr 193; AColor host 229; AColor pwd 157; AColor reason 208;
       AInt (getCount (Attempts (ossh st)) host);
       AInt (getCount (Failed (ossh st)) host);
       AInt (getCount (OK (ossh st)) host)] st.

Definition addLoginSuccess (usr pwd host reason : string) (st : State) : State :=
  let pwd := if String.eqb pwd EmptyString then "(empty)" else pwd in
  let st := onServer (addUser usr) st in
  let st := onServer (addPassword pwd) st in
  let st := onServer (addHost host) st in
  let st := onServer (fun o => withAttempts o (incCounter (Attempts o) host)) st in
  let st := onServer (fun o => withOK o (incCounter (OK o) host)) st in
  Log "+" "%s@%s logged in with password %s: %s. (%d attempts; %d failed; %d success)"
      [AColor usr 193; AColor host 229; AColor pwd 157; AColor reason 121;
       AInt (getCount (Attempts (ossh st)) host);
       AInt (getCount (Failed (ossh st)) host);
       AInt (getCount (OK (ossh st)) host)] st.

(** ** Corpus files, captures and the auth policy

    Parts of the repository that are not among the source files are
    parameters here: the configuration [Conf], the hash [StringToSha1], the
    template renderer [ParseTemplateToString], the rendering of a time, and
    the order in which [maps.Keys] lists the keys of a map (Go leaves it
    open; it is some arrangement of the keys). *)

Record CaptureData : Type := mkCaptureData {
  dataCommands : string;
  dataHost : string;
  dataUser : string;
  dataDate : string
}.

(** What the auth handler reads of an [ssh.Context]. *)
Record Context : Type := mkContext {
  ctxUser : string;
  ctxRemoteAddr : string
}.

Definition lineFeed : string := bytes [10%nat].

(** The check mark U+2713 that marks some log lines, in UTF-8. *)
Definition checkMark : string := bytes [226; 156; 147]%nat.

(** Modelled from the spec: the helper [FileExists(path)] of the repository
    is not among the source files; it says whether a file named [path]
    exists (a directory is no file). *)
Definition FileExists (path : string) (w : OS.World) : bool :=
  match OS.lookupNode w (OS.resolve w path) with
  | Some (OS.File _ _) => true
  | _ => false
  end.

Section WithEnvironment.

Variable Conf : Config.
Variable StringToSha1 : string -> string.
Variable ParseTemplateToString : string -> CaptureData -> string.
Variable TimeString : Z -> string.
Variable maps_Keys : gmap string Z -> list string.

(** Reading a corpus file and adding each of its lines. *)
Definition loadWith (path what : string) (add : string -> OSSHServer -> OSSHServer)
    (st : State) : State :=
  if FileExists path (world st) then
    match OS.ReadFile path (world st) with
    | (_, OS.Err e) =>
        Log "x" ("Failed to read " +:+ what +:+ " file: %s") [AStr e] st
    | (_, OS.Ok content) =>
        let items := Split content (byte 10) in
        let st := Log "+" ("Loading %d " +:+ what) [AInt (Z.of_nat (length items))] st in
        fold_left (fun st item => onServer (add item) st) items st
    end
  else st.

Definition loadFingerprints : State -> State :=
  loadWith (PathFingerprints Conf) "fingerprints" addFingerprint.

Definition loadUsers : State -> State :=
  loadWith (PathUsers Conf) "users" addUser.

Definition loadPasswords : State -> State :=
  loadWith (PathPasswords Conf) "passwords" addPassword.

Definition loadHosts : State -> State :=
  loadWith (PathHosts Conf) "hosts" addHost.

(** The text a save writes: the keys joined by line feeds, and a final one. *)
Definition corpusText (m : gmap string Z) : string :=
  GoStrings.Join (maps_Keys m) lineFeed +:+ lineFeed.

Definition saveWith (path what : string) (m : gmap string Z) (st : State) : State :=
  let data := corpusText m in
  match OS.WriteFile path data (OS.octal 644) (world st) with
  | (w, OS.Err e) =>
      Log "x" ("Failed to write " +:+ what +:+ " file: %s") [AStr e]
          (mkState (ossh st) w (logged st))
  | (w, OS.Ok _) => mkState (ossh st) w (logged st)
  end.

Definition saveFingerprints (st : State) : State :=
  saveWith (PathFingerprints Conf) "fingerprints" (Fingerprints (ossh st)) st.

Definition saveUsers (st : State) : State :=
  saveWith (PathUsers Conf) "users" (Users (ossh st)) st.

Definition savePasswords (st : State) : State :=
  saveWith (PathPasswords Conf) "passwords" (Passwords (ossh st)) st.

Definition saveHosts (st : State) : State :=
  saveWith (PathHosts Conf) "hosts" (Hosts (ossh st)) st.

(** The name of the capture file of a session. *)
Definition capturePath (stats : FakeShellStats) : string :=
  let resSha1 := StringToSha1 (GoStrings.Join (CommandHistory stats) lineFeed) in
  PathCaptures Conf +:+ "/ocap-" +:+ statsHost stats +:+ "-" +:+ resSha1 +:+ ".sh".

Definition saveCapture (stats : FakeShellStats) (st : State) : State :=
  let date := TimeString (OS.clock (world st)) in
  let date :=
    match shells (ossh st) !! statsHost stats with
    | Some shell => TimeString (created shell)
    | None => date
    end in
  let data := mkCaptureData (GoStrings.Join (CommandHistory stats) lineFeed)
                            (statsHost stats) (statsUser stats) date in
  let resSha1 := StringToSha1 (dataCommands data) in
  let f := PathCaptures Conf +:+ "/ocap-" +:+ statsHost stats +:+ "-" +:+ resSha1 +:+ ".sh" in
  if FileExists f (world st) then st
  else
    let st := onServer (addFingerprint resSha1) st in
    let res := ParseTemplateToString "command-history" data in
    match OS.WriteFile f (lineFeed +:+ res +:+ lineFeed +:+ lineFeed) (OS.octal 744) (world st) with
    | (w, OS.Ok _) =>
        Log checkMark "Capture saved: %s" [AColor f 214] (mkState (ossh st) w (logged st))
    | (w, OS.Err _) => mkState (ossh st) w (logged st)
    end.

(** The loop of [authHandler] over the sync nodes: [true] when the secret
    credentials of a node are hit. *)
Fixpoint syncLoop (nodes : list SyncNode) (usr pwd host : string) (o : OSSHServer)
  : OSSHServer * bool :=
  match nodes with
  | [] => (o, false)
  | node :: rest =>
      if String.eqb usr (nodeUser node) && String.eqb pwd (nodePassword node)
         && String.eqb (nodeHost node) host
      then (withSyncClients o (<[host := true]> (syncClients o)), true)
      else syncLoop rest usr pwd host
             (withSyncClients o (<[host := false]> (syncClients o)))
  end.

(** The host of a remote address: what is in front of its first colon. *)
Definition hostOf (remoteAddr : string) : string :=
  hd EmptyString (Split remoteAddr ":").

Definition authHandler (ctx : Context) (pwd : string) (st : State) : State * bool :=
  let usr := ctxUser ctx in
  let host := hostOf (ctxRemoteAddr ctx) in
  let '(o, hit) := syncLoop (SyncNodes Conf) usr pwd host (ossh st) in
  let st := mkState o (world st) (logged st) in
  if hit then (st, true)
  else if hasHost (ossh st) host
  then (addLoginSuccess usr pwd host "host is back for more" st, true)
  else if hasUser (ossh st) usr && hasPassword (ossh st) pwd
  then (addLoginFailure usr pwd host "host does not have new credentials" st, false)
  else if hasUser (ossh st) usr
  then (addLoginSuccess usr pwd host "host got the user name right" st, true)
  else if hasPassword (ossh st) pwd
  then (addLoginSuccess usr pwd host "host got the password right" st, true)
  else if negb (Z.rem (OS.clock (world st)) 3 =? 0)
  then (addLoginFailure usr pwd host "host lost a game of dice" st, false)
  else (addLoginSuccess usr pwd host "host dodged all obstacles" st, true).

(** [sessionHandler], from the point where the fake shell [fs] of the
    session has run and returned [stats]. *)
Definition sessionHandler (host : string) (fs : FakeShell) (stats : FakeShellStats)
    (st : State) : State :=
  let st := onServer (fun o => withShells o (<[host := fs]> (shells o))) st in
  let peer := default false (syncClients (ossh st) !! host) in
  let st :=
    if negb peer then
      Log checkMark "%s@%s spent %s running %s command(s)"
          [AColor (shellUser fs) 193; AColor host 229; AInt (TimeSpent stats);
           AInt (CommandsExecuted stats)]
          (onServer (fun o => withTimeWasted o (intWrap (TimeWasted o + TimeSpent stats))) st)
    else st in
  let st := saveUsers st in
  let st := savePasswords st in
  let st := saveHosts st in
  let st := saveFingerprints st in
  let st := if negb peer then saveCapture stats st else st in
  onServer (fun o => withShells o (delete host (shells o))) st.

(** [init]: the four corpus files are loaded. *)
Definition init (st : State) : State :=
  loadFingerprints (loadPasswords (loadUsers (loadHosts st))).

(** [getSyncSecrets]: the first configured node of the host. *)
Fixpoint firstNodeOf (nodes : list SyncNode) (host : string) : option SyncNode :=
  match nodes with
  | [] => None
  | node :: rest =>
      if String.eqb (nodeHost node) host then Some node else firstNodeOf rest host
  end.

Definition getSyncSecrets (host : string) : OS.result SyncNode :=
  match firstNodeOf (SyncNodes Conf) host with
  | Some node => OS.Ok node
  | None => OS.Err ("No sync secrets found for " +:+ host)
  end.

(** The callbacks of the SSH server that grant or deny a request. *)
Definition localPortForwardingCallback (ctx : Context) (bindHost : string) (bindPort : Z)
    (st : State) : State * bool :=
  (Log "!" "%s@%s tried to locally forward port %s. Request denied!"
       [AColor (ctxUser ctx) 193; AColor bindHost 229;
        AColor (Overlay.FormatInt bindPort) 51] st,
   false).

Definition reversePortForwardingCallback (ctx : Context) (bindHost : string) (bindPort : Z)
    (st : State) : State * bool :=
  (Log "!" "%s@%s tried to reverse forward port %s. Request denied!"
       [AColor (ctxUser ctx) 193; AColor bindHost 229;
        AColor (Overlay.FormatInt bindPort) 51] st,
   false).

Definition ptyCallback (ctx : Context) (term : string) (st : State) : State * bool :=
  let host := hostOf (ctxRemoteAddr ctx) in
  if default false (syncClients (ossh st) !! host) then (st, true)
  else (Log "+" "%s@%s started %s PTY session"
            [AColor (ctxUser ctx) 193; AColor host 229; AColor term 51] st,
        true).

Definition sessionRequestCallback (sess : Context) (requestType : string) (st : State)
  : State * bool :=
  let host := hostOf (ctxRemoteAddr sess) in
  if default false (syncClients (ossh st) !! host) then (st, true)
  else (Log "+" "%s@%s requested %s session"
            [AColor (ctxUser sess) 193; AColor host 229; AColor requestType 51] st,
        true).

(** [connectionFailedCallback], given the remote address of the connection
    and the text of the error. *)
Definition connectionFailedCallback (remoteAddr err : string) (st : State) : State :=
  if negb (String.eqb err "EOF") then
    let host := hostOf remoteAddr in
    match (if hasHost (ossh st) host then shells (ossh st) !! host else None) with
    | Some shell =>
        Log "!" "%s@%s's connection failed: %s"
            [AColor (shellUser shell) 193; AColor host 229; AColor err 208] st
    | None =>
        Log "!" "%s's connection failed: %s" [AColor host 229; AColor err 208] st
    end
  else st.

End WithEnvironment.

End Server.

(* ===================================================================== *)
(** * The definitions at work on small inputs *)
(* ===================================================================== *)

(** A machine for the examples: base directory [/ofs] with the sandbox of
    host [k], which has the layers the list names. *)
Definition sandboxWorld (layers : list string) (now : Z) : OS.World :=
  OS.mkWorld
    (list_to_map
       ([("/ofs", OS.Dir (OS.octal 755));
         ("/ofs/defaultfs", OS.Dir (OS.octal 755));
         ("/ofs/sandboxes", OS.Dir (OS.octal 755));
         ("/ofs/sandboxes/k", OS.Dir (OS.octal 755));
         ("/ofs/sandboxes/k/layers", OS.Dir (OS.octal 755))]
        ++ map (fun t => ("/ofs/sandboxes/k/layers/" +:+ t, OS.Dir (OS.octal 755))) layers))
    ∅ (OS.octal 22) "/" now.

Example Split_lines :
  Split ("a" +:+ bytes [10]%nat +:+ "b" +:+ bytes [10]%nat) (byte 10) = ["a"; "b"; EmptyString].
Proof. reflexivity. Qed.

Example Split_empty : Split EmptyString ":" = [EmptyString].
Proof. reflexivity. Qed.

Example TrimSpace_ex : TrimSpace (bytes [32; 9]%nat +:+ "root " +:+ bytes [194; 160]%nat) = "root".
Proof. reflexivity. Qed.

Example Atoi_number : Atoi "1651413027" = (1651413027, false).
Proof. reflexivity. Qed.

Example Atoi_path : Atoi "base/sandboxes/k/layers/1651413027" = (0, true).
Proof. reflexivity. Qed.

Example Clean_ex1 : FilePath.Clean "/a/b/../../../etc//shadow/." = "/etc/shadow".
Proof. reflexivity. Qed.

Example Clean_ex2 : FilePath.Clean "a/../../b" = "../b".
Proof. reflexivity. Qed.

Example Join_ex : FilePath.Join [EmptyString; "ofs"; "sandboxes"; "10.0.0.1"] = "ofs/sandboxes/10.0.0.1".
Proof. reflexivity. Qed.

Example Abs_ex : FilePath.Abs "/srv" "ofs/sandboxes/k/merge-7" = "/srv/ofs/sandboxes/k/merge-7".
Proof. reflexivity. Qed.

Example octal_755 : OS.octal 755 = 493.
Proof. reflexivity. Qed.

Example syscallMode_700 : OS.syscallMode 700 = OS.octal 274.
Proof. reflexivity. Qed.

Example NewSession_ex :
  (Overlay.NewSession (Overlay.mkManager "/ofs") "k"
     (sandboxWorld ["1651401234"; "1651413027"] 1651420000)).2
  = OS.Ok (Overlay.mkOverlayFS
             "/ofs/sandboxes/k/merge-1651420000"
             "/ofs/sandboxes/k/layers/1651420000"
             "/ofs/sandboxes/k/work-1651420000"
             ["/ofs/sandboxes/k/layers/1651401234";
              "/ofs/sandboxes/k/layers/1651413027";
              "/ofs/defaultfs"]).
Proof. vm_compute. reflexivity. Qed.

(* ===================================================================== *)
(** * The auth policy *)
(* ===================================================================== *)

Module AuthFacts.
Import Server.

(** The reason a login line of the log carries (its fourth argument). *)
Definition loginReason (line : LogLine) : option string :=
  match logArgs line with
  | [_; _; _; AColor reason _; _; _; _] => Some reason
  | _ => None
  end.

(** The attempt hits the secret credentials of the sync node. *)
Definition isSyncTriple (usr pwd host : string) (node : SyncNode) : Prop :=
  usr = nodeUser node /\ pwd = nodePassword node /\ nodeHost node = host.

(** The outcome of an auth attempt as the log shows it: the newest line is
    a login line with this marker and this reason. *)
Definition recorded (marker reason : string) (before after : State) : Prop :=
  exists line,
    logged after = line :: logged before
    /\ logKind line = marker
    /\ loginReason line = Some reason.

Section Policy.

Variable Conf : Config.

Lemma syncLoop_miss nodes usr pwd host o :
  (forall node, node ∈ nodes -> ~ isSyncTriple usr pwd host node) ->
  exists sc, syncLoop nodes usr pwd host o = (withSyncClients o sc, false).
Proof.
  revert o. induction nodes as [|node rest IH]; intros o Hmiss; simpl.
  - exists (syncClients o). by destruct o.
  - destruct (String.eqb usr (nodeUser node) && String.eqb pwd (nodePassword node)
              && String.eqb (nodeHost node) host) eqn:Hhit.
    + exfalso. apply (Hmiss node); [left|].
      apply andb_prop in Hhit as [Hup Hh]. apply andb_prop in Hup as [Hu Hp].
      apply String.eqb_eq in Hu, Hp, Hh. by repeat split.
    + destruct (IH (withSyncClients o (<[host:=false]> (syncClients o)))) as [sc Hsc].
      { intros n Hn. apply Hmiss. by right. }
      exists sc. by rewrite Hsc.
Qed.

Lemma addLoginSuccess_recorded usr pwd host reason st :
  recorded "+" reason st (addLoginSuccess usr pwd host reason st).
Proof. unfold recorded, addLoginSuccess, Log. simpl. eexists. split; [reflexivity|]. by split. Qed.

Lemma addLoginFailure_recorded usr pwd host reason st :
  recorded "-" reason st (addLoginFailure usr pwd host reason st).
Proof. unfold recorded, addLoginFailure, Log. simpl. eexists. split; [reflexivity|]. by split. Qed.

(** C3: an attempt that is no sync-peer triple and whose host is in [Hosts]
    is accepted with the reason "host is back for more", whatever is known
    about its user and password. *)
Theorem known_host_is_accepted (ctx : Context) (pwd : string) (st : State) :
  let usr := ctxUser ctx in
  let host := hostOf (ctxRemoteAddr ctx) in
  (forall node, node ∈ SyncNodes Conf -> ~ isSyncTriple usr pwd host node) ->
  is_Some (Hosts (ossh st) !! host) ->
  (authHandler Conf ctx pwd st).2 = true
  /\ recorded "+" "host is back for more" st (authHandler Conf ctx pwd st).1.
Proof.
  intros usr host Hmiss Hknown.
  destruct (syncLoop_miss (SyncNodes Conf) usr pwd host (ossh st) Hmiss) as [sc Hsc].
  unfold authHandler. fold usr host. rewrite Hsc. cbn [ossh].
  assert (Hh : hasHost (withSyncClients (ossh st) sc) host = true).
  { unfold hasHost, hasKey. simpl. by rewrite bool_decide_eq_true_2. }
  rewrite Hh. split; [reflexivity|].
  apply (addLoginSuccess_recorded usr pwd host "host is back for more"
           (mkState (withSyncClients (ossh st) sc) (world st) (logged st))).
Qed.

(** C4: an attempt that is no sync-peer triple and whose host, user and
    password are all new is accepted exactly when the unix time is a multiple
    of three, with the reason "host dodged all obstacles"; otherwise it is
    rejected with the reason "host lost a game of dice". *)
Theorem novel_attempt_rolls_dice (ctx : Context) (pwd : string) (st : State) :
  let usr := ctxUser ctx in
  let host := hostOf (ctxRemoteAddr ctx) in
  let res := authHandler Conf ctx pwd st in
  (forall node, node ∈ SyncNodes Conf -> ~ isSyncTriple usr pwd host node) ->
  Hosts (ossh st) !! host = None ->
  Users (ossh st) !! usr = None ->
  Passwords (ossh st) !! pwd = None ->
  (res.2 = true <-> OS.clock (world st) mod 3 = 0)
  /\ (res.2 = true -> recorded "+" "host dodged all obstacles" st res.1)
  /\ (res.2 = false -> recorded "-" "host lost a game of dice" st res.1).
Proof.
  intros usr host res Hmiss Hh Hu Hp. subst res.
  destruct (syncLoop_miss (SyncNodes Conf) usr pwd host (ossh st) Hmiss) as [sc Hsc].
  unfold authHandler. fold usr host. rewrite Hsc. cbn [ossh].
  assert (Eh : hasHost (withSyncClients (ossh st) sc) host = false).
  { unfold hasHost, hasKey. simpl. rewrite Hh. reflexivity. }
  assert (Eu : hasUser (withSyncClients (ossh st) sc) usr = false).
  { unfold hasUser, hasKey. simpl. rewrite Hu. reflexivity. }
  assert (Ep : hasPassword (withSyncClients (ossh st) sc) pwd = false).
  { unfold hasPassword, hasKey. simpl. rewrite Hp. reflexivity. }
  rewrite Eh, Eu, Ep. cbn [andb world].
  assert (Hrem : Z.rem (OS.clock (world st)) 3 = 0 <-> OS.clock (world st) mod 3 = 0).
  { rewrite Z.rem_divide by lia. rewrite Z.mod_divide by lia. reflexivity. }
  destruct (Z.rem (OS.clock (world st)) 3 =? 0) eqn:Hdice; cbn [negb fst snd].
  - apply Z.eqb_eq in Hdice. split; [|split].
    + split; [intros _; by apply Hrem | reflexivity].
    + intros _.
      apply (addLoginSuccess_recorded usr pwd host "host dodged all obstacles"
               (mkState (withSyncClients (ossh st) sc) (world st) (logged st))).
    + discriminate.
  - apply Z.eqb_neq in Hdice. split; [|split].
    + split; [discriminate | intros H; exfalso; apply Hdice; by apply Hrem].
    + discriminate.
    + intros _.
      apply (addLoginFailure_recorded usr pwd host "host lost a game of dice"
               (mkState (withSyncClients (ossh st) sc) (world st) (logged st))).
Qed.

End Policy.

End AuthFacts.

(* ===================================================================== *)
(** * The corpus store *)
(* ===================================================================== *)

Module CorpusFacts.
Import Server.

(** What can happen to a running server: every operation that touches the
    corpus, and the world around it changing (files edited, time passing). *)
Inductive Event : Type :=
| EvAddHost (host : string)
| EvAddUser (usr : string)
| EvAddPassword (pwd : string)
| EvAddFingerprint (sha1 : string)
| EvLoadHosts
| EvLoadUsers
| EvLoadPasswords
| EvLoadFingerprints
| EvLoginSuccess (usr pwd host reason : string)
| EvLoginFailure (usr pwd host reason : string)
| EvAuth (ctx : Context) (pwd : string)
| EvSaveCapture (stats : FakeShellStats)
| EvSession (host : string) (fs : FakeShell) (stats : FakeShellStats)
| EvWorld (w : OS.World).

Section Runs.

Variable Conf : Config.
Variable StringToSha1 : string -> string.
Variable ParseTemplateToString : string -> CaptureData -> string.
Variable TimeString : Z -> string.
Variable maps_Keys : gmap string Z -> list string.

Definition step (st : State) (ev : Event) : State :=
  match ev with
  | EvAddHost host => onServer (addHost host) st
  | EvAddUser usr => onServer (addUser usr) st
  | EvAddPassword pwd => onServer (addPassword pwd) st
  | EvAddFingerprint sha1 => onServer (addFingerprint sha1) st
  | EvLoadHosts => loadHosts Conf st
  | EvLoadUsers => loadUsers Conf st
  | EvLoadPasswords => loadPasswords Conf st
  | EvLoadFingerprints => loadFingerprints Conf st
  | EvLoginSuccess usr pwd host reason => addLoginSuccess usr pwd host reason st
  | EvLoginFailure usr pwd host reason => addLoginFailure usr pwd host reason st
  | EvAuth ctx pwd => (authHandler Conf ctx pwd st).1
  | EvSaveCapture stats =>
      saveCapture Conf StringToSha1 ParseTemplateToString TimeString stats st
  | EvSession host fs stats =>
      sessionHandler Conf StringToSha1 ParseTemplateToString TimeString maps_Keys
                     host fs stats st
  | EvWorld w => mkState (ossh st) w (logged st)
  end.

(** The server after a sequence of events, from the empty maps of
    [NewOSSHServer]. *)
Definition run (w : OS.World) (events : list Event) : State :=
  fold_left step events (mkState emptyServer w []).

End Runs.

(** ** The login counters *)

(** A property of the three login counters of every host. *)
Definition counters (P : Z -> Z -> Z -> Prop) (o : OSSHServer) : Prop :=
  forall h, P (getCount (Attempts o) h) (getCount (Failed o) h) (getCount (OK o) h).

Definition sameCounters (o o' : OSSHServer) : Prop :=
  Attempts o' = Attempts o /\ Failed o' = Failed o /\ OK o' = OK o.

Lemma sameCounters_refl o : sameCounters o o.
Proof. by repeat split. Qed.

Lemma sameCounters_trans o1 o2 o3 :
  sameCounters o1 o2 -> sameCounters o2 o3 -> sameCounters o1 o3.
Proof. intros (?&?&?) (?&?&?). repeat split; congruence. Qed.

Lemma counters_same P o o' : sameCounters o o' -> counters P o -> counters P o'.
Proof. intros (Ea & Ef & Ek) H h. rewrite Ea, Ef, Ek. apply H. Qed.

Lemma getCount_insert (m : gmap string Z) k v h :
  getCount (<[k := v]> m) h = if decide (k = h) then v else getCount m h.
Proof.
  unfold getCount. rewrite lookup_insert. by destruct (decide (k = h)).
Qed.

Lemma addUser_sameCounters usr o : sameCounters o (addUser usr o).
Proof.
  unfold addUser. destruct (String.eqb _ _); [apply sameCounters_refl|].
  destruct (negb _); by repeat split.
Qed.

Lemma addPassword_sameCounters pwd o : sameCounters o (addPassword pwd o).
Proof.
  unfold addPassword. destruct (String.eqb _ _); [apply sameCounters_refl|].
  destruct (negb _); by repeat split.
Qed.

Lemma addFingerprint_sameCounters sha1 o : sameCounters o (addFingerprint sha1 o).
Proof.
  unfold addFingerprint. destruct (String.eqb _ _); [apply sameCounters_refl|].
  destruct (negb _); by repeat split.
Qed.

(** [addHost] leaves the counters alone or sets the three of one host to 0. *)
Lemma addHost_counters P host o :
  P 0 0 0 -> counters P o -> counters P (addHost host o).
Proof.
  intros H0 H. unfold addHost. destruct (String.eqb _ _); [exact H|].
  destruct (negb _); intros h; simpl; [|apply H].
  rewrite !getCount_insert. destruct (decide _); [exact H0 | apply H].
Qed.

Lemma fold_add_sameCounters (add : string -> OSSHServer -> OSSHServer) items st :
  (forall s o, sameCounters o (add s o)) ->
  sameCounters (ossh st) (ossh (fold_left (fun st item => onServer (add item) st) items st)).
Proof.
  intros Hadd. revert st. induction items as [|i items IH]; intros st; simpl.
  - apply sameCounters_refl.
  - eapply sameCounters_trans; [|apply IH]. apply Hadd.
Qed.

Lemma fold_addHost_counters P items st :
  P 0 0 0 -> counters P (ossh st) ->
  counters P (ossh (fold_left (fun st item => onServer (addHost item) st) items st)).
Proof.
  intros H0. revert st. induction items as [|i items IH]; intros st H; simpl; [exact H|].
  apply IH. by apply addHost_counters.
Qed.

Lemma loadWith_sameCounters path what add st :
  (forall s o, sameCounters o (add s o)) ->
  sameCounters (ossh st) (ossh (loadWith path what add st)).
Proof.
  intros Hadd. unfold loadWith. destruct (FileExists _ _); [|apply sameCounters_refl].
  destruct (OS.ReadFile _ _) as [w [content|e]]; [|apply sameCounters_refl].
  apply (fold_add_sameCounters add _ (Log _ _ _ st) Hadd).
Qed.

Lemma loadHosts_counters Conf P st :
  P 0 0 0 -> counters P (ossh st) -> counters P (ossh (loadHosts Conf st)).
Proof.
  intros H0 H. unfold loadHosts, loadWith. destruct (FileExists _ _); [|exact H].
  destruct (OS.ReadFile _ _) as [w [content|e]]; [|exact H].
  by apply fold_addHost_counters.
Qed.

Lemma saveWith_ossh maps_Keys path what m st :
  ossh (saveWith maps_Keys path what m st) = ossh st.
Proof. unfold saveWith. by destruct (OS.WriteFile _ _ _ _) as [w [[]|e]]. Qed.

Lemma saveCapture_sameCounters Conf sha tpl ts stats st :
  sameCounters (ossh st) (ossh (saveCapture Conf sha tpl ts stats st)).
Proof.
  unfold saveCapture. destruct (FileExists _ _); [apply sameCounters_refl|].
  destruct (OS.WriteFile _ _ _ _) as [w [[]|e]]; simpl;
    apply addFingerprint_sameCounters.
Qed.

Lemma sessionHandler_sameCounters Conf sha tpl ts keys host fs stats st :
  sameCounters (ossh st) (ossh (sessionHandler Conf sha tpl ts keys host fs stats st)).
Proof.
  unfold sessionHandler. cbv zeta.
  match goal with |- sameCounters _ (ossh (onServer _ ?x)) => set (last := x) end.
  assert (Hlast : sameCounters (ossh st) (ossh last));
    [|destruct Hlast as (?&?&?); by repeat split].
  subst last.
  match goal with |- context [if ?b then saveCapture _ _ _ _ _ ?s else _] =>
    set (saved := s); set (attacker := b) end.
  assert (Hs : sameCounters (ossh st) (ossh saved)).
  { subst saved. unfold saveUsers, savePasswords, saveHosts, saveFingerprints.
    rewrite !saveWith_ossh. destruct (negb _); by repeat split. }
  destruct attacker; [|exact Hs].
  eapply sameCounters_trans; [exact Hs | apply saveCapture_sameCounters].
Qed.

Lemma syncLoop_sameCounters nodes usr pwd host o :
  sameCounters o (syncLoop nodes usr pwd host o).1.
Proof.
  revert o. induction nodes as [|n rest IH]; intros o; simpl; [apply sameCounters_refl|].
  destruct (_ && _); simpl; [by repeat split|].
  eapply sameCounters_trans; [|apply IH]. by repeat split.
Qed.

(** A recorded failure adds one to [Attempts] and [Failed] of the host, a
    recorded success one to [Attempts] and [OK]. *)
Lemma addLoginFailure_counters (P Q : Z -> Z -> Z -> Prop) usr pwd host reason st :
  P 0 0 0 ->
  (forall a f k, P a f k -> Q a f k) ->
  (forall a f k, P a f k -> Q (uintWrap (a + 1)) (uintWrap (f + 1)) k) ->
  counters P (ossh st) -> counters Q (ossh (addLoginFailure usr pwd host reason st)).
Proof.
  intros H0 Hweak Hinc H. unfold addLoginFailure, Log, onServer. cbn [ossh].
  set (o := addHost host (addPassword _ (addUser usr (ossh st)))).
  assert (Ho : counters P o).
  { subst o. apply addHost_counters; [exact H0|].
    eapply counters_same; [apply addPassword_sameCounters|].
    eapply counters_same; [apply addUser_sameCounters|]. exact H. }
  intros h. simpl. unfold incCounter. rewrite !getCount_insert.
  destruct (decide (host = h)) as [->|]; [apply Hinc | apply Hweak]; apply Ho.
Qed.

Lemma addLoginSuccess_counters (P Q : Z -> Z -> Z -> Prop) usr pwd host reason st :
  P 0 0 0 ->
  (forall a f k, P a f k -> Q a f k) ->
  (forall a f k, P a f k -> Q (uintWrap (a + 1)) f (uintWrap (k + 1))) ->
  counters P (ossh st) -> counters Q (ossh (addLoginSuccess usr pwd host reason st)).
Proof.
  intros H0 Hweak Hinc H. unfold addLoginSuccess, Log, onServer. cbn [ossh].
  set (o := addHost host (addPassword _ (addUser usr (ossh st)))).
  assert (Ho : counters P o).
  { subst o. apply addHost_counters; [exact H0|].
    eapply counters_same; [apply addPassword_sameCounters|].
    eapply counters_same; [apply addUser_sameCounters|]. exact H. }
  intros h. simpl. unfold incCounter. rewrite !getCount_insert.
  destruct (decide (host = h)) as [->|]; [apply Hinc | apply Hweak]; apply Ho.
Qed.

Section Invariant.

Variable Conf : Config.
Variable StringToSha1 : string -> string.
Variable ParseTemplateToString : string -> CaptureData -> string.
Variable TimeString : Z -> string.
Variable maps_Keys : gmap string Z -> list string.

Local Abbreviation step := (step Conf StringToSha1 ParseTemplateToString TimeString maps_Keys).
Local Abbreviation run := (run Conf StringToSha1 ParseTemplateToString TimeString maps_Keys).

Lemma authHandler_counters (P Q : Z -> Z -> Z -> Prop) ctx pwd st :
  P 0 0 0 ->
  (forall a f k, P a f k -> Q a f k) ->
  (forall a f k, P a f k -> Q (uintWrap (a + 1)) (uintWrap (f + 1)) k) ->
  (forall a f k, P a f k -> Q (uintWrap (a + 1)) f (uintWrap (k + 1))) ->
  counters P (ossh st) -> counters Q (ossh (authHandler Conf ctx pwd st).1).
Proof.
  intros H0 Hweak HincF HincS H. unfold authHandler.
  pose proof (syncLoop_sameCounters (SyncNodes Conf) (ctxUser ctx) pwd
                (hostOf (ctxRemoteAddr ctx)) (ossh st)) as Hsync.
  destruct (syncLoop _ _ _ _ _) as [o hit]. simpl in Hsync.
  assert (Ho : counters P o) by (eapply counters_same; eauto).
  set (st0 := mkState o (world st) (logged st)).
  assert (Hst0 : counters P (ossh st0)) by exact Ho.
  destruct hit; [intros h; apply Hweak, Ho|].
  fold st0.
  destruct (hasHost (ossh st0) _);
    [cbn [fst]; by apply (addLoginSuccess_counters P Q)|].
  destruct (hasUser (ossh st0) _ && hasPassword (ossh st0) _);
    [cbn [fst]; by apply (addLoginFailure_counters P Q)|].
  destruct (hasUser (ossh st0) _);
    [cbn [fst]; by apply (addLoginSuccess_counters P Q)|].
  destruct (hasPassword (ossh st0) _);
    [cbn [fst]; by apply (addLoginSuccess_counters P Q)|].
  destruct (negb _); cbn [fst];
    [by apply (addLoginFailure_counters P Q) | by apply (addLoginSuccess_counters P Q)].
Qed.

(** One event: the counters go from [P] to [Q] when [Q] holds after a
    reset, after doing nothing and after either kind of login record. *)
Lemma step_counters (P Q : Z -> Z -> Z -> Prop) ev st :
  P 0 0 0 ->
  (forall a f k, P a f k -> Q a f k) ->
  (forall a f k, P a f k -> Q (uintWrap (a + 1)) (uintWrap (f + 1)) k) ->
  (forall a f k, P a f k -> Q (uintWrap (a + 1)) f (uintWrap (k + 1))) ->
  counters P (ossh st) -> counters Q (ossh (step st ev)).
Proof.
  intros H0 Hweak HincF HincS H.
  assert (HQ : forall o, counters P o -> counters Q o)
    by (intros o Ho h; apply Hweak, Ho).
  destruct ev; unfold CorpusFacts.step; cbn [onServer ossh].
  - apply HQ. by apply addHost_counters.
  - apply HQ. eapply counters_same; [apply addUser_sameCounters | exact H].
  - apply HQ. eapply counters_same; [apply addPassword_sameCounters | exact H].
  - apply HQ. eapply counters_same; [apply addFingerprint_sameCounters | exact H].
  - apply HQ. by apply loadHosts_counters.
  - apply HQ. eapply counters_same; [|exact H].
    apply loadWith_sameCounters, addUser_sameCounters.
  - apply HQ. eapply counters_same; [|exact H].
    apply loadWith_sameCounters, addPassword_sameCounters.
  - apply HQ. eapply counters_same; [|exact H].
    apply loadWith_sameCounters, addFingerprint_sameCounters.
  - by apply (addLoginSuccess_counters P Q).
  - by apply (addLoginFailure_counters P Q).
  - by apply (authHandler_counters P Q).
  - apply HQ. eapply counters_same; [apply saveCapture_sameCounters | exact H].
  - apply HQ. eapply counters_same; [apply sessionHandler_sameCounters | exact H].
  - apply HQ, H.
Qed.

(** The invariant as Go evaluates it: [Attempts[h] == Failed[h] + OK[h]]
    with the addition of [uint]. *)
Definition balanced (a f k : Z) : Prop := a = uintWrap (f + k).

(** The invariant in the integers, with the bound that keeps it exact. *)
Definition exact (n a f k : Z) : Prop := 0 <= f /\ 0 <= k /\ a = f + k /\ a <= n.

Lemma uintWrap_small x : 0 <= x < 2 ^ 64 -> uintWrap x = x.
Proof. intros H. unfold uintWrap. by apply Z.mod_small. Qed.

Lemma balanced_failure a f k :
  balanced a f k -> balanced (uintWrap (a + 1)) (uintWrap (f + 1)) k.
Proof.
  unfold balanced, uintWrap. intros ->.
  rewrite Zplus_mod_idemp_l. rewrite (Zplus_mod_idemp_l (f + 1)). f_equal. lia.
Qed.

Lemma balanced_success a f k :
  balanced a f k -> balanced (uintWrap (a + 1)) f (uintWrap (k + 1)).
Proof.
  unfold balanced, uintWrap. intros ->.
  rewrite Zplus_mod_idemp_l. rewrite (Zplus_mod_idemp_r (k + 1)). f_equal. lia.
Qed.

Lemma fold_balanced events st :
  counters balanced (ossh st) -> counters balanced (ossh (fold_left step events st)).
Proof.
  revert st. induction events as [|ev events IH]; intros st H; simpl; [exact H|].
  apply IH. apply (step_counters balanced balanced); auto.
  - reflexivity.
  - apply balanced_failure.
  - apply balanced_success.
Qed.

Lemma fold_exact events n st :
  0 <= n -> n + Z.of_nat (length events) < 2 ^ 64 ->
  counters (exact n) (ossh st) ->
  counters (exact (n + Z.of_nat (length events))) (ossh (fold_left step events st)).
Proof.
  revert n st. induction events as [|ev events IH]; intros n st Hn Hlen H.
  - cbn [fold_left length]. replace (n + Z.of_nat 0) with n by lia. exact H.
  - cbn [fold_left]. rewrite length_cons, Nat2Z.inj_succ in *.
    replace (n + Z.succ (Z.of_nat (length events)))
      with ((n + 1) + Z.of_nat (length events)) by lia.
    apply IH; [lia | lia |].
    apply (step_counters (exact n) (exact (n + 1))); [| | | |exact H];
      unfold exact.
    + lia.
    + intros a f k (?&?&?&?). lia.
    + intros a f k (?&?&?&?). rewrite !uintWrap_small by lia. lia.
    + intros a f k (?&?&?&?). rewrite !uintWrap_small by lia. lia.
Qed.

Lemma emptyServer_counters (P : Z -> Z -> Z -> Prop) : P 0 0 0 -> counters P emptyServer.
Proof. intros H0 h. exact H0. Qed.

(** C5: after any sequence of corpus operations the counters of every host
    satisfy [Attempts[h] == Failed[h] + OK[h]], as Go computes it on
    [uint]; and the equation holds in the integers as long as fewer than
    2^64 operations have taken place. *)
Theorem login_counters_balanced (w : OS.World) (events : list Event) (h : string) :
  let o := ossh (run w events) in
  getCount (Attempts o) h = uintWrap (getCount (Failed o) h + getCount (OK o) h)
  /\ (Z.of_nat (length events) < 2 ^ 64 ->
      getCount (Attempts o) h = getCount (Failed o) h + getCount (OK o) h).
Proof.
  intros o. subst o. unfold CorpusFacts.run. split.
  - apply (fold_balanced events (mkState emptyServer w [])).
    apply emptyServer_counters. reflexivity.
  - intros Hlen.
    pose proof (fold_exact events 0 (mkState emptyServer w []) ltac:(lia) ltac:(lia)
                  (emptyServer_counters (exact 0) ltac:(unfold exact; lia)) h) as H.
    unfold exact in H. lia.
Qed.

End Invariant.

End CorpusFacts.

(* ===================================================================== *)
(** * White space and trimming *)
(* ===================================================================== *)

Module TrimFacts.

(** A string made of white-space runes only. *)
Inductive onlySpace : string -> Prop :=
| onlySpace_nil : onlySpace EmptyString
| onlySpace_rune sp s : sp ∈ spaceRunes -> onlySpace s -> onlySpace (sp +:+ s).

Lemma length_append (a b : string) :
  String.length (a +:+ b) = (String.length a + String.length b)%nat.
Proof. induction a as [|c a IH]; simpl; [reflexivity | by rewrite IH]. Qed.

Lemma append_cons (x : ascii) (a b : string) : String x a +:+ b = String x (a +:+ b).
Proof. reflexivity. Qed.

Lemma append_assoc (a b c : string) : (a +:+ b) +:+ c = a +:+ (b +:+ c).
Proof.
  induction a as [|x a IH]; [reflexivity|]. by rewrite !append_cons, IH.
Qed.

Lemma append_empty_r (a : string) : a +:+ EmptyString = a.
Proof.
  induction a as [|x a IH]; [reflexivity|]. by rewrite append_cons, IH.
Qed.

Lemma leadingSpace_rune sp s :
  sp ∈ spaceRunes ->
  leadingSpace (sp +:+ s) = Some (String.length sp)
  /\ dropBytes (String.length sp) (sp +:+ s) = s
  /\ (0 < String.length sp)%nat.
Proof.
  intros H. unfold spaceRunes in H. cbn [map] in H.
  repeat (apply elem_of_cons in H as [->|H]);
    try (split; [vm_compute; reflexivity | split; [reflexivity | cbn; lia]]).
  by apply elem_of_nil in H.
Qed.

Lemma trimLeftFuel_onlySpace s :
  onlySpace s -> forall fuel, (String.length s <= fuel)%nat ->
  trimLeftFuel fuel s = EmptyString.
Proof.
  induction 1 as [|sp s Hsp Hs IH]; intros fuel Hfuel.
  - by destruct fuel.
  - destruct (leadingSpace_rune sp s Hsp) as (Hlead & Hdrop & Hpos).
    rewrite length_append in Hfuel.
    destruct fuel as [|fuel]; [lia|].
    cbn [trimLeftFuel]. rewrite Hlead, Hdrop. apply IH. lia.
Qed.

Lemma TrimSpace_onlySpace s : onlySpace s -> TrimSpace s = EmptyString.
Proof.
  intros H. unfold TrimSpace, TrimLeftSpace.
  by rewrite (trimLeftFuel_onlySpace s H).
Qed.

(** ** Trimming twice *)

Lemma spaceRunes_nonempty sp : sp ∈ spaceRunes -> (0 < String.length sp)%nat.
Proof. intros H. by destruct (leadingSpace_rune sp EmptyString H) as (_ & _ & ?). Qed.

Lemma length_dropBytes n s :
  String.length (dropBytes n s) = (String.length s - n)%nat.
Proof.
  revert s. induction n as [|n IH]; intros s; simpl; [lia|].
  destruct s; simpl; [reflexivity | apply IH].
Qed.

Lemma length_HasPrefix s p : HasPrefix s p = true -> (String.length p <= String.length s)%nat.
Proof.
  revert s. induction p as [|c p IH]; intros s H; simpl in *; [lia|].
  destruct s as [|d s]; [discriminate|]. destruct (Ascii.eqb d c); [|discriminate].
  apply IH in H. simpl. lia.
Qed.

Lemma HasPrefix_append s x p : HasPrefix s p = true -> HasPrefix (s +:+ x) p = true.
Proof.
  revert s. induction p as [|c p IH]; intros s H; simpl in *; [reflexivity|].
  destruct s as [|d s]; [discriminate|]. simpl.
  destruct (Ascii.eqb d c); [by apply IH | discriminate].
Qed.

(** One scheme for both ends: [step] looks for a white-space rune at the
    front of a string (of the string itself, or of its reversal). *)
Section Fuel.

Variable test : string -> string -> bool.
Hypothesis test_length :
  forall s sp, sp ∈ spaceRunes -> test s sp = true ->
               (0 < String.length sp <= String.length s)%nat.

Definition widthAt (s : string) : option nat :=
  String.length <$> List.find (test s) spaceRunes.

Fixpoint trimFuel (fuel : nat) (s : string) : string :=
  match fuel with
  | O => s
  | S fuel' =>
      match widthAt s with
      | Some w => trimFuel fuel' (dropBytes w s)
      | None => s
      end
  end.

Lemma widthAt_Some s w :
  widthAt s = Some w -> (0 < w <= String.length s)%nat.
Proof.
  unfold widthAt. destruct (List.find _ _) as [sp|] eqn:Hfind; [|discriminate].
  intros [= <-]. apply find_some in Hfind as [Hin Htest].
  apply test_length; [by apply list_elem_of_In | exact Htest].
Qed.

Lemma trimFuel_done fuel s : widthAt s = None -> trimFuel fuel s = s.
Proof. intros H. destruct fuel; simpl; [reflexivity | by rewrite H]. Qed.

Lemma trimFuel_clean fuel s :
  (String.length s <= fuel)%nat -> widthAt (trimFuel fuel s) = None.
Proof.
  revert s. induction fuel as [|fuel IH]; intros s Hlen.
  - destruct s; [|simpl in Hlen; lia]. simpl.
    destruct (widthAt EmptyString) as [w|] eqn:Hw; [|reflexivity].
    apply widthAt_Some in Hw. simpl in Hw. lia.
  - simpl. destruct (widthAt s) as [w|] eqn:Hw; [|exact Hw].
    apply IH. apply widthAt_Some in Hw. rewrite length_dropBytes. lia.
Qed.

(** What is left is the end of the string. *)
Lemma trimFuel_suffix fuel s : exists x, s = x +:+ trimFuel fuel s.
Proof.
  revert s. induction fuel as [|fuel IH]; intros s; simpl; [by exists EmptyString|].
  destruct (widthAt s) as [w|]; [|by exists EmptyString].
  destruct (IH (dropBytes w s)) as [x Hx].
  assert (Hdrop : forall n t, exists y, t = y +:+ dropBytes n t).
  { induction n as [|n IHn]; intros t; simpl; [by exists EmptyString|].
    destruct t as [|c t]; [by exists EmptyString|].
    destruct (IHn t) as [y Hy]. exists (String c y).
    change (String c t = String c (y +:+ dropBytes n t)). by rewrite <- Hy. }
  destruct (Hdrop w s) as [y Hy]. exists (y +:+ x).
  rewrite append_assoc, <- Hx. exact Hy.
Qed.

End Fuel.

Lemma trimLeftFuel_trimFuel fuel s : trimLeftFuel fuel s = trimFuel HasPrefix fuel s.
Proof. revert s. induction fuel as [|fuel IH]; intros s; simpl; [reflexivity|].
  unfold leadingSpace, widthAt. destruct (List.find _ _); simpl; [apply IH | reflexivity].
Qed.

Definition testBack (r sp : string) : bool := HasPrefix r (revString sp).

Lemma trimRightFuel_trimFuel fuel r : trimRightFuel fuel r = trimFuel testBack fuel r.
Proof. revert r. induction fuel as [|fuel IH]; intros r; simpl; [reflexivity|].
  unfold trailingSpace, widthAt, testBack.
  destruct (List.find _ _); simpl; [apply IH | reflexivity].
Qed.

Lemma length_revString s : String.length (revString s) = String.length s.
Proof.
  unfold revString.
  rewrite <- (string_of_list_ascii_of_string s) at 2.
  generalize (list_ascii_of_string s). intros l.
  assert (H : forall l, String.length (string_of_list_ascii l) = length l).
  { induction l0 as [|c l0 IH]; simpl; [reflexivity | by rewrite IH]. }
  by rewrite !H, length_rev.
Qed.

Lemma list_ascii_append a b :
  list_ascii_of_string (a +:+ b) = list_ascii_of_string a ++ list_ascii_of_string b.
Proof. induction a as [|c a IH]; simpl; [reflexivity | by rewrite IH]. Qed.

Lemma string_of_list_app l1 l2 :
  string_of_list_ascii (l1 ++ l2) = string_of_list_ascii l1 +:+ string_of_list_ascii l2.
Proof. induction l1 as [|c l1 IH]; simpl; [reflexivity | by rewrite IH]. Qed.

Lemma revString_append a b : revString (a +:+ b) = revString b +:+ revString a.
Proof.
  unfold revString. by rewrite list_ascii_append, rev_app_distr, string_of_list_app.
Qed.

Lemma revString_involutive s : revString (revString s) = s.
Proof.
  unfold revString.
  by rewrite list_ascii_of_string_of_list_ascii, rev_involutive,
             string_of_list_ascii_of_string.
Qed.

Lemma HasPrefix_test_length s sp :
  sp ∈ spaceRunes -> HasPrefix s sp = true ->
  (0 < String.length sp <= String.length s)%nat.
Proof.
  intros Hin H. split; [by apply spaceRunes_nonempty | by apply length_HasPrefix].
Qed.

Lemma testBack_test_length r sp :
  sp ∈ spaceRunes -> testBack r sp = true ->
  (0 < String.length sp <= String.length r)%nat.
Proof.
  intros Hin H. apply length_HasPrefix in H. rewrite length_revString in H.
  split; [by apply spaceRunes_nonempty | exact H].
Qed.

(** After [TrimSpace] no white-space rune is left at either end. *)
Lemma TrimSpace_ends s :
  leadingSpace (TrimSpace s) = None /\ trailingSpace (revString (TrimSpace s)) = None.
Proof.
  unfold TrimSpace, TrimRightSpace.
  set (t := TrimLeftSpace s).
  assert (Ht : widthAt HasPrefix t = None).
  { subst t. unfold TrimLeftSpace. rewrite trimLeftFuel_trimFuel.
    apply trimFuel_clean; [apply HasPrefix_test_length | lia]. }
  rewrite trimRightFuel_trimFuel.
  assert (Hback : widthAt testBack (trimFuel testBack (String.length t) (revString t)) = None).
  { apply trimFuel_clean; [apply testBack_test_length | by rewrite length_revString]. }
  split.
  - destruct (trimFuel_suffix testBack (String.length t) (revString t)) as [x Hx].
    set (r := trimFuel testBack (String.length t) (revString t)) in *.
    assert (Et : t = revString r +:+ revString x).
    { rewrite <- revString_append, <- Hx. by rewrite revString_involutive. }
    change (widthAt HasPrefix (revString r) = None).
    unfold widthAt in *.
    destruct (List.find (HasPrefix (revString r)) spaceRunes) as [sp|] eqn:Hfind;
      [|reflexivity].
    apply find_some in Hfind as [Hin Hpre].
    destruct (List.find (HasPrefix t) spaceRunes) as [sp'|] eqn:Hfind'; [discriminate|].
    apply (find_none _ _ Hfind') in Hin. rewrite Et in Hin.
    by rewrite (HasPrefix_append _ _ _ Hpre) in Hin.
  - rewrite revString_involutive. exact Hback.
Qed.

Lemma TrimSpace_fixed s :
  leadingSpace s = None -> trailingSpace (revString s) = None -> TrimSpace s = s.
Proof.
  intros Hl Hr. unfold TrimSpace, TrimLeftSpace, TrimRightSpace.
  rewrite trimLeftFuel_trimFuel, (trimFuel_done HasPrefix _ s Hl).
  rewrite trimRightFuel_trimFuel, (trimFuel_done testBack _ _ Hr).
  apply revString_involutive.
Qed.

(** [TrimSpace] leaves a trimmed string as it is. *)
Lemma TrimSpace_idempotent s : TrimSpace (TrimSpace s) = TrimSpace s.
Proof. destruct (TrimSpace_ends s). by apply TrimSpace_fixed. Qed.

End TrimFacts.

(* ===================================================================== *)
(** * The four [add] functions, map by map *)
(* ===================================================================== *)

Module AddFacts.
Import Server TrimFacts.

Lemma increment_after_zero (m : gmap string Z) k :
  m !! k = None ->
  increment (<[k := 0]> m) k = <[k := uintWrap (getCount m k + 1)]> m.
Proof.
  intros H. unfold increment, getCount. rewrite lookup_insert_eq, H.
  apply insert_insert_eq.
Qed.

(** A key that is missing is set to 0, then the key is counted. *)
Lemma increment_started (m : gmap string Z) k :
  increment (if negb (bool_decide (is_Some (m !! k))) then <[k := 0]> m else m) k
  = <[k := uintWrap (getCount m k + 1)]> m.
Proof.
  destruct (bool_decide (is_Some (m !! k))) eqn:E; cbn [negb]; [reflexivity|].
  apply bool_decide_eq_false in E. apply increment_after_zero.
  by apply eq_None_not_Some.
Qed.

Lemma addUser_map usr o :
  addUser usr o
  = withUsers o (if String.eqb (TrimSpace usr) EmptyString then Users o
                 else <[TrimSpace usr := uintWrap (getCount (Users o) (TrimSpace usr) + 1)]>
                        (Users o)).
Proof.
  unfold addUser, hasUser, hasKey. destruct o as [sh sy a f k u p h fp t].
  cbn [Users withUsers]. destruct (String.eqb (TrimSpace usr) EmptyString); [reflexivity|].
  rewrite <- increment_started.
  by destruct (bool_decide (is_Some (u !! TrimSpace usr))).
Qed.

Lemma addPassword_map pwd o :
  addPassword pwd o
  = withPasswords o
      (if String.eqb (TrimSpace pwd) EmptyString then Passwords o
       else <[TrimSpace pwd := uintWrap (getCount (Passwords o) (TrimSpace pwd) + 1)]>
              (Passwords o)).
Proof.
  unfold addPassword, hasPassword, hasKey. destruct o as [sh sy a f k u p h fp t].
  cbn [Passwords withPasswords].
  destruct (String.eqb (TrimSpace pwd) EmptyString); [reflexivity|].
  rewrite <- increment_started.
  by destruct (bool_decide (is_Some (p !! TrimSpace pwd))).
Qed.

Lemma addFingerprint_map sha1 o :
  addFingerprint sha1 o
  = withFingerprints o
      (if String.eqb (TrimSpace sha1) EmptyString then Fingerprints o
       else <[TrimSpace sha1 := uintWrap (getCount (Fingerprints o) (TrimSpace sha1) + 1)]>
              (Fingerprints o)).
Proof.
  unfold addFingerprint, hasFingerprint, hasKey. destruct o as [sh sy a f k u p h fp t].
  cbn [Fingerprints withFingerprints].
  destruct (String.eqb (TrimSpace sha1) EmptyString); [reflexivity|].
  rewrite <- increment_started.
  by destruct (bool_decide (is_Some (fp !! TrimSpace sha1))).
Qed.

(** [addHost]: the host is counted, and the three login counters of a host
    that is new are set to 0. *)
Lemma addHost_map host o :
  let h := TrimSpace host in
  let known := String.eqb h EmptyString || bool_decide (is_Some (Hosts o !! h)) in
  addHost host o
  = mkOSSHServer (shells o) (syncClients o)
      (if known then Attempts o else <[h := 0]> (Attempts o))
      (if known then Failed o else <[h := 0]> (Failed o))
      (if known then OK o else <[h := 0]> (OK o))
      (Users o) (Passwords o)
      (if String.eqb h EmptyString then Hosts o
       else <[h := uintWrap (getCount (Hosts o) h + 1)]> (Hosts o))
      (Fingerprints o) (TimeWasted o).
Proof.
  intros h known. subst known. unfold addHost, hasHost, hasKey. fold h.
  destruct o as [sh sy a f k u p hs fp t].
  cbn [Hosts Attempts Failed OK Users Passwords Fingerprints shells syncClients TimeWasted].
  destruct (String.eqb h EmptyString); [reflexivity|]. cbn [orb].
  destruct (bool_decide (is_Some (hs !! h))) eqn:E; cbn [negb]; [reflexivity|].
  cbn [withHosts withAttempts withFailed withOK Hosts Attempts Failed OK Users Passwords
       Fingerprints shells syncClients TimeWasted].
  rewrite increment_after_zero; [reflexivity|].
  apply bool_decide_eq_false in E. by apply eq_None_not_Some.
Qed.

End AddFacts.

(* ===================================================================== *)
(** * Login records with a blank password *)
(* ===================================================================== *)

Module BlankPassword.
Import Server TrimFacts AddFacts.

Lemma addPassword_blank pwd o : onlySpace pwd -> addPassword pwd o = o.
Proof.
  intros H. unfold addPassword. by rewrite (TrimSpace_onlySpace pwd H).
Qed.

(** What a login record does to the corpus when the password is blank, map
    by map.  [Passwords] stays.  The trimmed user and the trimmed host are
    keys afterwards, each with its count one higher (a user or host that is
    itself blank is not stored).  The three login counters of a host that
    is new are set to 0 at the trimmed host; then [Attempts] and the counter
    of the outcome go up by one at the host as it was given. *)
Definition recordedWithoutPassword (usr host : string) (failure : bool)
    (o o' : OSSHServer) : Prop :=
  let u := TrimSpace usr in
  let h := TrimSpace host in
  let known := String.eqb h EmptyString || bool_decide (is_Some (Hosts o !! h)) in
  let opened := fun m : gmap string Z => if known then m else <[h := 0]> m in
  let counted := fun m : gmap string Z =>
                   <[host := uintWrap (getCount (opened m) host + 1)]> (opened m) in
  Passwords o' = Passwords o
  /\ Users o' = (if String.eqb u EmptyString then Users o
                 else <[u := uintWrap (getCount (Users o) u + 1)]> (Users o))
  /\ Hosts o' = (if String.eqb h EmptyString then Hosts o
                 else <[h := uintWrap (getCount (Hosts o) h + 1)]> (Hosts o))
  /\ Attempts o' = counted (Attempts o)
  /\ Failed o' = (if failure then counted (Failed o) else opened (Failed o))
  /\ OK o' = (if failure then opened (OK o) else counted (OK o)).

(** C10: a login record whose password is not empty but consists of white
    space only leaves [Passwords] unchanged (nothing is stored, neither the
    token "(empty)" nor a trimmed password), while the user, the host and
    the counters of the host are updated as usual: the trimmed user and the
    trimmed host are counted once more in [Users] and [Hosts], and
    [Attempts] and the counter of the outcome are one higher at the host. *)
Theorem blank_password_not_stored (usr pwd host reason : string) (st : State) :
  onlySpace pwd -> pwd <> EmptyString ->
  recordedWithoutPassword usr host true (ossh st)
    (ossh (addLoginFailure usr pwd host reason st))
  /\ recordedWithoutPassword usr host false (ossh st)
       (ossh (addLoginSuccess usr pwd host reason st)).
Proof.
  intros Hblank Hne.
  assert (Epwd : (if String.eqb pwd EmptyString then "(empty)" else pwd) = pwd).
  { destruct (String.eqb_spec pwd EmptyString); [contradiction | reflexivity]. }
  unfold addLoginFailure, addLoginSuccess, Log, onServer. cbn [ossh].
  rewrite Epwd, (addPassword_blank pwd _ Hblank).
  pose proof (addHost_map host (addUser usr (ossh st))) as Eh. cbv zeta in Eh.
  rewrite Eh, addUser_map. clear Eh.
  unfold recordedWithoutPassword, incCounter.
  cbn [Passwords Users Hosts Attempts Failed OK shells syncClients Fingerprints TimeWasted
       withUsers withAttempts withFailed withOK].
  by repeat split.
Qed.

Definition blankPassword : string := bytes [32; 9; 194; 160; 32]%nat.

Lemma blankPassword_onlySpace : onlySpace blankPassword.
Proof.
  change blankPassword
    with (bytes [32%nat] +:+ bytes [9%nat] +:+ bytes [194; 160]%nat
          +:+ bytes [32%nat] +:+ EmptyString).
  repeat (apply onlySpace_rune; [unfold spaceRunes; cbn [map]; set_solver|]).
  apply onlySpace_nil.
Qed.

Lemma blank_password_not_stored_witness :
  recordedWithoutPassword "root" "10.0.0.1" true emptyServer
    (ossh (addLoginFailure "root" blankPassword "10.0.0.1" "host lost a game of dice"
             (mkState emptyServer (OS.mkWorld ∅ ∅ 18 "/" 9) [])))
  /\ recordedWithoutPassword "root" "10.0.0.1" false emptyServer
       (ossh (addLoginSuccess "root" blankPassword "10.0.0.1" "host lost a game of dice"
                (mkState emptyServer (OS.mkWorld ∅ ∅ 18 "/" 9) []))).
Proof.
  apply (blank_password_not_stored "root" blankPassword "10.0.0.1"
           "host lost a game of dice" (mkState emptyServer (OS.mkWorld ∅ ∅ 18 "/" 9) [])).
  - exact blankPassword_onlySpace.
  - discriminate.
Defined.

(** The record of the witness, map by map. *)
Example blank_password_record :
  let o := ossh (addLoginFailure "root" blankPassword "10.0.0.1" "host lost a game of dice"
                   (mkState emptyServer (OS.mkWorld ∅ ∅ 18 "/" 9) [])) in
  Passwords o = ∅
  /\ map_to_list (Users o) = [("root", 1)]
  /\ map_to_list (Hosts o) = [("10.0.0.1", 1)]
  /\ map_to_list (Attempts o) = [("10.0.0.1", 1)]
  /\ map_to_list (Failed o) = [("10.0.0.1", 1)]
  /\ map_to_list (OK o) = [("10.0.0.1", 0)].
Proof. vm_compute. repeat split; reflexivity. Qed.

End BlankPassword.

(* ===================================================================== *)
(** * Lines of text: [Split] after [Join] *)
(* ===================================================================== *)

Module LineFacts.
Import TrimFacts.

(** The byte [c] occurs in [s]. *)
Fixpoint containsByte (c : ascii) (s : string) : bool :=
  match s with
  | EmptyString => false
  | String d s' => Ascii.eqb d c || containsByte c s'
  end.

(** A piece that holds no separator comes back as the first element. *)
Lemma Split_append_sep a b sep :
  containsByte sep a = false ->
  Split (a +:+ String sep b) sep = a :: Split b sep.
Proof.
  induction a as [|c a IH]; intros Hfree.
  - change (Split (String sep b) sep = EmptyString :: Split b sep).
    cbn [Split]. by rewrite Ascii.eqb_refl.
  - cbn [containsByte] in Hfree. apply orb_false_elim in Hfree as [Hc Ha].
    rewrite append_cons. cbn [Split]. rewrite Hc, (IH Ha). reflexivity.
Qed.

Lemma Split_Join_lines k ks :
  (forall x, x ∈ k :: ks -> containsByte (byte 10) x = false) ->
  Split (GoStrings.Join (k :: ks) (bytes [10%nat]) +:+ bytes [10%nat]) (byte 10)
  = (k :: ks) ++ [EmptyString].
Proof.
  revert k. induction ks as [|k' ks IH]; intros k Hfree.
  - cbn [GoStrings.Join]. change (bytes [10%nat]) with (String (byte 10) EmptyString).
    rewrite Split_append_sep by (apply Hfree; left). reflexivity.
  - change (GoStrings.Join (k :: k' :: ks) (bytes [10%nat]))
      with (k +:+ bytes [10%nat] +:+ GoStrings.Join (k' :: ks) (bytes [10%nat])).
    rewrite !append_assoc.
    change (bytes [10%nat] +:+ GoStrings.Join (k' :: ks) (bytes [10%nat]) +:+ bytes [10%nat])
      with (String (byte 10)
              (GoStrings.Join (k' :: ks) (bytes [10%nat]) +:+ bytes [10%nat])).
    rewrite Split_append_sep by (apply Hfree; left).
    rewrite IH; [reflexivity|]. intros x Hx. apply Hfree. by right.
Qed.

End LineFacts.

(* ===================================================================== *)
(** * Corpus files: what a save writes and what a load restores *)
(* ===================================================================== *)

Module PersistFacts.
Import Server TrimFacts LineFacts CorpusFacts.

(** The four corpus multisets. *)
Inductive Kind : Type := KHosts | KUsers | KPasswords | KFingerprints.

#[global] Instance Kind_eq_dec : EqDecision Kind.
Proof. solve_decision. Defined.

Definition field (kind : Kind) (o : OSSHServer) : gmap string Z :=
  match kind with
  | KHosts => Hosts o
  | KUsers => Users o
  | KPasswords => Passwords o
  | KFingerprints => Fingerprints o
  end.

Definition addOf (kind : Kind) : string -> OSSHServer -> OSSHServer :=
  match kind with
  | KHosts => addHost
  | KUsers => addUser
  | KPasswords => addPassword
  | KFingerprints => addFingerprint
  end.

Definition pathOf (Conf : Config) (kind : Kind) : string :=
  match kind with
  | KHosts => PathHosts Conf
  | KUsers => PathUsers Conf
  | KPasswords => PathPasswords Conf
  | KFingerprints => PathFingerprints Conf
  end.

Definition loadOf (Conf : Config) (kind : Kind) : State -> State :=
  match kind with
  | KHosts => loadHosts Conf
  | KUsers => loadUsers Conf
  | KPasswords => loadPasswords Conf
  | KFingerprints => loadFingerprints Conf
  end.

Definition saveOf (Conf : Config) (maps_Keys : gmap string Z -> list string)
    (kind : Kind) : State -> State :=
  match kind with
  | KHosts => saveHosts Conf maps_Keys
  | KUsers => saveUsers Conf maps_Keys
  | KPasswords => savePasswords Conf maps_Keys
  | KFingerprints => saveFingerprints Conf maps_Keys
  end.

(** What each of the four [add] functions does to its own multiset. *)
Definition addKey (s : string) (m : gmap string Z) : gmap string Z :=
  let k := TrimSpace s in
  if String.eqb k EmptyString then m
  else increment (if hasKey m k then m else <[k := 0]> m) k.

Lemma field_addOf kind kind' s o :
  field kind (addOf kind' s o)
  = if decide (kind = kind') then addKey s (field kind o) else field kind o.
Proof.
  destruct kind, kind'; cbn [field addOf]; (destruct (decide _); [|try congruence]);
    try congruence;
    unfold addHost, addUser, addPassword, addFingerprint, addKey,
           hasHost, hasUser, hasPassword, hasFingerprint;
    destruct (String.eqb _ _); try reflexivity;
    match goal with |- context [hasKey ?m ?k] => destruct (hasKey m k) end;
    reflexivity.
Qed.

(** Every key has been through [TrimSpace] and is not empty. *)
Definition trimmedKeys (m : gmap string Z) : Prop :=
  forall k, is_Some (m !! k) -> TrimSpace k = k /\ k <> EmptyString.

Definition corpusTrimmed (o : OSSHServer) : Prop :=
  forall kind, trimmedKeys (field kind o).

Definition sameCorpus (o o' : OSSHServer) : Prop :=
  forall kind, field kind o' = field kind o.

Lemma addKey_trimmed s m : trimmedKeys m -> trimmedKeys (addKey s m).
Proof.
  intros Hm. unfold addKey.
  destruct (String.eqb_spec (TrimSpace s) EmptyString) as [|Hne]; [exact Hm|].
  intros k Hk. unfold increment in Hk.
  destruct (decide (k = TrimSpace s)) as [->|Hk'].
  - split; [apply TrimSpace_idempotent | exact Hne].
  - rewrite lookup_insert_ne in Hk by congruence.
    destruct (hasKey m (TrimSpace s)); [by apply Hm|].
    rewrite lookup_insert_ne in Hk by congruence. by apply Hm.
Qed.

Lemma addOf_trimmed kind s o : corpusTrimmed o -> corpusTrimmed (addOf kind s o).
Proof.
  intros H kind'. rewrite field_addOf. destruct (decide _); [|apply H].
  apply addKey_trimmed, H.
Qed.

Lemma corpusTrimmed_same o o' : sameCorpus o o' -> corpusTrimmed o -> corpusTrimmed o'.
Proof. intros Hs H kind. rewrite Hs. apply H. Qed.

Lemma fold_add_trimmed kind items st :
  corpusTrimmed (ossh st) ->
  corpusTrimmed (ossh (fold_left (fun st item => onServer (addOf kind item) st) items st)).
Proof.
  revert st. induction items as [|i items IH]; intros st H; simpl; [exact H|].
  apply IH. by apply addOf_trimmed.
Qed.

Lemma loadWith_trimmed kind path what st :
  corpusTrimmed (ossh st) -> corpusTrimmed (ossh (loadWith path what (addOf kind) st)).
Proof.
  intros H. unfold loadWith. destruct (FileExists _ _); [|exact H].
  destruct (OS.ReadFile _ _) as [w [content|e]]; [|exact H].
  by apply (fold_add_trimmed kind _ (Log _ _ _ st)).
Qed.

Lemma login_trimmed usr pwd host o :
  corpusTrimmed o -> corpusTrimmed (addHost host (addPassword pwd (addUser usr o))).
Proof.
  intros H. apply (addOf_trimmed KHosts), (addOf_trimmed KPasswords),
    (addOf_trimmed KUsers), H.
Qed.

Lemma addLoginFailure_trimmed usr pwd host reason st :
  corpusTrimmed (ossh st) -> corpusTrimmed (ossh (addLoginFailure usr pwd host reason st)).
Proof.
  intros H kind. unfold addLoginFailure, Log, onServer. cbn [ossh].
  pose proof (login_trimmed usr (if String.eqb pwd EmptyString then "(empty)" else pwd)
                host (ossh st) H kind) as Hk.
  by destruct kind.
Qed.

Lemma addLoginSuccess_trimmed usr pwd host reason st :
  corpusTrimmed (ossh st) -> corpusTrimmed (ossh (addLoginSuccess usr pwd host reason st)).
Proof.
  intros H kind. unfold addLoginSuccess, Log, onServer. cbn [ossh].
  pose proof (login_trimmed usr (if String.eqb pwd EmptyString then "(empty)" else pwd)
                host (ossh st) H kind) as Hk.
  by destruct kind.
Qed.

Lemma syncLoop_sameCorpus nodes usr pwd host o :
  sameCorpus o (syncLoop nodes usr pwd host o).1.
Proof.
  revert o. induction nodes as [|n rest IH]; intros o kind; simpl; [reflexivity|].
  destruct (_ && _); simpl; [by destruct kind|].
  rewrite IH. by destruct kind.
Qed.

Lemma authHandler_trimmed Conf ctx pwd st :
  corpusTrimmed (ossh st) -> corpusTrimmed (ossh (authHandler Conf ctx pwd st).1).
Proof.
  intros H. unfold authHandler.
  pose proof (syncLoop_sameCorpus (SyncNodes Conf) (ctxUser ctx) pwd
                (hostOf (ctxRemoteAddr ctx)) (ossh st)) as Hsync.
  destruct (syncLoop _ _ _ _ _) as [o hit]. simpl in Hsync.
  assert (Ho : corpusTrimmed o) by (eapply corpusTrimmed_same; eauto).
  destruct hit; [exact Ho|].
  set (st0 := mkState o (world st) (logged st)).
  assert (Hst0 : corpusTrimmed (ossh st0)) by exact Ho.
  destruct (hasHost (ossh st0) _); [cbn [fst]; by apply addLoginSuccess_trimmed|].
  destruct (hasUser (ossh st0) _ && hasPassword (ossh st0) _);
    [cbn [fst]; by apply addLoginFailure_trimmed|].
  destruct (hasUser (ossh st0) _); [cbn [fst]; by apply addLoginSuccess_trimmed|].
  destruct (hasPassword (ossh st0) _); [cbn [fst]; by apply addLoginSuccess_trimmed|].
  destruct (negb _); cbn [fst];
    [by apply addLoginFailure_trimmed | by apply addLoginSuccess_trimmed].
Qed.

Lemma saveCapture_trimmed Conf sha tpl ts stats st :
  corpusTrimmed (ossh st) -> corpusTrimmed (ossh (saveCapture Conf sha tpl ts stats st)).
Proof.
  intros H. unfold saveCapture. destruct (FileExists _ _); [exact H|].
  destruct (OS.WriteFile _ _ _ _) as [w [[]|e]]; simpl;
    apply (addOf_trimmed KFingerprints), H.
Qed.

Lemma sessionHandler_trimmed Conf sha tpl ts keys host fs stats st :
  corpusTrimmed (ossh st) ->
  corpusTrimmed (ossh (sessionHandler Conf sha tpl ts keys host fs stats st)).
Proof.
  intros H. unfold sessionHandler. cbv zeta.
  match goal with |- corpusTrimmed (ossh (onServer _ ?x)) => set (last := x) end.
  assert (Hlast : corpusTrimmed (ossh last));
    [|intros kind; specialize (Hlast kind); by destruct kind].
  subst last.
  match goal with |- context [if ?b then saveCapture _ _ _ _ _ ?s else _] =>
    set (saved := s); set (attacker := b) end.
  assert (Hs : corpusTrimmed (ossh saved)).
  { subst saved. unfold saveUsers, savePasswords, saveHosts, saveFingerprints.
    rewrite !saveWith_ossh. intros kind. specialize (H kind).
    destruct (negb _); by destruct kind. }
  destruct attacker; [|exact Hs]. by apply saveCapture_trimmed.
Qed.

Section Reachable.

Variable Conf : Config.
Variable StringToSha1 : string -> string.
Variable ParseTemplateToString : string -> CaptureData -> string.
Variable TimeString : Z -> string.
Variable maps_Keys : gmap string Z -> list string.

Local Abbreviation step := (step Conf StringToSha1 ParseTemplateToString TimeString maps_Keys).
Local Abbreviation run := (run Conf StringToSha1 ParseTemplateToString TimeString maps_Keys).

Lemma step_trimmed ev st : corpusTrimmed (ossh st) -> corpusTrimmed (ossh (step st ev)).
Proof.
  intros H. destruct ev; unfold CorpusFacts.step; cbn [onServer ossh].
  - by apply (addOf_trimmed KHosts).
  - by apply (addOf_trimmed KUsers).
  - by apply (addOf_trimmed KPasswords).
  - by apply (addOf_trimmed KFingerprints).
  - by apply (loadWith_trimmed KHosts).
  - by apply (loadWith_trimmed KUsers).
  - by apply (loadWith_trimmed KPasswords).
  - by apply (loadWith_trimmed KFingerprints).
  - by apply addLoginSuccess_trimmed.
  - by apply addLoginFailure_trimmed.
  - by apply authHandler_trimmed.
  - by apply saveCapture_trimmed.
  - by apply sessionHandler_trimmed.
  - exact H.
Qed.

(** The keys of the corpus of a running server are trimmed and not empty. *)
Lemma run_trimmed w events : corpusTrimmed (ossh (run w events)).
Proof.
  unfold CorpusFacts.run.
  assert (H0 : corpusTrimmed (ossh (mkState emptyServer w []))).
  { intros kind k [v Hv]. destruct kind; simpl in Hv; by rewrite lookup_empty in Hv. }
  revert H0. generalize (mkState emptyServer w []).
  induction events as [|ev events IH]; intros st H; simpl; [exact H|].
  apply IH. by apply step_trimmed.
Qed.

End Reachable.

(** ** Saving, then loading *)

Lemma fold_field kind items st :
  field kind (ossh (fold_left (fun st item => onServer (addOf kind item) st) items st))
  = fold_left (fun m s => addKey s m) items (field kind (ossh st)).
Proof.
  revert st. induction items as [|i items IH]; intros st; simpl; [reflexivity|].
  rewrite IH. cbn [onServer ossh]. rewrite field_addOf.
  by destruct (decide (kind = kind)).
Qed.

Lemma addKey_empty m : addKey EmptyString m = m.
Proof. reflexivity. Qed.

Lemma addKey_fresh k m :
  TrimSpace k = k -> k <> EmptyString -> m !! k = None ->
  addKey k m = <[k := 1]> (<[k := 0]> m).
Proof.
  intros Ht Hne Hk. unfold addKey. rewrite Ht.
  destruct (String.eqb_spec k EmptyString); [contradiction|].
  unfold hasKey. rewrite Hk.
  rewrite bool_decide_eq_false_2 by (intros [? ?]; discriminate).
  unfold increment, getCount. by rewrite lookup_insert_eq.
Qed.

(** Adding distinct trimmed keys that are new: each ends with the count 1. *)
Lemma fold_addKey_lookup ks (m0 : gmap string Z) x :
  NoDup ks ->
  (forall k, k ∈ ks -> TrimSpace k = k /\ k <> EmptyString) ->
  (forall k, k ∈ ks -> m0 !! k = None) ->
  fold_left (fun m s => addKey s m) ks m0 !! x
  = if decide (x ∈ ks) then Some 1 else m0 !! x.
Proof.
  revert m0. induction ks as [|k ks IH]; intros m0 Hnd Htrim Hnew.
  - simpl. destruct (decide (x ∈ [])) as [Hin|]; [by apply elem_of_nil in Hin | reflexivity].
  - apply NoDup_cons in Hnd as [Hk Hnd]. cbn [fold_left].
    destruct (Htrim k) as [Ht Hne]; [left|].
    rewrite (addKey_fresh k m0 Ht Hne) by (apply Hnew; left).
    rewrite IH; [| exact Hnd | intros; apply Htrim; by right |].
    + destruct (decide (x ∈ ks)) as [Hin|Hnin].
      * rewrite decide_True by (by right). reflexivity.
      * destruct (decide (x = k)) as [->|Hxk].
        -- rewrite decide_True by left. by rewrite lookup_insert_eq.
        -- rewrite decide_False by (rewrite elem_of_cons; tauto).
           by rewrite !lookup_insert_ne by congruence.
    + intros k' Hk'. rewrite !lookup_insert_ne by (intros ->; contradiction).
      apply Hnew. by right.
Qed.

Lemma WriteFile_then_ReadFile path data perm w :
  FileExists path (OS.WriteFile path data perm w).1 = true ->
  (OS.ReadFile path (OS.WriteFile path data perm w).1).2 = OS.Ok data.
Proof.
  unfold OS.WriteFile, FileExists, OS.ReadFile.
  destruct (OS.lookupNode w (OS.resolve w path)) as [[m|m d]|] eqn:Hk; cbn [fst].
  - rewrite Hk. discriminate.
  - intros _. change (OS.resolve (OS.setNodes w _) path) with (OS.resolve w path).
    unfold OS.lookupNode in *. destruct (String.eqb _ "/"); [discriminate|].
    cbn [OS.nodes OS.setNodes]. by rewrite lookup_insert_eq.
  - destruct (OS.lookupNode w (OS.parentOf _)) as [[m|m d]|] eqn:Hp; cbn [fst];
      try (rewrite Hk; discriminate).
    intros _. change (OS.resolve (OS.setNodes w _) path) with (OS.resolve w path).
    unfold OS.lookupNode in Hk |- *. destruct (String.eqb _ "/"); [discriminate|].
    cbn [OS.nodes OS.setNodes]. by rewrite lookup_insert_eq.
Qed.

Section RoundTrip.

Variable Conf : Config.
Variable StringToSha1 : string -> string.
Variable ParseTemplateToString : string -> CaptureData -> string.
Variable TimeString : Z -> string.
Variable maps_Keys : gmap string Z -> list string.

(** [maps.Keys] lists every key once, in some order. *)
Hypothesis maps_Keys_perm : forall m, maps_Keys m ≡ₚ (map_to_list m).*1.

Local Abbreviation run := (run Conf StringToSha1 ParseTemplateToString TimeString maps_Keys).

Lemma maps_Keys_elem (m : gmap string Z) x : x ∈ maps_Keys m <-> is_Some (m !! x).
Proof.
  rewrite (maps_Keys_perm m), list_elem_of_fmap. split.
  - intros [[k v] [-> Hkv]]. apply elem_of_map_to_list in Hkv. by exists v.
  - intros [v Hv]. exists (x, v). split; [reflexivity | by apply elem_of_map_to_list].
Qed.

Lemma maps_Keys_NoDup (m : gmap string Z) : NoDup (maps_Keys m).
Proof. rewrite (maps_Keys_perm m). apply NoDup_fst_map_to_list. Qed.

Lemma saveOf_saveWith kind st :
  exists what,
    saveOf Conf maps_Keys kind st
    = saveWith maps_Keys (pathOf Conf kind) what (field kind (ossh st)) st.
Proof. destruct kind; eexists; reflexivity. Qed.

Lemma loadOf_loadWith kind :
  exists what, loadOf Conf kind = loadWith (pathOf Conf kind) what (addOf kind).
Proof. destruct kind; eexists; reflexivity. Qed.

Lemma saveWith_world path what m st :
  world (saveWith maps_Keys path what m st)
  = (OS.WriteFile path (corpusText maps_Keys m) (OS.octal 644) (world st)).1.
Proof. unfold saveWith. by destruct (OS.WriteFile _ _ _ _) as [w [[]|e]]. Qed.

(** Loading the text of a save into the empty maps. *)
Lemma load_corpusText (m : gmap string Z) :
  trimmedKeys m ->
  (forall key, is_Some (m !! key) -> containsByte (byte 10) key = false) ->
  fold_left (fun acc s => addKey s acc)
            (Split (corpusText maps_Keys m) (byte 10)) ∅
  = (fun _ => 1) <$> m.
Proof.
  intros Htrim Hfree. unfold corpusText, lineFeed.
  assert (Hfold : fold_left (fun acc s => addKey s acc) (maps_Keys m ++ [EmptyString]) ∅
                  = (fun _ => 1) <$> m).
  { rewrite fold_left_app. cbn [fold_left]. rewrite addKey_empty.
    apply map_eq. intros x.
    rewrite fold_addKey_lookup.
    - rewrite lookup_fmap, lookup_empty.
      destruct (decide (x ∈ maps_Keys m)) as [Hin|Hnin].
      + apply maps_Keys_elem in Hin as [v ->]. reflexivity.
      + destruct (m !! x) as [v|] eqn:Hx; [|reflexivity].
        exfalso. apply Hnin, maps_Keys_elem. by exists v.
    - apply maps_Keys_NoDup.
    - intros k Hk. apply Htrim. by apply maps_Keys_elem.
    - intros k _. apply lookup_empty. }
  destruct (maps_Keys m) as [|k ks] eqn:Hkeys.
  - rewrite <- Hfold. reflexivity.
  - rewrite Split_Join_lines; [exact Hfold|].
    intros x Hx. apply Hfree, maps_Keys_elem. by rewrite Hkeys.
Qed.

(** C9, amended: for a corpus multiset none of whose keys holds a line feed,
    the file a save leaves holds the keys, one on a line, each line ended
    by a line feed and no counts; loading that file into the empty maps of
    a starting server restores the same keys, each with the count 1. *)
Theorem corpus_file_roundtrip (kind : Kind) (w : OS.World) (events : list Event) :
  let st := run w events in
  let m := field kind (ossh st) in
  let saved := saveOf Conf maps_Keys kind st in
  (forall key, is_Some (m !! key) -> containsByte (byte 10) key = false) ->
  FileExists (pathOf Conf kind) (world saved) = true ->
  (OS.ReadFile (pathOf Conf kind) (world saved)).2
    = OS.Ok (GoStrings.Join (maps_Keys m) lineFeed +:+ lineFeed)
  /\ field kind (ossh (loadOf Conf kind (mkState emptyServer (world saved) [])))
     = (fun _ => 1) <$> m.
Proof.
  intros st m saved Hfree Hexists.
  destruct (saveOf_saveWith kind st) as [what Hsave].
  destruct (loadOf_loadWith kind) as [what' Hload].
  subst saved. rewrite Hsave in *. rewrite saveWith_world in *. fold m in Hexists |- *.
  pose proof (WriteFile_then_ReadFile _ _ _ _ Hexists) as Hread.
  split; [exact Hread|].
  rewrite Hload. unfold loadWith. cbn [world]. rewrite Hexists.
  destruct (OS.ReadFile _ _) as [w' [content|e]]; cbn [snd] in Hread; [|discriminate].
  injection Hread as ->.
  rewrite (fold_field kind _ (Log _ _ _ (mkState emptyServer _ []))).
  replace (field kind (ossh (Log "+" ("Loading %d " +:+ what')
             [AInt (Z.of_nat (length (Split (corpusText maps_Keys m) (byte 10))))]
             (mkState emptyServer
                (OS.WriteFile (pathOf Conf kind) (corpusText maps_Keys m)
                   (OS.octal 644) (world st)).1 []))))
    with (∅ : gmap string Z) by (by destruct kind).
  apply load_corpusText; [|exact Hfree].
  apply (run_trimmed Conf StringToSha1 ParseTemplateToString TimeString maps_Keys w events kind).
Qed.

End RoundTrip.

End PersistFacts.

(* ===================================================================== *)
(** * Capture files *)
(* ===================================================================== *)

Module CaptureFacts.
Import Server.

Section Capture.

Variable Conf : Config.
Variable StringToSha1 : string -> string.
Variable ParseTemplateToString : string -> CaptureData -> string.
Variable TimeString : Z -> string.

Local Abbreviation saveCapture :=
  (saveCapture Conf StringToSha1 ParseTemplateToString TimeString).
Local Abbreviation capturePath := (capturePath Conf StringToSha1).

(** The same host and the same joined command history. *)
Definition sameAttack (stats stats' : FakeShellStats) : Prop :=
  statsHost stats' = statsHost stats
  /\ GoStrings.Join (CommandHistory stats') lineFeed
     = GoStrings.Join (CommandHistory stats) lineFeed.

Lemma capturePath_sameAttack stats stats' :
  sameAttack stats stats' -> capturePath stats' = capturePath stats.
Proof. intros [Hh Hc]. unfold Server.capturePath. by rewrite Hh, Hc. Qed.

Lemma saveCapture_exists stats st :
  FileExists (capturePath stats) (world st) = true -> saveCapture stats st = st.
Proof.
  intros H. unfold Server.saveCapture, Server.capturePath in *.
  cbn [dataCommands]. by rewrite H.
Qed.

(** A first call whose write goes through leaves the capture file there. *)
Lemma saveCapture_writes stats st :
  (exists mode, OS.lookupNode (world st) (OS.parentOf (OS.resolve (world st) (capturePath stats)))
                = Some (OS.Dir mode)) ->
  OS.lookupNode (world st) (OS.resolve (world st) (capturePath stats)) = None ->
  FileExists (capturePath stats) (world (saveCapture stats st)) = true.
Proof.
  intros [mode Hparent] Hnew.
  assert (Hno : FileExists (capturePath stats) (world st) = false).
  { unfold FileExists. by rewrite Hnew. }
  unfold Server.saveCapture. cbn [dataCommands]. fold (capturePath stats).
  rewrite Hno. cbn [world onServer].
  unfold OS.WriteFile. rewrite Hnew, Hparent. cbn [world Log].
  unfold FileExists.
  change (OS.resolve (OS.setNodes (world st) _) (capturePath stats))
    with (OS.resolve (world st) (capturePath stats)).
  unfold OS.lookupNode in Hnew |- *. destruct (String.eqb _ "/"); [discriminate|].
  cbn [OS.nodes OS.setNodes]. by rewrite lookup_insert_eq.
Qed.

(** C8: when the capture file of a host and command history exists already,
    a call of [saveCapture] for the same host and the same joined history
    returns at once: no file is written, [Fingerprints] is not incremented,
    nothing at all changes. *)
Theorem saveCapture_idempotent (stats stats' : FakeShellStats) (st : State) :
  sameAttack stats stats' ->
  FileExists (capturePath stats) (world st) = true ->
  let st' := saveCapture stats' st in
  world st' = world st
  /\ Fingerprints (ossh st') = Fingerprints (ossh st)
  /\ st' = st.
Proof.
  intros Hsame H st'. subst st'.
  rewrite (saveCapture_exists stats' st)
    by (by rewrite (capturePath_sameAttack stats stats' Hsame)).
  by repeat split.
Qed.

(** Two calls in a row: when the first one has left the capture file, the
    second one changes nothing. *)
Corollary saveCapture_twice (stats stats' : FakeShellStats) (st : State) :
  sameAttack stats stats' ->
  FileExists (capturePath stats) (world (saveCapture stats st)) = true ->
  saveCapture stats' (saveCapture stats st) = saveCapture stats st.
Proof.
  intros Hsame H. apply saveCapture_exists.
  by rewrite (capturePath_sameAttack stats stats' Hsame).
Qed.

End Capture.

End CaptureFacts.

(* ===================================================================== *)
(** * A small installation, and the theorems at work on it *)
(* ===================================================================== *)

Module Demo.
Import Server CorpusFacts PersistFacts.

Definition conf : Config :=
  mkConfig "/var/ossh/hosts" "/var/ossh/users" "/var/ossh/passwords"
           "/var/ossh/fingerprints" "/var/ossh/captures"
           [mkSyncNode "192.168.0.2" 22 "sync" "s3cret"].

(** Stand-ins for the parts of the repository that are parameters. *)
Definition sha1 (s : string) : string :=
  "h" +:+ Overlay.FormatInt (Z.of_nat (String.length s)).
Definition template (name : string) (data : CaptureData) : string :=
  "# " +:+ dataHost data +:+ lineFeed +:+ dataCommands data.
Definition timeString (t : Z) : string := Overlay.FormatInt t.
Definition keys (m : gmap string Z) : list string := (map_to_list m).*1.

Lemma keys_perm (m : gmap string Z) : keys m ≡ₚ (map_to_list m).*1.
Proof. reflexivity. Defined.

Definition machine (now : Z) : OS.World :=
  OS.mkWorld
    (list_to_map
       [("/var", OS.Dir (OS.octal 755));
        ("/var/ossh", OS.Dir (OS.octal 755));
        ("/var/ossh/captures", OS.Dir (OS.octal 755))])
    ∅ (OS.octal 22) "/" now.

Definition ctx : Context := mkContext "root" "10.0.0.1:50522".

Definition events : list Event :=
  [EvAuth ctx "hunter2";
   EvLoginFailure "admin" "admin" "10.0.0.2" "host lost a game of dice";
   EvAuth ctx "toor";
   EvSession "10.0.0.1" (mkFakeShell 9 "root")
             (mkFakeShellStats "10.0.0.1" "root" ["uname -a"; "cat /etc/shadow"] 12 2)].

Definition running : State := run conf sha1 template timeString keys (machine 9) events.

Definition attack : FakeShellStats :=
  mkFakeShellStats "10.0.0.1" "root" ["uname -a"; "cat /etc/shadow"] 12 2.

(** The same commands in one piece, sent by another user of the host. *)
Definition attackAgain : FakeShellStats :=
  mkFakeShellStats "10.0.0.1" "admin" ["uname -a" +:+ lineFeed +:+ "cat /etc/shadow"] 3 1.

Definition fresh : State := mkState emptyServer (machine 9) [].

(** The server after the first accepted login of the host. *)
Definition visited : State :=
  run conf sha1 template timeString keys (machine 9) [EvAuth ctx "hunter2"].

Lemma conf_no_peer usr pwd :
  usr <> "sync" ->
  forall node, node ∈ SyncNodes conf -> ~ AuthFacts.isSyncTriple usr pwd "10.0.0.1" node.
Proof.
  intros Husr node Hnode. apply list_elem_of_singleton in Hnode as ->.
  intros (Hu & _). by apply Husr.
Defined.

Lemma known_host_is_accepted_witness :
  (authHandler conf ctx "toor" visited).2 = true
  /\ AuthFacts.recorded "+" "host is back for more" visited
       (authHandler conf ctx "toor" visited).1.
Proof.
  apply (AuthFacts.known_host_is_accepted conf ctx "toor" visited).
  - apply conf_no_peer. discriminate.
  - exists 1. vm_compute. reflexivity.
Defined.

Lemma novel_attempt_rolls_dice_witness :
  ((authHandler conf ctx "hunter2" fresh).2 = true <-> OS.clock (world fresh) mod 3 = 0)
  /\ ((authHandler conf ctx "hunter2" fresh).2 = true ->
      AuthFacts.recorded "+" "host dodged all obstacles" fresh
        (authHandler conf ctx "hunter2" fresh).1)
  /\ ((authHandler conf ctx "hunter2" fresh).2 = false ->
      AuthFacts.recorded "-" "host lost a game of dice" fresh
        (authHandler conf ctx "hunter2" fresh).1).
Proof.
  apply (AuthFacts.novel_attempt_rolls_dice conf ctx "hunter2" fresh).
  - apply conf_no_peer. discriminate.
  - reflexivity.
  - reflexivity.
  - reflexivity.
Defined.

Lemma login_counters_balanced_witness :
  getCount (Attempts (ossh running)) "10.0.0.1"
  = getCount (Failed (ossh running)) "10.0.0.1" + getCount (OK (ossh running)) "10.0.0.1".
Proof.
  apply (login_counters_balanced conf sha1 template timeString keys
           (machine 9) events "10.0.0.1").
  vm_compute. reflexivity.
Defined.

Lemma saveCapture_idempotent_witness :
  let st := saveCapture conf sha1 template timeString attack fresh in
  let st' := saveCapture conf sha1 template timeString attackAgain st in
  world st' = world st
  /\ Fingerprints (ossh st') = Fingerprints (ossh st)
  /\ st' = st.
Proof.
  apply (CaptureFacts.saveCapture_idempotent conf sha1 template timeString
           attack attackAgain
           (saveCapture conf sha1 template timeString attack fresh)).
  - split; reflexivity.
  - vm_compute. reflexivity.
Defined.

Lemma running_users_free :
  forall key, is_Some (field KUsers (ossh running) !! key) ->
              LineFacts.containsByte (byte 10) key = false.
Proof.
  assert (H : map_Forall (fun k _ => LineFacts.containsByte (byte 10) k = false)
                         (field KUsers (ossh running))).
  { refine (bool_decide_unpack _ _). vm_compute. exact I. }
  intros key [v Hv]. exact (H key v Hv).
Defined.

Lemma corpus_file_roundtrip_witness :
  let m := field KUsers (ossh running) in
  let saved := saveOf conf keys KUsers running in
  (OS.ReadFile (pathOf conf KUsers) (world saved)).2
    = OS.Ok (GoStrings.Join (keys m) lineFeed +:+ lineFeed)
  /\ field KUsers (ossh (loadOf conf KUsers (mkState emptyServer (world saved) [])))
     = (fun _ => 1) <$> m.
Proof.
  apply (corpus_file_roundtrip conf sha1 template timeString keys keys_perm
           KUsers (machine 9) events).
  - exact running_users_free.
  - vm_compute. reflexivity.
Defined.

(** C9 as it is stated fails: the user [root] was seen twice; after a save
    and a load into the empty maps of a starting server its count is 1,
    not 0. *)
Lemma loaded_count_is_not_zero :
  let saved := saveUsers conf keys running in
  let loaded := loadUsers conf (mkState emptyServer (world saved) []) in
  Users (ossh running) !! "root" = Some 2
  /\ Users (ossh loaded) !! "root" = Some 1
  /\ ~ (forall k v, Users (ossh loaded) !! k = Some v -> v = 0).
Proof.
  assert (H : Users (ossh (loadUsers conf
                (mkState emptyServer (world (saveUsers conf keys running)) [])))
              !! "root" = Some 1) by (vm_compute; reflexivity).
  intros saved loaded. split; [vm_compute; reflexivity|]. split; [exact H|].
  intros Hzero. specialize (Hzero "root" 1 H). discriminate.
Qed.

(** A key that holds a line feed does not come back from its file: it is
    read as two keys. *)
Example line_feed_key_is_split :
  let o := addUser ("a" +:+ lineFeed +:+ "b") emptyServer in
  let saved := saveUsers conf keys (mkState o (machine 9) []) in
  let loaded := loadUsers conf (mkState emptyServer (world saved) []) in
  map_to_list (Users o) = [("a" +:+ lineFeed +:+ "b", 1)]
  /\ Users (ossh loaded) !! ("a" +:+ lineFeed +:+ "b") = None
  /\ Users (ossh loaded) !! "a" = Some 1
  /\ Users (ossh loaded) !! "b" = Some 1.
Proof. vm_compute. repeat split; reflexivity. Qed.

End Demo.

(* ===================================================================== *)
(** * Paths: cleaning a path that ends in plain names *)
(* ===================================================================== *)

Module PathFacts.
Import TrimFacts LineFacts FilePath.

(** A plain name: a path element that [Clean] keeps as it is. *)
Definition isName (e : string) : bool :=
  negb (String.eqb e EmptyString) && negb (isDot e) && negb (isDotDot e)
  && negb (containsByte Separator e).

(** The stack of [cleanElems] after the elements [elems]. *)
Fixpoint cleanStack (rooted : bool) (elems stack : list string) : list string :=
  match elems with
  | [] => stack
  | e :: rest =>
      if String.eqb e EmptyString || isDot e then cleanStack rooted rest stack
      else if isDotDot e then
        match stack with
        | top :: below =>
            if isDotDot top then cleanStack rooted rest (e :: stack)
            else cleanStack rooted rest below
        | [] =>
            if rooted then cleanStack rooted rest []
            else cleanStack rooted rest [e]
        end
      else cleanStack rooted rest (e :: stack)
  end.

(** What [Clean] puts in front of the names a path ends in. *)
Definition front (rooted : bool) (elems : list string) : string :=
  (if rooted then "/" else EmptyString)
  +:+ match elems with
      | [] => EmptyString
      | _ => GoStrings.Join elems "/" +:+ "/"
      end.

(** A string that is empty or ends in a separator. *)
Definition slashEnded (q : string) : Prop :=
  q = EmptyString \/ exists q0, q = q0 +:+ "/".

Definition rebase (q : string) : string :=
  front (IsAbs q) (rev (cleanStack (IsAbs q) (removelast (Split q Separator)) [])).

Lemma cleanElems_cleanStack rooted elems stack :
  cleanElems rooted elems stack = rev (cleanStack rooted elems stack).
Proof.
  revert stack. induction elems as [|e rest IH]; intros stack; [reflexivity|].
  cbn [cleanElems cleanStack].
  destruct (String.eqb e EmptyString || isDot e); [apply IH|].
  destruct (isDotDot e); [|apply IH].
  destruct stack as [|top below]; [destruct rooted; apply IH|].
  destruct (isDotDot top); apply IH.
Qed.

Lemma cleanStack_app rooted a b stack :
  cleanStack rooted (a ++ b) stack = cleanStack rooted b (cleanStack rooted a stack).
Proof.
  revert stack. induction a as [|e a IH]; intros stack; [reflexivity|].
  cbn [app cleanStack].
  destruct (String.eqb e EmptyString || isDot e); [apply IH|].
  destruct (isDotDot e); [|apply IH].
  destruct stack as [|top below]; [destruct rooted; apply IH|].
  destruct (isDotDot top); apply IH.
Qed.

Lemma cleanStack_names rooted names stack :
  forallb isName names = true ->
  cleanStack rooted names stack = rev names ++ stack.
Proof.
  revert stack. induction names as [|e names IH]; intros stack H; [reflexivity|].
  cbn [forallb] in H. apply andb_prop in H as [He Hn].
  unfold isName in He. apply andb_prop in He as [He Hsep].
  apply andb_prop in He as [He Hdd]. apply andb_prop in He as [Hne Hd].
  cbn [cleanStack].
  destruct (String.eqb e EmptyString); [discriminate|].
  destruct (isDot e); [discriminate|]. destruct (isDotDot e); [discriminate|].
  cbn [orb]. rewrite IH by exact Hn. cbn [rev]. by rewrite <- app_assoc.
Qed.

Lemma Split_nonempty s sep : Split s sep <> [].
Proof.
  destruct s as [|c s]; cbn [Split]; [discriminate|].
  destruct (Ascii.eqb c sep); [discriminate|]. destruct (Split s sep); discriminate.
Qed.

(** Splitting at a separator splits the list of pieces. *)
Lemma Split_append a b sep :
  Split (a +:+ String sep b) sep = Split a sep ++ Split b sep.
Proof.
  induction a as [|c a IH].
  - change (Split (String sep b) sep = [EmptyString] ++ Split b sep).
    cbn [Split]. by rewrite Ascii.eqb_refl.
  - rewrite append_cons. cbn [Split]. rewrite IH.
    destruct (Ascii.eqb c sep); [reflexivity|].
    pose proof (Split_nonempty a sep). destruct (Split a sep); [contradiction|].
    reflexivity.
Qed.

Lemma Split_free s sep : containsByte sep s = false -> Split s sep = [s].
Proof.
  induction s as [|c s IH]; intros H; [reflexivity|].
  cbn [containsByte] in H. apply orb_false_elim in H as [Hc Hs].
  cbn [Split]. rewrite Hc, (IH Hs). reflexivity.
Qed.

Lemma isName_free e : isName e = true -> containsByte Separator e = false.
Proof.
  unfold isName. intros H. apply andb_prop in H as [_ H].
  by apply negb_true_iff in H.
Qed.

Lemma Join_cons2 e e' rest sep :
  GoStrings.Join (e :: e' :: rest) sep = e +:+ sep +:+ GoStrings.Join (e' :: rest) sep.
Proof. reflexivity. Qed.

Lemma Split_Join_names names :
  names <> [] -> forallb isName names = true ->
  Split (GoStrings.Join names "/") Separator = names.
Proof.
  induction names as [|e names IH]; intros Hne H; [contradiction|].
  cbn [forallb] in H. apply andb_prop in H as [He Hn].
  destruct names as [|e' names].
  - cbn [GoStrings.Join]. apply Split_free. by apply isName_free.
  - rewrite Join_cons2.
    change ("/" +:+ GoStrings.Join (e' :: names) "/")
      with (String Separator (GoStrings.Join (e' :: names) "/")).
    rewrite Split_append, (Split_free e) by (by apply isName_free).
    rewrite IH by (done || discriminate). reflexivity.
Qed.

Lemma Join_app a b sep :
  a <> [] -> b <> [] ->
  GoStrings.Join (a ++ b) sep = GoStrings.Join a sep +:+ sep +:+ GoStrings.Join b sep.
Proof.
  induction a as [|e a IH]; intros Ha Hb; [contradiction|].
  destruct a as [|e' a].
  - destruct b as [|x b]; [contradiction|]. reflexivity.
  - change ((e :: e' :: a) ++ b) with (e :: (e' :: a) ++ b).
    change ((e' :: a) ++ b) with (e' :: a ++ b) at 1.
    rewrite Join_cons2. change (e' :: a ++ b) with ((e' :: a) ++ b).
    rewrite IH by (done || discriminate). rewrite Join_cons2.
    by rewrite !append_assoc.
Qed.

(** The last line of [Clean]: the elements written out again. *)
Definition render (rooted : bool) (elems : list string) : string :=
  if rooted then "/" +:+ GoStrings.Join elems "/"
  else match elems with
       | [] => "."
       | _ => GoStrings.Join elems "/"
       end.

Lemma Clean_render path :
  path <> EmptyString ->
  Clean path = render (IsAbs path) (cleanElems (IsAbs path) (Split path Separator) []).
Proof. intros H. destruct path; [contradiction | reflexivity]. Qed.

Lemma render_app rooted elems names :
  names <> [] ->
  render rooted (elems ++ names) = front rooted elems +:+ GoStrings.Join names "/".
Proof.
  intros Hn. unfold render, front.
  destruct elems as [|e elems].
  - cbn [app]. destruct rooted; [reflexivity|].
    destruct names; [contradiction | reflexivity].
  - rewrite Join_app by (done || discriminate).
    destruct rooted; [by rewrite !append_assoc|].
    cbn [app]. by rewrite !append_assoc.
Qed.

Lemma front_slashEnded rooted elems : slashEnded (front rooted elems).
Proof.
  unfold front, slashEnded. destruct elems as [|e elems].
  - destruct rooted; [right; by exists EmptyString | by left].
  - right. exists ((if rooted then "/" else EmptyString) +:+ GoStrings.Join (e :: elems) "/").
    by rewrite append_assoc.
Qed.

Lemma IsAbs_append q s :
  IsAbs s = false -> IsAbs (q +:+ s) = IsAbs q.
Proof.
  intros Hs. destruct q as [|c q]; [exact Hs|]. reflexivity.
Qed.

Lemma IsAbs_Join_names names :
  forallb isName names = true -> IsAbs (GoStrings.Join names "/") = false.
Proof.
  destruct names as [|e names]; [reflexivity|]. intros H.
  cbn [forallb] in H. apply andb_prop in H as [He _].
  pose proof (isName_free e He) as Hfree.
  assert (Hhead : forall rest, IsAbs (e +:+ rest) = IsAbs e /\ IsAbs e = false
                               \/ e = EmptyString).
  { intros rest. destruct e as [|c e]; [by right|]. left.
    cbn [containsByte] in Hfree. apply orb_false_elim in Hfree as [Hc _].
    unfold IsAbs. rewrite append_cons. cbn [HasPrefix].
    unfold Separator in Hc. rewrite Hc. by split. }
  assert (Hne : e <> EmptyString).
  { intros ->. discriminate. }
  destruct names as [|e' names].
  - cbn [GoStrings.Join]. destruct (Hhead EmptyString) as [[_ ?]|?]; [done|contradiction].
  - rewrite Join_cons2. destruct (Hhead ("/" +:+ GoStrings.Join (e' :: names) "/"))
      as [[-> ?]|?]; [done|contradiction].
Qed.

Lemma Split_slashEnded q names :
  slashEnded q -> names <> [] -> forallb isName names = true ->
  Split (q +:+ GoStrings.Join names "/") Separator
  = removelast (Split q Separator) ++ names.
Proof.
  intros [->|[q0 ->]] Hne Hn.
  - change (EmptyString +:+ ?s) with s. cbn [Split removelast app].
    by apply Split_Join_names.
  - rewrite append_assoc.
    change ("/" +:+ GoStrings.Join names "/")
      with (String Separator (GoStrings.Join names "/")).
    change (q0 +:+ "/") with (q0 +:+ String Separator EmptyString).
    rewrite !Split_append, Split_Join_names by done.
    cbn [Split]. rewrite removelast_app by discriminate. cbn [removelast].
    by rewrite app_nil_r.
Qed.

(** Cleaning keeps the plain names a path ends in, and what it puts in
    front of them depends on the front part only. *)
Lemma Clean_names q names :
  slashEnded q -> names <> [] -> forallb isName names = true ->
  Clean (q +:+ GoStrings.Join names "/") = rebase q +:+ GoStrings.Join names "/".
Proof.
  intros Hq Hne Hn.
  assert (Hjoin : GoStrings.Join names "/" <> EmptyString).
  { intros E. pose proof (Split_Join_names names Hne Hn) as Hs. rewrite E in Hs.
    destruct names as [|e names]; [contradiction|]. cbn [Split] in Hs.
    injection Hs as <- _. discriminate. }
  rewrite Clean_render.
  2:{ destruct q; [exact Hjoin | discriminate]. }
  rewrite (IsAbs_append q) by (by apply IsAbs_Join_names).
  rewrite (Split_slashEnded q names Hq Hne Hn).
  rewrite cleanElems_cleanStack, cleanStack_app, cleanStack_names, rev_app_distr,
    rev_involutive by exact Hn.
  by rewrite render_app.
Qed.

Lemma rebase_slashEnded q : slashEnded (rebase q).
Proof. apply front_slashEnded. Qed.

End PathFacts.

(* ===================================================================== *)
(** * Overlay sessions: where their directories are *)
(* ===================================================================== *)

Module SessionFacts.
Import TrimFacts LineFacts PathFacts OS Overlay.

(** A string of digits and minus signs. *)
Fixpoint numeric (s : string) : bool :=
  match s with
  | EmptyString => true
  | String c s' => (isDigit c || Ascii.eqb c "-") && numeric s'
  end.

Lemma numeric_uint d : numeric (DecimalString.NilEmpty.string_of_uint d) = true.
Proof. induction d; simpl; try rewrite IHd; reflexivity. Qed.

Lemma FormatInt_numeric i : numeric (FormatInt i) = true /\ FormatInt i <> EmptyString.
Proof.
  unfold FormatInt. destruct (Z.to_int i) as [d|d]; cbn.
  - destruct d; split; try discriminate; try reflexivity;
      apply (numeric_uint (_ d)) || exact (numeric_uint _).
  - split; [|discriminate]. destruct d; try reflexivity; exact (numeric_uint _).
Qed.

Lemma numeric_free s : numeric s = true -> containsByte FilePath.Separator s = false.
Proof.
  induction s as [|c s IH]; intros H; [reflexivity|].
  cbn [numeric] in H. apply andb_prop in H as [Hc Hs].
  cbn [containsByte]. rewrite (IH Hs), orb_false_r.
  destruct (Ascii.eqb_spec c FilePath.Separator) as [->|]; [discriminate | reflexivity].
Qed.

Lemma append_free a b :
  containsByte FilePath.Separator a = false ->
  containsByte FilePath.Separator b = false ->
  containsByte FilePath.Separator (a +:+ b) = false.
Proof.
  intros Ha Hb. induction a as [|c a IH]; [exact Hb|].
  rewrite append_cons. cbn [containsByte] in *.
  apply orb_false_elim in Ha as [-> Ha]. by apply IH.
Qed.

(** The three names a session is made of are plain names. *)
Lemma session_names i :
  isName (FormatInt i) = true
  /\ isName ("merge-" +:+ FormatInt i) = true
  /\ isName ("work-" +:+ FormatInt i) = true.
Proof.
  destruct (FormatInt_numeric i) as [Hnum Hne].
  pose proof (numeric_free _ Hnum) as Hfree.
  assert (Hm : containsByte FilePath.Separator ("merge-" +:+ FormatInt i) = false)
    by (by apply append_free).
  assert (Hw : containsByte FilePath.Separator ("work-" +:+ FormatInt i) = false)
    by (by apply append_free).
  unfold isName. rewrite Hfree, Hm, Hw. repeat split.
  destruct (FormatInt i) as [|c s]; [contradiction|].
  cbn [numeric] in Hnum. apply andb_prop in Hnum as [Hc Hs].
  destruct (Ascii.eqb_spec c ".") as [->|Hdot]; [discriminate|].
  assert (E1 : FilePath.isDot (String c s) = false).
  { unfold FilePath.isDot. cbn. destruct (Ascii.eqb_spec c "."); [contradiction | reflexivity]. }
  assert (E2 : FilePath.isDotDot (String c s) = false).
  { unfold FilePath.isDotDot. cbn. destruct (Ascii.eqb_spec c "."); [contradiction | reflexivity]. }
  by rewrite E1, E2.
Qed.

(** The directories of a session: a common front part [q], then
    [merge-t], [layers/t] and [work-t]. *)
Definition sessionDirs (ofs : OverlayFS) (q t : string) : Prop :=
  mergedDir ofs = q +:+ "merge-" +:+ t
  /\ upperDir ofs = q +:+ "layers/" +:+ t
  /\ workDir ofs = q +:+ "work-" +:+ t
  /\ slashEnded q
  /\ isName t = true /\ isName ("merge-" +:+ t) = true /\ isName ("work-" +:+ t) = true.

Lemma bind_Ok {A B} (c : M A) (k : A -> M B) w w' b :
  (c ≫= k) w = (w', Ok b) ->
  exists a w1, c w = (w1, Ok a) /\ k a w1 = (w', Ok b).
Proof.
  unfold mbind, M_bind, bind. destruct (c w) as [w1 [a|e]]; [|discriminate].
  intros H. by exists a, w1.
Qed.

Lemma Join_names_nonempty names :
  names <> [] -> forallb isName names = true -> GoStrings.Join names "/" <> EmptyString.
Proof.
  intros Hne Hn E. pose proof (Split_Join_names names Hne Hn) as Hs. rewrite E in Hs.
  destruct names as [|e names]; [contradiction|]. cbn [Split] in Hs.
  injection Hs as <- _. discriminate.
Qed.

(** [filepath.Join] of a path and plain names. *)
Lemma Join_path_names sp names :
  names <> [] -> forallb isName names = true ->
  FilePath.Join (sp :: names)
  = rebase (if String.eqb sp EmptyString then EmptyString else sp +:+ "/")
    +:+ GoStrings.Join names "/".
Proof.
  intros Hne Hn. cbn [FilePath.Join].
  destruct (String.eqb_spec sp EmptyString) as [->|Hsp].
  - destruct names as [|e names]; [contradiction|].
    cbn [FilePath.Join].
    assert (He : String.eqb e EmptyString = false).
    { cbn [forallb] in Hn. apply andb_prop in Hn as [He _]. unfold isName in He.
      destruct (String.eqb e EmptyString); [discriminate | reflexivity]. }
    rewrite He. apply (Clean_names EmptyString (e :: names)); [by left | done | done].
  - destruct names as [|e names]; [contradiction|].
    rewrite Join_cons2, <- append_assoc.
    apply (Clean_names (sp +:+ "/") (e :: names)); [right; by exists sp | done | done].
Qed.

(** What [NewSession] returns, for the unix time [now] it has read. *)
Lemma NewSession_record ofsm sandboxKey w w' ofs :
  NewSession ofsm sandboxKey w = (w', Ok ofs) ->
  let sp := FilePath.Join [baseDir ofsm; "sandboxes"; sandboxKey] in
  exists now entries,
    (exists w0, OS.ReadDir (FilePath.Join [sp; "layers"]) w0 = (w', Ok entries))
    /\ ofs = mkOverlayFS
               (FilePath.Join [sp; "merge-" +:+ FormatInt now])
               (FilePath.Join [sp; "layers"; FormatInt now])
               (FilePath.Join [sp; "work-" +:+ FormatInt now])
               (sortSlice lessLayer
                  (map (fun entry => FilePath.Join [sp; "layers"; Name entry])
                       (List.filter IsDir entries))
                ++ [FilePath.Join [baseDir ofsm; "defaultfs"]]).
Proof.
  intros H. cbv zeta. unfold NewSession in H.
  set (sp := FilePath.Join [baseDir ofsm; "sandboxes"; sandboxKey]) in *.
  apply bind_Ok in H as (there1 & w1 & _ & H).
  apply bind_Ok in H as (? & w2 & _ & H).
  apply bind_Ok in H as (there2 & w3 & _ & H).
  apply bind_Ok in H as (? & w4 & _ & H).
  apply bind_Ok in H as (now & w5 & _ & H).
  apply bind_Ok in H as (entries & w6 & Hread & H).
  exists now, entries. split.
  - exists w5. unfold wrapErr in Hread.
    destruct (OS.ReadDir _ w5) as [wr [es|e]] eqn:E; [|discriminate].
    unfold mret, M_ret, ret in H. fold sp in E. congruence.
  - unfold mret, M_ret, ret in H. subst sp. congruence.
Qed.

Lemma NewSession_dirs ofsm sandboxKey w w' ofs :
  NewSession ofsm sandboxKey w = (w', Ok ofs) ->
  exists q t, sessionDirs ofs q t.
Proof.
  intros H. apply NewSession_record in H as (now & entries & _ & ->).
  destruct (session_names now) as (Ht & Hm & Hw).
  set (sp := FilePath.Join [baseDir ofsm; "sandboxes"; sandboxKey]).
  exists (rebase (if String.eqb sp EmptyString then EmptyString else sp +:+ "/")),
         (FormatInt now).
  unfold sessionDirs. cbn [mergedDir upperDir workDir].
  split; [|split; [|split; [|split; [apply rebase_slashEnded | by repeat split]]]].
  - apply (Join_path_names sp ["merge-" +:+ FormatInt now]); [done|].
    cbn [forallb]. by rewrite Hm.
  - rewrite (Join_path_names sp ["layers"; FormatInt now]); [reflexivity | done |].
    cbn [forallb]. by rewrite Ht.
  - apply (Join_path_names sp ["work-" +:+ FormatInt now]); [done|].
    cbn [forallb]. by rewrite Hw.
Qed.

End SessionFacts.

(* ===================================================================== *)
(** * Closing a session: what goes and what stays *)
(* ===================================================================== *)

Module CloseFacts.
Import TrimFacts LineFacts PathFacts SessionFacts OS Overlay.

(** The front part of the keys of a session in the working directory [wd]. *)
Definition anchor (wd q : string) : string :=
  if FilePath.IsAbs q then rebase q
  else if String.eqb wd EmptyString then rebase q
  else rebase (wd +:+ "/" +:+ q).

Lemma resolve_names w q names :
  slashEnded q -> names <> [] -> forallb isName names = true ->
  resolve w (q +:+ GoStrings.Join names "/")
  = anchor (wd w) q +:+ GoStrings.Join names "/".
Proof.
  intros Hq Hne Hn. unfold resolve, FilePath.Abs, anchor.
  rewrite (IsAbs_append q) by (by apply IsAbs_Join_names).
  destruct (FilePath.IsAbs q); [by apply Clean_names|].
  cbn [FilePath.Join].
  assert (Hp : String.eqb (q +:+ GoStrings.Join names "/") EmptyString = false).
  { apply String.eqb_neq. intros E. apply (Join_names_nonempty names Hne Hn).
    destruct q; [exact E | discriminate]. }
  destruct (String.eqb_spec (wd w) EmptyString) as [_|Hwd].
  - rewrite Hp. cbn [GoStrings.Join]. by apply Clean_names.
  - cbn [GoStrings.Join]. rewrite <- !append_assoc.
    apply Clean_names; [|done|done].
    destruct Hq as [->|[q0 ->]].
    + right. exists (wd w). by rewrite append_empty_r.
    + right. exists (wd w +:+ "/" +:+ q0). by rewrite !append_assoc.
Qed.

Lemma lookup_filter_key (f : string -> bool) (m : gmap string node) k :
  filter (fun kn : string * node => f kn.1 = false) m !! k
  = if f k then None else m !! k.
Proof.
  destruct (f k) eqn:Hf.
  - apply map_lookup_filter_None_2. right. intros x _. cbn. congruence.
  - destruct (m !! k) as [x|] eqn:Hk.
    + by apply map_lookup_filter_Some_2.
    + apply map_lookup_filter_None_2. by left.
Qed.

Lemma Unmount_frame p w w1 r :
  Unmount p w = (w1, r) ->
  wd w1 = wd w
  /\ forall k, nodes w1 !! k
               = if isOk r && below (resolve w p) k then None else nodes w !! k.
Proof.
  unfold Unmount. destruct (mounts w !! resolve w p); intros [= <- <-].
  - split; [reflexivity|]. intros k. cbn [nodes isOk andb].
    apply lookup_filter_key.
  - split; reflexivity.
Qed.

Lemma Remove_frame p w w1 r :
  Remove p w = (w1, r) ->
  wd w1 = wd w
  /\ forall k, nodes w1 !! k
               = if isOk r && String.eqb k (resolve w p) then None else nodes w !! k.
Proof.
  unfold Remove. destruct (lookupNode w (resolve w p)) as [n|].
  - destruct (String.eqb _ "/" || _); [|destruct (isDir n && _)]; intros [= <- <-];
      (split; [reflexivity|]); intros k; try reflexivity.
    cbn [isOk andb nodes setNodes].
    destruct (String.eqb_spec k (resolve w p)) as [->|Hk].
    + apply lookup_delete_eq.
    + by apply lookup_delete_ne.
  - intros [= <- <-]. split; reflexivity.
Qed.

Lemma RemoveAll_frame p w w1 r :
  RemoveAll p w = (w1, r) ->
  wd w1 = wd w
  /\ forall k, nodes w1 !! k
               = if isOk r && negb (String.eqb p EmptyString) && within (resolve w p) k
                 then None else nodes w !! k.
Proof.
  unfold RemoveAll. destruct (String.eqb p EmptyString).
  - intros [= <- <-]. split; reflexivity.
  - destruct (endsWithDot p); intros [= <- <-]; (split; [reflexivity|]); intros k.
    + reflexivity.
    + cbn [isOk andb negb nodes setNodes]. apply lookup_filter_key.
Qed.

Lemma resolve_wd w w1 p : wd w1 = wd w -> resolve w1 p = resolve w p.
Proof. intros H. unfold resolve. by rewrite H. Qed.

(** [Close], step by step: the nodes afterwards. *)
Lemma Close_nodes ofs w :
  let km := resolve w (mergedDir ofs) in
  let kw := resolve w (workDir ofs) in
  forall k,
    (within km k = false -> within kw k = false ->
     nodes (Close ofs w).1 !! k = nodes w !! k)
    /\ ((Close ofs w).2 = Ok tt -> workDir ofs <> EmptyString ->
        (k = km \/ within kw k = true) -> nodes (Close ofs w).1 !! k = None).
Proof.
  intros km kw k. unfold Close, mbind, M_bind, bind, wrapErr, mret, M_ret, ret.
  destruct (Unmount (mergedDir ofs) w) as [w1 r1] eqn:E1.
  destruct (Unmount_frame _ _ _ _ E1) as [Hwd1 Hn1].
  assert (Hbelow : within km k = false -> below km k = false).
  { unfold within. intros H. by apply orb_false_elim in H as [_ ?]. }
  assert (Heq : within km k = false -> String.eqb k km = false).
  { unfold within. intros H. by apply orb_false_elim in H as [? _]. }
  destruct r1 as [[]|e1]; cbn [fst snd].
  2:{ split; [|discriminate]. intros Hm _. by rewrite Hn1. }
  destruct (Remove (mergedDir ofs) w1) as [w2 r2] eqn:E2.
  destruct (Remove_frame _ _ _ _ E2) as [Hwd2 Hn2].
  rewrite (resolve_wd w w1 _ Hwd1) in Hn2. fold km in Hn1, Hn2.
  destruct r2 as [[]|e2]; cbn [fst snd].
  2:{ split; [|discriminate]. intros Hm _. rewrite Hn2, Hn1.
      cbn [isOk andb]. by rewrite (Hbelow Hm). }
  destruct (RemoveAll (workDir ofs) w2) as [w3 r3] eqn:E3.
  destruct (RemoveAll_frame _ _ _ _ E3) as [Hwd3 Hn3].
  rewrite (resolve_wd w w2 _ (eq_trans Hwd2 Hwd1)) in Hn3. fold kw in Hn3.
  destruct r3 as [[]|e3]; cbn [fst snd].
  2:{ split; [|discriminate]. intros Hm _. rewrite Hn3, Hn2, Hn1.
      cbn [isOk andb]. by rewrite (Heq Hm), (Hbelow Hm). }
  split.
  - intros Hm Hw. rewrite Hn3, Hn2, Hn1. cbn [isOk andb].
    by rewrite Hw, (Heq Hm), (Hbelow Hm), andb_false_r.
  - intros _ Hne Hk. rewrite Hn3.
    assert (Hp : String.eqb (workDir ofs) EmptyString = false)
      by (by apply String.eqb_neq).
    rewrite Hp. cbn [isOk andb negb].
    destruct (within kw k) eqn:Hw; [reflexivity|].
    destruct Hk as [->|Hk]; [|discriminate].
    rewrite Hn2. cbn [isOk andb]. by rewrite String.eqb_refl.
Qed.

(** ** The three directories of a session keep apart *)

Lemma HasPrefix_common a x y : HasPrefix (a +:+ x) (a +:+ y) = HasPrefix x y.
Proof.
  induction a as [|c a IH]; [reflexivity|].
  rewrite !append_cons. cbn [HasPrefix]. by rewrite Ascii.eqb_refl.
Qed.

Lemma HasPrefix_shorter k p p' : HasPrefix k (p +:+ p') = true -> HasPrefix k p = true.
Proof.
  revert k. induction p as [|c p IH]; intros k H; [reflexivity|].
  rewrite append_cons in H. cbn [HasPrefix] in *.
  destruct k as [|d k]; [discriminate|]. destruct (Ascii.eqb d c); [by apply IH | discriminate].
Qed.

Lemma HasPrefix_rest k p : HasPrefix k p = true -> exists rest, k = p +:+ rest.
Proof.
  revert k. induction p as [|c p IH]; intros k H; [by exists k|].
  cbn [HasPrefix] in H. destruct k as [|d k]; [discriminate|].
  destruct (Ascii.eqb_spec d c) as [->|]; [|discriminate].
  destruct (IH k H) as [rest ->]. by exists rest.
Qed.

(** Everything in the directory [a ++ c ++ rest] starts with [a ++ c]. *)
Lemma within_tag a c rest k :
  c <> "/"%char ->
  within (a +:+ String c rest) k = true ->
  HasPrefix k (a +:+ String c EmptyString) = true.
Proof.
  intros Hc H. unfold within in H. apply orb_prop in H as [H|H].
  - apply String.eqb_eq in H as ->. rewrite HasPrefix_common. cbn [HasPrefix].
    by rewrite Ascii.eqb_refl.
  - unfold below in H.
    destruct (String.eqb_spec (a +:+ String c rest) "/") as [E|_].
    + exfalso. destruct a as [|x a].
      * injection E as E _. contradiction.
      * rewrite append_cons in E. injection E as _ E. destruct a; discriminate.
    + apply (HasPrefix_shorter k _ (rest +:+ "/")).
      rewrite append_assoc in H |- *. exact H.
Qed.

Lemma tags_apart a c c' k :
  c <> c' ->
  HasPrefix k (a +:+ String c EmptyString) = true ->
  HasPrefix k (a +:+ String c' EmptyString) = false.
Proof.
  intros Hc H. apply HasPrefix_rest in H as [rest ->].
  rewrite append_assoc, HasPrefix_common. cbn [HasPrefix String.append].
  rewrite append_cons. cbn [HasPrefix].
  destruct (Ascii.eqb_spec c c'); [contradiction | reflexivity].
Qed.

Lemma within_apart a c rest c' rest' k :
  c <> "/"%char -> c' <> "/"%char -> c <> c' ->
  within (a +:+ String c rest) k = true ->
  within (a +:+ String c' rest') k = false.
Proof.
  intros Hc Hc' Hne H. apply within_tag in H; [|exact Hc].
  destruct (within (a +:+ String c' rest') k) eqn:H'; [|reflexivity].
  apply within_tag in H'; [|exact Hc'].
  by rewrite (tags_apart a c c' k Hne H) in H'.
Qed.

(** The keys of the directories of a session. *)
Lemma session_keys ofs q t w :
  sessionDirs ofs q t ->
  resolve w (mergedDir ofs) = anchor (wd w) q +:+ "merge-" +:+ t
  /\ resolve w (upperDir ofs) = anchor (wd w) q +:+ "layers/" +:+ t
  /\ resolve w (workDir ofs) = anchor (wd w) q +:+ "work-" +:+ t.
Proof.
  intros (-> & -> & -> & Hq & Ht & Hm & Hw). repeat split.
  - apply (resolve_names w q ["merge-" +:+ t]); [done | done |].
    cbn [forallb]. by rewrite Hm.
  - apply (resolve_names w q ["layers"; t]); [done | done |].
    cbn [forallb]. by rewrite Ht.
  - apply (resolve_names w q ["work-" +:+ t]); [done | done |].
    cbn [forallb]. by rewrite Hw.
Qed.

(** C6: for every session that [NewSession] hands out, [Close] never
    removes the upper directory [layers/<t>]: whatever state the machine is
    in and whether [Close] succeeds or fails, the upper directory and all
    that is in it stay as they are; nothing outside the merged directory
    and the work tree is touched; and when [Close] returns without error the
    merged directory and the entire work tree are gone. *)
Theorem Close_keeps_upper (ofsm : OverlayFSManager) (sandboxKey : string)
    (w0 w0' : World) (ofs : OverlayFS) (w : World) :
  NewSession ofsm sandboxKey w0 = (w0', Ok ofs) ->
  let km := resolve w (mergedDir ofs) in
  let ku := resolve w (upperDir ofs) in
  let kw := resolve w (workDir ofs) in
  let after := (Close ofs w).1 in
  (exists now, upperDir ofs
               = FilePath.Join [FilePath.Join [baseDir ofsm; "sandboxes"; sandboxKey];
                                "layers"; FormatInt now])
  /\ (forall k, within ku k = true -> nodes after !! k = nodes w !! k)
  /\ (forall k, within km k = false -> within kw k = false ->
                nodes after !! k = nodes w !! k)
  /\ ((Close ofs w).2 = Ok tt ->
      nodes after !! km = None
      /\ forall k, within kw k = true -> nodes after !! k = None).
Proof.
  intros Hnew km ku kw after.
  pose proof (NewSession_record _ _ _ _ _ Hnew) as (now & entries & _ & Hrec).
  destruct (NewSession_dirs _ _ _ _ _ Hnew) as (q & t & Hdirs).
  destruct (session_keys ofs q t w Hdirs) as (Ekm & Eku & Ekw).
  fold km in Ekm. fold ku in Eku. fold kw in Ekw.
  assert (Hwork : workDir ofs <> EmptyString).
  { destruct Hdirs as (_ & _ & -> & _). destruct q; discriminate. }
  split; [|split; [|split]].
  - exists now. by rewrite Hrec.
  - intros k Hk. rewrite Eku in Hk. apply (Close_nodes ofs w k).
    + fold km. rewrite Ekm.
      apply (within_apart (anchor (wd w) q) "l" ("ayers/" +:+ t) "m" ("erge-" +:+ t) k);
        [done | done | done | exact Hk].
    + fold kw. rewrite Ekw.
      apply (within_apart (anchor (wd w) q) "l" ("ayers/" +:+ t) "w" ("ork-" +:+ t) k);
        [done | done | done | exact Hk].
  - intros k. apply (Close_nodes ofs w k).
  - intros Hok. split.
    + apply (Close_nodes ofs w km); [exact Hok | exact Hwork | by left].
    + intros k Hk. apply (Close_nodes ofs w k); [exact Hok | exact Hwork | by right].
Qed.

End CloseFacts.

(* ===================================================================== *)
(** * Mounting a session: the directories it makes *)
(* ===================================================================== *)

Module MountFacts.
Import SessionFacts OS Overlay.

Lemma wrapErr_Ok {A} prefix (c : M A) w w' a :
  wrapErr prefix c w = (w', Ok a) -> c w = (w', Ok a).
Proof. unfold wrapErr. destruct (c w) as [w1 [x|e]]; congruence. Qed.

Lemma Mkdir_Ok name perm w w' :
  OS.Mkdir name perm w = (w', Ok tt) ->
  lookupNode w (resolve w name) = None
  /\ w' = setNodes w (<[resolve w name := Dir (createMode w perm)]> (nodes w)).
Proof.
  unfold OS.Mkdir. destruct (lookupNode w (resolve w name)); [discriminate|].
  destruct (lookupNode w (parentOf _)) as [[m|m d]|]; try discriminate.
  intros [= <-]. by split.
Qed.

Lemma MountOverlay_Ok target data w w' :
  MountOverlay target data w = (w', Ok tt) ->
  nodes w' = nodes w /\ mounts w' !! resolve w target = Some data.
Proof.
  unfold MountOverlay. destruct (lookupNode w _) as [[m|m d]|]; try discriminate.
  intros [= <-]. split; [reflexivity|]. cbn [mounts setMounts]. apply lookup_insert_eq.
Qed.

Lemma lookupNode_None w k : lookupNode w k = None -> nodes w !! k = None /\ k <> "/".
Proof.
  unfold lookupNode. destruct (String.eqb_spec k "/"); [discriminate|]. by split.
Qed.

(** The permission bits [os.Mkdir] gets from the decimal number 700. *)
Lemma syscallMode_decimal_700 : syscallMode 700 = octal 274.
Proof. reflexivity. Qed.

(** Without the bit for reading by the owner, whatever the umask is. *)
Lemma created_mode_not_owner_only u :
  Z.land (Z.ldiff (octal 274) u) (octal 400) = 0
  /\ Z.ldiff (octal 274) u <> octal 700.
Proof.
  assert (H : Z.land (Z.ldiff (octal 274) u) (octal 400) = 0).
  { apply Z.bits_inj'. intros n Hn.
    rewrite Z.land_spec, Z.ldiff_spec, Z.bits_0.
    destruct (Z.eq_dec n 8) as [->|Hne]; [reflexivity|].
    change (octal 400) with (2 ^ 8).
    rewrite (Z.pow2_bits_false 8 n) by (intro; apply Hne; lia).
    apply andb_false_r. }
  split; [exact H|]. intros E. rewrite E in H. discriminate.
Qed.

(** C7, as the code has it: [Mount] creates the merged, the work and the
    upper directory fresh, each with the permission bits of the decimal
    number 700, which are octal 274 less the umask: never the owner-only
    mode 0700, and never readable by the owner. *)
Theorem Mount_directory_modes (ofs : OverlayFS) (w w' : World) :
  Mount ofs w = (w', Ok tt) ->
  let mode := Z.ldiff (octal 274) (umask w) in
  (lookupNode w (resolve w (mergedDir ofs)) = None
   /\ lookupNode w (resolve w (workDir ofs)) = None
   /\ lookupNode w (resolve w (upperDir ofs)) = None)
  /\ (nodes w' !! resolve w (mergedDir ofs) = Some (Dir mode)
      /\ nodes w' !! resolve w (workDir ofs) = Some (Dir mode)
      /\ nodes w' !! resolve w (upperDir ofs) = Some (Dir mode))
  /\ mode <> octal 700
  /\ Z.land mode (octal 400) = 0.
Proof.
  intros H mode. unfold Mount in H.
  apply bind_Ok in H as ([] & w1 & H1 & H).
  apply bind_Ok in H as ([] & w2 & H2 & H).
  apply bind_Ok in H as ([] & w3 & H3 & H).
  apply bind_Ok in H as ([] & w4 & H4 & H).
  apply wrapErr_Ok, Mkdir_Ok in H1 as [N1 ->].
  apply wrapErr_Ok, Mkdir_Ok in H2 as [N2 ->].
  apply wrapErr_Ok, Mkdir_Ok in H3 as [N3 ->].
  apply wrapErr_Ok, MountOverlay_Ok in H4 as [E4 _].
  unfold mret, M_ret, ret in H. injection H as <-.
  unfold resolve, createMode in *. cbn [wd umask setNodes] in *.
  set (km := FilePath.Abs (wd w) (mergedDir ofs)) in *.
  set (kw := FilePath.Abs (wd w) (workDir ofs)) in *.
  set (ku := FilePath.Abs (wd w) (upperDir ofs)) in *.
  apply lookupNode_None in N2 as [N2 R2]. apply lookupNode_None in N3 as [N3 R3].
  cbn [nodes setNodes] in N2, N3, E4.
  assert (Hmw : km <> kw) by (intros E; rewrite E, lookup_insert_eq in N2; discriminate).
  assert (Hwu : kw <> ku) by (intros E; rewrite E, lookup_insert_eq in N3; discriminate).
  assert (Hmu : km <> ku).
  { intros E. rewrite lookup_insert_ne in N3 by exact Hwu.
    rewrite E, lookup_insert_eq in N3. discriminate. }
  rewrite lookup_insert_ne in N2 by exact Hmw.
  rewrite !lookup_insert_ne in N3 by assumption.
  change (Z.ldiff (syscallMode 700) (umask w)) with mode in E4.
  split; [|split; [|apply and_comm, created_mode_not_owner_only]].
  - split; [exact N1|]. unfold lookupNode.
    destruct (String.eqb_spec kw "/"), (String.eqb_spec ku "/"); try contradiction.
    by split.
  - rewrite E4. split; [|split].
    + rewrite !lookup_insert_ne by congruence. apply lookup_insert_eq.
    + rewrite lookup_insert_ne by congruence. apply lookup_insert_eq.
    + apply lookup_insert_eq.
Qed.

End MountFacts.

(* ===================================================================== *)
(** * A sandbox on a small machine, and the overlay theorems at work on it *)
(* ===================================================================== *)

Module OverlayDemo.
Import OS Overlay.

Definition manager : OverlayFSManager := mkManager "/ofs".

(** The machine before the first session of host [k], at unix time
    1651420000. *)
Definition before : World := sandboxWorld [] 1651420000.

Definition session : OverlayFS :=
  mkOverlayFS "/ofs/sandboxes/k/merge-1651420000"
              "/ofs/sandboxes/k/layers/1651420000"
              "/ofs/sandboxes/k/work-1651420000"
              ["/ofs/defaultfs"].

Lemma session_new :
  NewSession manager "k" before = ((NewSession manager "k" before).1, Ok session).
Proof. vm_compute. reflexivity. Defined.

(** The machine with the session mounted and a file written into its
    upper directory. *)
Definition mounted : World :=
  (OS.WriteFile "/ofs/sandboxes/k/layers/1651420000/marker" "seen" (octal 644)
     (Mount session before).1).1.

Lemma Mount_session_Ok : Mount session before = ((Mount session before).1, Ok tt).
Proof. vm_compute. reflexivity. Defined.

Lemma Close_mounted_Ok : (Close session mounted).2 = Ok tt.
Proof. vm_compute. reflexivity. Defined.

Lemma Close_keeps_upper_witness :
  let km := resolve mounted (mergedDir session) in
  let ku := resolve mounted (upperDir session) in
  let kw := resolve mounted (workDir session) in
  let after := (Close session mounted).1 in
  (exists now, upperDir session
               = FilePath.Join [FilePath.Join [baseDir manager; "sandboxes"; "k"];
                                "layers"; FormatInt now])
  /\ (forall k, within ku k = true -> nodes after !! k = nodes mounted !! k)
  /\ (forall k, within km k = false -> within kw k = false ->
                nodes after !! k = nodes mounted !! k)
  /\ ((Close session mounted).2 = Ok tt ->
      nodes after !! km = None
      /\ forall k, within kw k = true -> nodes after !! k = None).
Proof.
  exact (CloseFacts.Close_keeps_upper manager "k" before
           (NewSession manager "k" before).1 session mounted session_new).
Defined.

Lemma Mount_directory_modes_witness :
  let mode := Z.ldiff (octal 274) (umask before) in
  (lookupNode before (resolve before (mergedDir session)) = None
   /\ lookupNode before (resolve before (workDir session)) = None
   /\ lookupNode before (resolve before (upperDir session)) = None)
  /\ (nodes (Mount session before).1 !! resolve before (mergedDir session) = Some (Dir mode)
      /\ nodes (Mount session before).1 !! resolve before (workDir session) = Some (Dir mode)
      /\ nodes (Mount session before).1 !! resolve before (upperDir session) = Some (Dir mode))
  /\ mode <> octal 700
  /\ Z.land mode (octal 400) = 0.
Proof.
  exact (MountFacts.Mount_directory_modes session before (Mount session before).1
           Mount_session_Ok).
Defined.

(** The upper directory and the file in it are there after [Close]; the
    merged and the work directory are gone. *)
Example Close_mounted_nodes :
  let after := (Close session mounted).1 in
  nodes after !! "/ofs/sandboxes/k/layers/1651420000" = Some (Dir (octal 254))
  /\ nodes after !! "/ofs/sandboxes/k/layers/1651420000/marker"
     = Some (File (octal 644) "seen")
  /\ nodes after !! "/ofs/sandboxes/k/merge-1651420000" = None
  /\ nodes after !! "/ofs/sandboxes/k/work-1651420000" = None.
Proof. vm_compute. repeat split; reflexivity. Qed.

End OverlayDemo.

(* ===================================================================== *)
(** * The order of the lower layers of a new session *)
(* ===================================================================== *)

Module LayerOrder.
Import TrimFacts LineFacts PathFacts SessionFacts OS Overlay.

Lemma parseDigits_other c s acc :
  containsByte c s = true -> isDigit c = false -> parseDigits s acc = None.
Proof.
  revert acc. induction s as [|d s IH]; intros acc Hin Hc; [discriminate|].
  cbn [containsByte] in Hin. cbn [parseDigits].
  destruct (Ascii.eqb_spec d c) as [->|_].
  - by rewrite Hc.
  - cbn [orb] in Hin. destruct (isDigit d); [by apply IH | reflexivity].
Qed.

(** [Atoi] of a string that holds a byte which is neither a digit nor a
    sign: a syntax error, and the value 0. *)
Lemma Atoi_other c s :
  containsByte c s = true -> isDigit c = false ->
  c <> "-"%char -> c <> "+"%char -> Atoi s = (0, true).
Proof.
  intros Hin Hc Hminus Hplus. destruct s as [|d s]; [discriminate|].
  unfold Atoi. cbn [containsByte] in Hin.
  assert (Hsign : d = "-"%char \/ d = "+"%char -> containsByte c s = true).
  { intros Hd. destruct (Ascii.eqb_spec d c) as [->|_]; [|exact Hin].
    destruct Hd; contradiction. }
  destruct (Ascii.eqb_spec d "-") as [E1|E1]; [|destruct (Ascii.eqb_spec d "+") as [E2|E2]].
  - pose proof (Hsign (or_introl E1)) as Hs.
    destruct s; [discriminate|]. by rewrite (parseDigits_other c _ 0 Hs Hc).
  - pose proof (Hsign (or_intror E2)) as Hs.
    destruct s; [discriminate|]. by rewrite (parseDigits_other c _ 0 Hs Hc).
  - assert (Hs : containsByte c (String d s) = true) by exact Hin.
    by rewrite (parseDigits_other c _ 0 Hs Hc).
Qed.

Lemma containsByte_append c a b :
  containsByte c (a +:+ b) = containsByte c a || containsByte c b.
Proof.
  induction a as [|d a IH]; [reflexivity|].
  rewrite append_cons. cbn [containsByte]. by rewrite IH, orb_assoc.
Qed.

(** A comparison that never says "less" leaves the slice as it is. *)
Lemma fold_insertBack_same {A} (less : A -> A -> bool) (l sorted : list A) :
  (forall a b, a ∈ l -> b ∈ l ++ sorted -> less a b = false) ->
  fold_left (fun sorted e => insertBack less e sorted) l sorted = rev l ++ sorted.
Proof.
  revert sorted. induction l as [|x l IH]; intros sorted H; [reflexivity|].
  cbn [fold_left].
  assert (Hx : insertBack less x sorted = x :: sorted).
  { destruct sorted as [|y before]; [reflexivity|]. cbn [insertBack].
    rewrite (H x y); [reflexivity | left |].
    apply elem_of_app. right. left. }
  rewrite Hx, IH.
  - cbn [rev]. by rewrite <- app_assoc.
  - intros a b Ha Hb. apply H; [by right|].
    apply elem_of_app in Hb as [Hb|Hb].
    + apply elem_of_app. left. by right.
    + apply elem_of_cons in Hb as [->|Hb].
      * apply elem_of_app. left. left.
      * apply elem_of_app. by right.
Qed.

Lemma sortSlice_same {A} (less : A -> A -> bool) (l : list A) :
  (forall a b, a ∈ l -> b ∈ l -> less a b = false) -> sortSlice less l = l.
Proof.
  intros H. unfold sortSlice. rewrite fold_insertBack_same.
  - by rewrite app_nil_r, rev_involutive.
  - intros a b Ha Hb. rewrite app_nil_r in Hb. by apply H.
Qed.

(** The elements of the slice [NewSession] sorts are joined paths: [Atoi]
    fails on each of them. *)
Lemma Atoi_layer_path sp name :
  Atoi (FilePath.Join [sp; "layers"; name]) = (0, true)
  \/ isName name = false.
Proof.
  destruct (isName name) eqn:Hname; [left | by right].
  rewrite (Join_path_names sp ["layers"; name])
    by (done || (cbn [forallb]; by rewrite Hname)).
  apply (Atoi_other "l"); try done.
  rewrite containsByte_append. apply orb_true_iff. right. reflexivity.
Qed.

Lemma Split_pieces_free s sep piece :
  piece ∈ Split s sep -> containsByte sep piece = false.
Proof.
  revert piece. induction s as [|c s IH]; intros piece H.
  - cbn [Split] in H. apply list_elem_of_singleton in H as ->. reflexivity.
  - cbn [Split] in H. destruct (Ascii.eqb c sep) eqn:Hc.
    + apply elem_of_cons in H as [->|H]; [reflexivity | by apply IH].
    + destruct (Split s sep) as [|p ps] eqn:Hs.
      * apply list_elem_of_singleton in H as ->. cbn [containsByte].
        by rewrite Hc.
      * apply elem_of_cons in H as [->|H].
        -- cbn [containsByte]. rewrite Hc. apply IH. left.
        -- apply IH. by right.
Qed.

Lemma last_elem {A} (l : list A) d : l <> [] -> List.last l d ∈ l.
Proof.
  induction l as [|x l IH]; intros H; [contradiction|].
  destruct l as [|y l]; [left|]. right. apply IH. discriminate.
Qed.

Lemma baseOf_free key : containsByte FilePath.Separator (baseOf key) = false.
Proof.
  apply (Split_pieces_free key). apply last_elem, Split_nonempty.
Qed.

Lemma insertEntry_elem e x sorted : x ∈ insertEntry e sorted -> x = e \/ x ∈ sorted.
Proof.
  induction sorted as [|y sorted IH]; cbn [insertEntry]; intros H.
  - apply list_elem_of_singleton in H. by left.
  - destruct (String.ltb (Name e) (Name y)).
    + apply elem_of_cons in H as [->|H]; [by left | by right].
    + apply elem_of_cons in H as [->|H]; [right; left|].
      destruct (IH H) as [->|Hs]; [by left | right; by right].
Qed.

Lemma sortEntries_elem x l : x ∈ sortEntries l -> x ∈ l.
Proof.
  induction l as [|e l IH]; cbn [sortEntries fold_right]; intros H; [exact H|].
  apply insertEntry_elem in H as [->|H]; [left | right; by apply IH].
Qed.

(** The names [ReadDir] lists are plain names. *)
Lemma childrenOf_names w key e : e ∈ childrenOf w key -> isName (Name e) = true.
Proof.
  unfold childrenOf. intros H. apply sortEntries_elem in H.
  apply list_elem_of_omap in H as ([k n] & _ & H). cbn [fst snd] in H.
  destruct (_ && isFileName (baseOf k)) eqn:Hcond; [|discriminate].
  injection H as <-. cbn [Name].
  apply andb_prop in Hcond as [_ Hfile]. unfold isFileName in Hfile.
  unfold isName. by rewrite Hfile, baseOf_free.
Qed.

Lemma ReadDir_Ok name w w' entries :
  OS.ReadDir name w = (w', Ok entries) ->
  w' = w /\ entries = childrenOf w (resolve w name).
Proof.
  unfold OS.ReadDir. destruct (lookupNode w _) as [[m|m d]|]; try discriminate.
  intros [= <- <-]. by split.
Qed.

(** The lower layers of a new session: the directories of [layers/] in the
    order in which [ReadDir] lists them, which is the order of their names
    as byte strings, then [defaultfs].  The sort by number never moves an
    element, because its comparison sees the same number, 0, on both sides. *)
Theorem NewSession_lower_in_name_order (ofsm : OverlayFSManager) (sandboxKey : string)
    (w w' : World) (ofs : OverlayFS) :
  NewSession ofsm sandboxKey w = (w', Ok ofs) ->
  let sp := FilePath.Join [baseDir ofsm; "sandboxes"; sandboxKey] in
  exists entries,
    OS.ReadDir (FilePath.Join [sp; "layers"]) w' = (w', Ok entries)
    /\ lowerDirs ofs
       = map (fun entry => FilePath.Join [sp; "layers"; Name entry])
             (List.filter IsDir entries)
         ++ [FilePath.Join [baseDir ofsm; "defaultfs"]]
    /\ (forall a b, a ∈ lowerDirs ofs -> b ∈ lowerDirs ofs ->
                    a <> FilePath.Join [baseDir ofsm; "defaultfs"] ->
                    b <> FilePath.Join [baseDir ofsm; "defaultfs"] ->
                    lessLayer a b = false).
Proof.
  intros Hnew sp.
  destruct (NewSession_record _ _ _ _ _ Hnew) as (now & entries & [w0 Hread] & ->).
  fold sp in Hread |- *. cbn [lowerDirs].
  destruct (ReadDir_Ok _ _ _ _ Hread) as [-> Hentries].
  set (paths := map (fun entry => FilePath.Join [sp; "layers"; Name entry])
                    (List.filter IsDir entries)).
  assert (Hzero : forall a, a ∈ paths -> Atoi a = (0, true)).
  { intros a Ha. subst paths. apply list_elem_of_In, in_map_iff in Ha as (e & <- & He).
    apply filter_In in He as [He _]. apply list_elem_of_In in He.
    rewrite Hentries in He. apply childrenOf_names in He.
    destruct (Atoi_layer_path sp (Name e)) as [?|Hn]; [done | congruence]. }
  assert (Hless : forall a b, a ∈ paths -> b ∈ paths -> lessLayer a b = false).
  { intros a b Ha Hb. unfold lessLayer. by rewrite (Hzero a Ha), (Hzero b Hb). }
  rewrite (sortSlice_same lessLayer paths Hless).
  exists entries. split; [exact Hread|]. split; [reflexivity|].
  intros a b Ha Hb Na Nb. apply Hless.
  - apply elem_of_app in Ha as [?|Ha]; [done|].
    apply list_elem_of_singleton in Ha. contradiction.
  - apply elem_of_app in Hb as [?|Hb]; [done|].
    apply list_elem_of_singleton in Hb. contradiction.
Qed.

End LayerOrder.

Module LayerDemo.
Import OS Overlay OverlayDemo.

(** Host [k] has been there at unix times 999999999 and 1000000000. *)
Definition revisited : World := sandboxWorld ["999999999"; "1000000000"] 1000000005.

Definition third : OverlayFS :=
  mkOverlayFS "/ofs/sandboxes/k/merge-1000000005"
              "/ofs/sandboxes/k/layers/1000000005"
              "/ofs/sandboxes/k/work-1000000005"
              ["/ofs/sandboxes/k/layers/1000000000";
               "/ofs/sandboxes/k/layers/999999999";
               "/ofs/defaultfs"].

Lemma third_new :
  NewSession manager "k" revisited = ((NewSession manager "k" revisited).1, Ok third).
Proof. vm_compute. reflexivity. Defined.

Lemma NewSession_lower_in_name_order_witness :
  let sp := FilePath.Join [baseDir manager; "sandboxes"; "k"] in
  let w' := (NewSession manager "k" revisited).1 in
  exists entries,
    OS.ReadDir (FilePath.Join [sp; "layers"]) w' = (w', Ok entries)
    /\ lowerDirs third
       = map (fun entry => FilePath.Join [sp; "layers"; Name entry])
             (List.filter IsDir entries)
         ++ [FilePath.Join [baseDir manager; "defaultfs"]]
    /\ (forall a b, a ∈ lowerDirs third -> b ∈ lowerDirs third ->
                    a <> FilePath.Join [baseDir manager; "defaultfs"] ->
                    b <> FilePath.Join [baseDir manager; "defaultfs"] ->
                    lessLayer a b = false).
Proof.
  exact (LayerOrder.NewSession_lower_in_name_order manager "k" revisited
           (NewSession manager "k" revisited).1 third third_new).
Defined.

(** A whole visit: a new session is mounted and closed. *)
Definition visit : M unit :=
  ofs ← NewSession manager "k"; Mount ofs;; Close ofs.

Definition atTime (t : Z) : M unit :=
  fun w => (mkWorld (nodes w) (mounts w) (umask w) (wd w) t, Ok tt).

(** Two visits at 999999999 and 1000000000, then a third session: the layer
    of the later visit comes first in its lower list. *)
Example lower_layers_after_two_visits :
  ((atTime 999999999;; visit;; atTime 1000000000;; visit;; atTime 1000000005;;
    NewSession manager "k") before).2
  = Ok third.
Proof. vm_compute. reflexivity. Qed.

End LayerDemo.

(* ===================================================================== *)
(** * The multisets of the corpus: adding and counting *)
(* ===================================================================== *)

Module MultisetFacts.
Import Server TrimFacts CorpusFacts PersistFacts.

(** Adding the empty string, or a string of white space only, to any of the
    four multisets changes nothing in the server. *)
Theorem add_blank_changes_nothing (s : string) (o : OSSHServer) :
  onlySpace s ->
  addHost s o = o /\ addUser s o = o /\ addPassword s o = o /\ addFingerprint s o = o.
Proof.
  intros H. unfold addHost, addUser, addPassword, addFingerprint.
  by rewrite (TrimSpace_onlySpace s H).
Qed.

Lemma add_blank_changes_nothing_witness :
  let o := ossh Demo.running in
  addHost BlankPassword.blankPassword o = o
  /\ addUser BlankPassword.blankPassword o = o
  /\ addPassword BlankPassword.blankPassword o = o
  /\ addFingerprint BlankPassword.blankPassword o = o.
Proof.
  exact (add_blank_changes_nothing BlankPassword.blankPassword (ossh Demo.running)
           BlankPassword.blankPassword_onlySpace).
Defined.

Lemma getCount_addKey s m k :
  TrimSpace s <> EmptyString ->
  getCount (addKey s m) k
  = if decide (k = TrimSpace s) then uintWrap (getCount m k + 1) else getCount m k.
Proof.
  intros Hne. unfold addKey.
  destruct (String.eqb_spec (TrimSpace s) EmptyString); [contradiction|].
  unfold increment. rewrite getCount_insert.
  destruct (decide (TrimSpace s = k)) as [<-|Hk].
  - rewrite decide_True by reflexivity. f_equal. f_equal.
    destruct (hasKey m (TrimSpace s)) eqn:Hhas; [reflexivity|].
    rewrite getCount_insert, decide_True by reflexivity.
    unfold hasKey in Hhas. apply bool_decide_eq_false in Hhas.
    unfold getCount. destruct (m !! TrimSpace s) as [v|] eqn:E; [|reflexivity].
    exfalso. apply Hhas. by exists v.
  - rewrite decide_False by congruence.
    destruct (hasKey m (TrimSpace s)); [reflexivity|].
    rewrite getCount_insert. by rewrite decide_False.
Qed.

Lemma addKey_present s m :
  TrimSpace s <> EmptyString -> is_Some (addKey s m !! TrimSpace s).
Proof.
  intros Hne. unfold addKey.
  destruct (String.eqb_spec (TrimSpace s) EmptyString); [contradiction|].
  unfold increment. rewrite lookup_insert_eq. by eexists.
Qed.

(** Adding a string that is not blank to one of the four multisets: the
    trimmed string is a key afterwards, its count is one more than before
    (a new key counts from 0, and the count wraps at 2^64), the counts of
    all other keys stay, and the other three multisets are untouched. *)
Theorem add_counts_one (kind : Kind) (s : string) (o : OSSHServer) :
  TrimSpace s <> EmptyString ->
  is_Some (field kind (addOf kind s o) !! TrimSpace s)
  /\ (forall k, getCount (field kind (addOf kind s o)) k
                = if decide (k = TrimSpace s)
                  then uintWrap (getCount (field kind o) k + 1)
                  else getCount (field kind o) k)
  /\ (forall kind', kind' <> kind -> field kind' (addOf kind s o) = field kind' o).
Proof.
  intros Hne. split; [|split].
  - rewrite field_addOf, decide_True by reflexivity. by apply addKey_present.
  - intros k. rewrite field_addOf, decide_True by reflexivity.
    by apply getCount_addKey.
  - intros kind' Hk. rewrite field_addOf. by rewrite decide_False.
Qed.

Lemma add_counts_one_witness :
  let o := ossh Demo.running in
  is_Some (field KUsers (addOf KUsers " root " o) !! TrimSpace " root ")
  /\ (forall k, getCount (field KUsers (addOf KUsers " root " o)) k
                = if decide (k = TrimSpace " root ")
                  then uintWrap (getCount (field KUsers o) k + 1)
                  else getCount (field KUsers o) k)
  /\ (forall kind', kind' <> KUsers -> field kind' (addOf KUsers " root " o) = field kind' o).
Proof.
  apply (add_counts_one KUsers " root " (ossh Demo.running)).
  vm_compute. discriminate.
Defined.

(** [addHost] and the login counters: a host that is new gets the three
    counters set to 0, whatever they were; for a host that is known, and
    for every other key, the counters stay. *)
Theorem addHost_resets_counters (host : string) (o : OSSHServer) :
  let h := TrimSpace host in
  let o' := addHost host o in
  h <> EmptyString ->
  (Hosts o !! h = None ->
   Attempts o' !! h = Some 0 /\ Failed o' !! h = Some 0 /\ OK o' !! h = Some 0)
  /\ (is_Some (Hosts o !! h) ->
      Attempts o' = Attempts o /\ Failed o' = Failed o /\ OK o' = OK o)
  /\ (forall k, k <> h ->
      Attempts o' !! k = Attempts o !! k /\ Failed o' !! k = Failed o !! k
      /\ OK o' !! k = OK o !! k).
Proof.
  intros h o' Hne. subst o'. unfold addHost. fold h.
  destruct (String.eqb_spec h EmptyString); [contradiction|].
  unfold hasHost, hasKey.
  destruct (Hosts o !! h) as [v|] eqn:Hh.
  - rewrite bool_decide_eq_true_2 by (by eexists). cbn.
    split; [discriminate|]. split; [done|]. done.
  - rewrite bool_decide_eq_false_2 by (intros [? ?]; discriminate). cbn.
    split; [|split].
    + intros _. by rewrite !lookup_insert_eq.
    + intros [? ?]. discriminate.
    + intros k Hk. by rewrite !lookup_insert_ne by congruence.
Qed.

Lemma addHost_resets_counters_witness :
  let o := ossh Demo.running in
  let h := TrimSpace "10.0.0.9" in
  let o' := addHost "10.0.0.9" o in
  (Hosts o !! h = None ->
   Attempts o' !! h = Some 0 /\ Failed o' !! h = Some 0 /\ OK o' !! h = Some 0)
  /\ (is_Some (Hosts o !! h) ->
      Attempts o' = Attempts o /\ Failed o' = Failed o /\ OK o' = OK o)
  /\ (forall k, k <> h ->
      Attempts o' !! k = Attempts o !! k /\ Failed o' !! k = Failed o !! k
      /\ OK o' !! k = OK o !! k).
Proof.
  apply (addHost_resets_counters "10.0.0.9" (ossh Demo.running)).
  vm_compute. discriminate.
Defined.

End MultisetFacts.

(* ===================================================================== *)
(** * Login records and the decision ladder of the auth handler *)
(* ===================================================================== *)

Module LoginFacts.
Import Server TrimFacts AddFacts CorpusFacts PersistFacts MultisetFacts AuthFacts.

(** The server part of a login record, before the line is logged. *)
Definition recordLogin (failure : bool) (usr pwd host : string) (o : OSSHServer)
  : OSSHServer :=
  let pwd := if String.eqb pwd EmptyString then "(empty)" else pwd in
  let o := addHost host (addPassword pwd (addUser usr o)) in
  let o := withAttempts o (incCounter (Attempts o) host) in
  if failure then withFailed o (incCounter (Failed o) host)
  else withOK o (incCounter (OK o) host).

Lemma addLoginFailure_ossh usr pwd host reason st :
  ossh (addLoginFailure usr pwd host reason st) = recordLogin true usr pwd host (ossh st).
Proof. reflexivity. Qed.

Lemma addLoginSuccess_ossh usr pwd host reason st :
  ossh (addLoginSuccess usr pwd host reason st) = recordLogin false usr pwd host (ossh st).
Proof. reflexivity. Qed.

Lemma addHost_same_counters host o o2 :
  Hosts o2 = Hosts o -> Attempts o2 = Attempts o -> Failed o2 = Failed o -> OK o2 = OK o ->
  Attempts (addHost host o2) = Attempts (addHost host o)
  /\ Failed (addHost host o2) = Failed (addHost host o)
  /\ OK (addHost host o2) = OK (addHost host o).
Proof.
  intros Eh Ea Ef Ek. unfold addHost, hasHost.
  destruct (String.eqb _ _); [done|]. rewrite Eh.
  destruct (negb _); cbn; by rewrite ?Ea, ?Ef, ?Ek.
Qed.

Lemma add_frame kind s o :
  shells (addOf kind s o) = shells o
  /\ syncClients (addOf kind s o) = syncClients o
  /\ TimeWasted (addOf kind s o) = TimeWasted o.
Proof.
  destruct kind; unfold addOf, addHost, addUser, addPassword, addFingerprint;
    (destruct (String.eqb _ _); [done|]); destruct (negb _); done.
Qed.

Lemma login_fields usr stored host o :
  let o1 := addHost host (addPassword stored (addUser usr o)) in
  Users o1 = addKey usr (Users o)
  /\ Passwords o1 = addKey stored (Passwords o)
  /\ Hosts o1 = addKey host (Hosts o)
  /\ Fingerprints o1 = Fingerprints o.
Proof.
  intros o1. subst o1.
  change (field KUsers (addOf KHosts host (addOf KPasswords stored (addOf KUsers usr o)))
          = addKey usr (field KUsers o)
          /\ field KPasswords (addOf KHosts host (addOf KPasswords stored (addOf KUsers usr o)))
             = addKey stored (field KPasswords o)
          /\ field KHosts (addOf KHosts host (addOf KPasswords stored (addOf KUsers usr o)))
             = addKey host (field KHosts o)
          /\ field KFingerprints
               (addOf KHosts host (addOf KPasswords stored (addOf KUsers usr o)))
             = field KFingerprints o).
  rewrite !field_addOf.
  repeat case_decide; try discriminate; try congruence. done.
Qed.

Lemma login_counters usr stored host o :
  let o1 := addHost host (addPassword stored (addUser usr o)) in
  Attempts o1 = Attempts (addHost host o)
  /\ Failed o1 = Failed (addHost host o)
  /\ OK o1 = OK (addHost host o).
Proof.
  intros o1. subst o1.
  destruct (addPassword_sameCounters stored (addUser usr o)) as (Pa & Pf & Pk).
  destruct (addUser_sameCounters usr o) as (Ua & Uf & Uk).
  apply addHost_same_counters; try congruence.
  change (field KHosts (addOf KPasswords stored (addOf KUsers usr o)) = field KHosts o).
  rewrite !field_addOf. repeat case_decide; try discriminate. done.
Qed.

Lemma login_frame usr stored host o :
  let o1 := addHost host (addPassword stored (addUser usr o)) in
  shells o1 = shells o /\ syncClients o1 = syncClients o /\ TimeWasted o1 = TimeWasted o.
Proof.
  intros o1. subst o1.
  destruct (add_frame KHosts host (addPassword stored (addUser usr o))) as (?&?&?).
  destruct (add_frame KPasswords stored (addUser usr o)) as (?&?&?).
  destruct (add_frame KUsers usr o) as (?&?&?).
  cbn [addOf] in *. repeat split; congruence.
Qed.

(** The server after a login record, field by field. *)
Lemma recordLogin_map failure usr pwd host o :
  let stored := if String.eqb pwd EmptyString then "(empty)" else pwd in
  let counted := fun (s : string) (m : gmap string Z) =>
                   if String.eqb (TrimSpace s) EmptyString then m
                   else <[TrimSpace s := uintWrap (getCount m (TrimSpace s) + 1)]> m in
  let h := TrimSpace host in
  let known := String.eqb h EmptyString || bool_decide (is_Some (Hosts o !! h)) in
  let opened := fun m : gmap string Z => if known then m else <[h := 0]> m in
  let raised := fun m : gmap string Z =>
                  <[host := uintWrap (getCount (opened m) host + 1)]> (opened m) in
  recordLogin failure usr pwd host o
  = mkOSSHServer (shells o) (syncClients o)
      (raised (Attempts o))
      (if failure then raised (Failed o) else opened (Failed o))
      (if failure then opened (OK o) else raised (OK o))
      (counted usr (Users o)) (counted stored (Passwords o)) (counted host (Hosts o))
      (Fingerprints o) (TimeWasted o).
Proof.
  intros stored counted h known opened raised. unfold recordLogin. fold stored.
  pose proof (addHost_map host (addPassword stored (addUser usr o))) as Eh.
  cbv zeta in Eh. rewrite Eh, addPassword_map, addUser_map. clear Eh.
  cbn [Passwords Users Hosts Attempts Failed OK shells syncClients Fingerprints TimeWasted
       withUsers withPasswords withAttempts].
  fold h. fold known. unfold incCounter. by destruct failure.
Qed.

Lemma login_ossh (failure : bool) usr pwd host reason st :
  ossh (if failure then addLoginFailure usr pwd host reason st
        else addLoginSuccess usr pwd host reason st)
  = recordLogin failure usr pwd host (ossh st).
Proof. by destruct failure. Qed.

(** What a login record does, map by map.  The user, the password (the
    token "(empty)" for the empty password) and the host are trimmed and
    counted once more in their multisets; a blank one is not stored.  The
    three login counters of a host that is new are set to 0 at the trimmed
    host; then [Attempts] and the counter of the outcome go up by one at
    the host as it was given.  Nothing else in the server changes, the
    machine is untouched, and exactly one line is logged. *)
Theorem login_record_effect (failure : bool) (usr pwd host reason : string) (st : State) :
  let st' := if failure then addLoginFailure usr pwd host reason st
             else addLoginSuccess usr pwd host reason st in
  let stored := if String.eqb pwd EmptyString then "(empty)" else pwd in
  let o := ossh st in
  let o' := ossh st' in
  let counted := fun (s : string) (m : gmap string Z) =>
                   if String.eqb (TrimSpace s) EmptyString then m
                   else <[TrimSpace s := uintWrap (getCount m (TrimSpace s) + 1)]> m in
  let h := TrimSpace host in
  let known := String.eqb h EmptyString || bool_decide (is_Some (Hosts o !! h)) in
  let opened := fun m : gmap string Z => if known then m else <[h := 0]> m in
  let raised := fun m : gmap string Z =>
                  <[host := uintWrap (getCount (opened m) host + 1)]> (opened m) in
  (Users o' = counted usr (Users o)
   /\ Passwords o' = counted stored (Passwords o)
   /\ Hosts o' = counted host (Hosts o)
   /\ Fingerprints o' = Fingerprints o)
  /\ (Attempts o' = raised (Attempts o)
      /\ Failed o' = (if failure then raised (Failed o) else opened (Failed o))
      /\ OK o' = (if failure then opened (OK o) else raised (OK o)))
  /\ (shells o' = shells o /\ syncClients o' = syncClients o
      /\ TimeWasted o' = TimeWasted o /\ world st' = world st)
  /\ exists line, logged st' = line :: logged st
                  /\ logKind line = (if failure then "-" else "+")
                  /\ loginReason line = Some reason.
Proof.
  intros st' stored o o' counted h known opened raised.
  assert (Eo : o' = recordLogin failure usr pwd host o) by apply login_ossh.
  assert (Ew : world st' = world st) by (subst st'; by destruct failure).
  pose proof (recordLogin_map failure usr pwd host o) as Em. cbv zeta in Em.
  rewrite Em in Eo. clear Em.
  split; [|split; [|split]].
  - by rewrite Eo.
  - by rewrite Eo.
  - by rewrite Eo.
  - subst st'. destruct failure.
    + exact (addLoginFailure_recorded usr pwd host reason st).
    + exact (addLoginSuccess_recorded usr pwd host reason st).
Qed.

End LoginFacts.

Module LadderFacts.
Import Server TrimFacts CorpusFacts PersistFacts MultisetFacts AuthFacts LoginFacts.

Section Ladder.

Variable Conf : Config.

(** The auth handler below the loop over the sync nodes. *)
Definition ladder (usr pwd host : string) (st : State) : State * bool :=
  if hasHost (ossh st) host
  then (addLoginSuccess usr pwd host "host is back for more" st, true)
  else if hasUser (ossh st) usr && hasPassword (ossh st) pwd
  then (addLoginFailure usr pwd host "host does not have new credentials" st, false)
  else if hasUser (ossh st) usr
  then (addLoginSuccess usr pwd host "host got the user name right" st, true)
  else if hasPassword (ossh st) pwd
  then (addLoginSuccess usr pwd host "host got the password right" st, true)
  else if negb (Z.rem (OS.clock (world st)) 3 =? 0)
  then (addLoginFailure usr pwd host "host lost a game of dice" st, false)
  else (addLoginSuccess usr pwd host "host dodged all obstacles" st, true).

(** The loop, when no node matches: every node it passes marks the host as
    no sync client. *)
Lemma syncLoop_marks nodes usr pwd host o :
  (forall node, node ∈ nodes -> ~ isSyncTriple usr pwd host node) ->
  syncLoop nodes usr pwd host o
  = (withSyncClients o (match nodes with
                        | [] => syncClients o
                        | _ => <[host := false]> (syncClients o)
                        end), false).
Proof.
  revert o. induction nodes as [|node rest IH]; intros o Hmiss.
  - by destruct o.
  - cbn [syncLoop].
    destruct (String.eqb usr (nodeUser node) && String.eqb pwd (nodePassword node)
              && String.eqb (nodeHost node) host) eqn:Hhit.
    + exfalso. apply (Hmiss node); [left|].
      apply andb_prop in Hhit as [Hup Hh]. apply andb_prop in Hup as [Hu Hp].
      apply String.eqb_eq in Hu, Hp, Hh. by repeat split.
    + rewrite IH by (intros n Hn; apply Hmiss; by right).
      destruct rest; cbn [syncClients withSyncClients]; [reflexivity|].
      by rewrite insert_insert_eq.
Qed.

(** The loop, when a node matches: the host is marked as sync client. *)
Lemma syncLoop_hit nodes usr pwd host o :
  (exists node, node ∈ nodes /\ isSyncTriple usr pwd host node) ->
  exists sc, syncLoop nodes usr pwd host o = (withSyncClients o sc, true)
             /\ sc !! host = Some true
             /\ forall h, h <> host -> sc !! h = syncClients o !! h.
Proof.
  revert o. induction nodes as [|node rest IH]; intros o (n & Hn & Hmatch).
  - by apply elem_of_nil in Hn.
  - cbn [syncLoop].
    destruct (String.eqb usr (nodeUser node) && String.eqb pwd (nodePassword node)
              && String.eqb (nodeHost node) host) eqn:Hhit.
    + exists (<[host := true]> (syncClients o)). split; [reflexivity|].
      split; [apply lookup_insert_eq|]. intros h Hh. by apply lookup_insert_ne.
    + assert (Hrest : exists n', n' ∈ rest /\ isSyncTriple usr pwd host n').
      { apply elem_of_cons in Hn as [->|Hn]; [|by exists n].
        exfalso. destruct Hmatch as (-> & -> & <-).
        by rewrite !String.eqb_refl in Hhit. }
      destruct (IH (withSyncClients o (<[host:=false]> (syncClients o))) Hrest)
        as (sc & -> & Hsc & Hother).
      exists sc. split; [reflexivity|]. split; [exact Hsc|].
      intros h Hh. rewrite (Hother h Hh). cbn [syncClients withSyncClients].
      by apply lookup_insert_ne.
Qed.

Lemma authHandler_miss ctx pwd st :
  let usr := ctxUser ctx in
  let host := hostOf (ctxRemoteAddr ctx) in
  (forall node, node ∈ SyncNodes Conf -> ~ isSyncTriple usr pwd host node) ->
  authHandler Conf ctx pwd st
  = ladder usr pwd host
      (mkState (withSyncClients (ossh st)
                  (match SyncNodes Conf with
                   | [] => syncClients (ossh st)
                   | _ => <[host := false]> (syncClients (ossh st))
                   end))
               (world st) (logged st)).
Proof.
  intros usr host Hmiss. unfold authHandler. fold usr host.
  by rewrite (syncLoop_marks _ _ _ _ _ Hmiss).
Qed.

(** An attempt with the secret credentials of a configured sync node is
    accepted and the host is marked as sync client; the corpus, the login
    counters, the machine and the log are untouched. *)
Theorem sync_peer_is_accepted (ctx : Context) (pwd : string) (st : State) :
  let usr := ctxUser ctx in
  let host := hostOf (ctxRemoteAddr ctx) in
  let res := authHandler Conf ctx pwd st in
  (exists node, node ∈ SyncNodes Conf /\ isSyncTriple usr pwd host node) ->
  res.2 = true
  /\ syncClients (ossh res.1) !! host = Some true
  /\ (forall h, h <> host -> syncClients (ossh res.1) !! h = syncClients (ossh st) !! h)
  /\ ossh res.1 = withSyncClients (ossh st) (syncClients (ossh res.1))
  /\ world res.1 = world st
  /\ logged res.1 = logged st.
Proof.
  intros usr host res Hpeer. subst res. unfold authHandler. fold usr host.
  destruct (syncLoop_hit (SyncNodes Conf) usr pwd host (ossh st) Hpeer)
    as (sc & -> & Hsc & Hother).
  cbn [fst snd ossh world logged syncClients withSyncClients]. by repeat split.
Qed.

(** An attempt that matches no sync node: the host is marked as no sync
    client when there are sync nodes at all, and the marks stay as they are
    when none is configured; the marks of other hosts never change. *)
Theorem attacker_is_marked (ctx : Context) (pwd : string) (st : State) :
  let usr := ctxUser ctx in
  let host := hostOf (ctxRemoteAddr ctx) in
  let res := authHandler Conf ctx pwd st in
  (forall node, node ∈ SyncNodes Conf -> ~ isSyncTriple usr pwd host node) ->
  syncClients (ossh res.1)
  = match SyncNodes Conf with
    | [] => syncClients (ossh st)
    | _ => <[host := false]> (syncClients (ossh st))
    end.
Proof.
  intros usr host res Hmiss. subst res. rewrite (authHandler_miss ctx pwd st Hmiss).
  fold usr host. unfold ladder.
  set (st0 := mkState _ (world st) (logged st)).
  assert (Hs : forall failure reason,
             syncClients (ossh (if failure : bool
                                then addLoginFailure usr pwd host reason st0
                                else addLoginSuccess usr pwd host reason st0))
             = syncClients (ossh st0)).
  { intros failure reason.
    rewrite login_ossh. pose proof (recordLogin_map failure usr pwd host (ossh st0)) as Em.
    cbv zeta in Em. by rewrite Em. }
  destruct (hasHost (ossh st0) host); [exact (Hs false _)|].
  destruct (hasUser (ossh st0) usr && hasPassword (ossh st0) pwd); [exact (Hs true _)|].
  destruct (hasUser (ossh st0) usr); [exact (Hs false _)|].
  destruct (hasPassword (ossh st0) pwd); [exact (Hs false _)|].
  destruct (negb _); [exact (Hs true _) | exact (Hs false _)].
Qed.

(** The middle of the ladder, for a host that is new: a known user with a
    known password is rejected; a known user with a new password, and a new
    user with a known password, are accepted. *)
Theorem known_credentials_decide (ctx : Context) (pwd : string) (st : State) :
  let usr := ctxUser ctx in
  let host := hostOf (ctxRemoteAddr ctx) in
  let res := authHandler Conf ctx pwd st in
  (forall node, node ∈ SyncNodes Conf -> ~ isSyncTriple usr pwd host node) ->
  Hosts (ossh st) !! host = None ->
  (is_Some (Users (ossh st) !! usr) -> is_Some (Passwords (ossh st) !! pwd) ->
   res.2 = false /\ recorded "-" "host does not have new credentials" st res.1)
  /\ (is_Some (Users (ossh st) !! usr) -> Passwords (ossh st) !! pwd = None ->
      res.2 = true /\ recorded "+" "host got the user name right" st res.1)
  /\ (Users (ossh st) !! usr = None -> is_Some (Passwords (ossh st) !! pwd) ->
      res.2 = true /\ recorded "+" "host got the password right" st res.1).
Proof.
  intros usr host res Hmiss Hh. subst res. rewrite (authHandler_miss ctx pwd st Hmiss).
  fold usr host. unfold ladder.
  set (st0 := mkState _ (world st) (logged st)).
  assert (Eh : hasHost (ossh st0) host = false).
  { unfold hasHost, hasKey. cbn. rewrite Hh.
    by rewrite bool_decide_eq_false_2 by (intros [? ?]; discriminate). }
  assert (Hif : forall b : bool, (if negb b then false else true) = b)
    by (by intros []).
  assert (Eu : hasUser (ossh st0) usr = bool_decide (is_Some (Users (ossh st) !! usr))).
  { unfold hasUser, hasKey. apply Hif. }
  assert (Ep : hasPassword (ossh st0) pwd
               = bool_decide (is_Some (Passwords (ossh st) !! pwd))).
  { unfold hasPassword, hasKey. apply Hif. }
  rewrite Eh, Eu, Ep.
  assert (Hnone : forall (m : gmap string Z) k, m !! k = None ->
                    bool_decide (is_Some (m !! k)) = false).
  { intros m k ->. by apply bool_decide_eq_false_2; intros [? ?]. }
  split; [|split].
  - intros Hu Hp. rewrite !bool_decide_eq_true_2 by assumption. cbn [andb fst snd].
    split; [reflexivity|].
    apply (addLoginFailure_recorded usr pwd host "host does not have new credentials" st0).
  - intros Hu Hp. rewrite (bool_decide_eq_true_2 _ Hu), (Hnone _ _ Hp). cbn [andb fst snd].
    split; [reflexivity|].
    apply (addLoginSuccess_recorded usr pwd host "host got the user name right" st0).
  - intros Hu Hp. rewrite (bool_decide_eq_true_2 _ Hp), (Hnone _ _ Hu). cbn [andb fst snd].
    split; [reflexivity|].
    apply (addLoginSuccess_recorded usr pwd host "host got the password right" st0).
Qed.

(** After an attempt that matches no sync node, whatever its outcome, the
    trimmed host is counted once more in [Hosts]; a host that is blank is
    not stored.  So the host as the handler looks it up is a key afterwards
    exactly when it was one before or it is its own trimmed form and not
    empty, as the host of a remote address is.  Whenever it is a key, the
    next attempt from that host that matches no sync node is accepted
    as "host is back for more", whatever its user and password are. *)
Theorem host_is_let_in_next_time (ctx ctx' : Context) (pwd pwd' : string) (st : State) :
  let host := hostOf (ctxRemoteAddr ctx) in
  let st1 := (authHandler Conf ctx pwd st).1 in
  let res := authHandler Conf ctx' pwd' st1 in
  hostOf (ctxRemoteAddr ctx') = host ->
  (forall node, node ∈ SyncNodes Conf -> ~ isSyncTriple (ctxUser ctx) pwd host node) ->
  (forall node, node ∈ SyncNodes Conf -> ~ isSyncTriple (ctxUser ctx') pwd' host node) ->
  Hosts (ossh st1)
  = (if String.eqb (TrimSpace host) EmptyString then Hosts (ossh st)
     else <[TrimSpace host := uintWrap (getCount (Hosts (ossh st)) (TrimSpace host) + 1)]>
            (Hosts (ossh st)))
  /\ (is_Some (Hosts (ossh st1) !! host)
      <-> is_Some (Hosts (ossh st) !! host)
          \/ (TrimSpace host = host /\ host <> EmptyString))
  /\ (is_Some (Hosts (ossh st1) !! host) ->
      res.2 = true /\ recorded "+" "host is back for more" st1 res.1).
Proof.
  intros host st1 res Hsame Hmiss Hmiss'.
  assert (Hhosts : Hosts (ossh st1)
                   = (if String.eqb (TrimSpace host) EmptyString then Hosts (ossh st)
                      else <[TrimSpace host
                             := uintWrap (getCount (Hosts (ossh st)) (TrimSpace host) + 1)]>
                             (Hosts (ossh st)))).
  { subst st1. rewrite (authHandler_miss ctx pwd st Hmiss). fold host. unfold ladder.
    set (st0 := mkState _ (world st) (logged st)).
    assert (Hs : forall failure reason,
               Hosts (ossh (if failure : bool
                            then addLoginFailure (ctxUser ctx) pwd host reason st0
                            else addLoginSuccess (ctxUser ctx) pwd host reason st0))
               = (if String.eqb (TrimSpace host) EmptyString then Hosts (ossh st)
                  else <[TrimSpace host
                         := uintWrap (getCount (Hosts (ossh st)) (TrimSpace host) + 1)]>
                         (Hosts (ossh st)))).
    { intros failure reason. rewrite login_ossh.
      pose proof (recordLogin_map failure (ctxUser ctx) pwd host (ossh st0)) as Em.
      cbv zeta in Em. by rewrite Em. }
    destruct (hasHost (ossh st0) host); [exact (Hs false _)|].
    destruct (hasUser (ossh st0) _ && hasPassword (ossh st0) pwd); [exact (Hs true _)|].
    destruct (hasUser (ossh st0) _); [exact (Hs false _)|].
    destruct (hasPassword (ossh st0) pwd); [exact (Hs false _)|].
    destruct (negb _); [exact (Hs true _) | exact (Hs false _)]. }
  split; [exact Hhosts|]. split.
  - rewrite Hhosts. destruct (String.eqb_spec (TrimSpace host) EmptyString) as [Hblank|Hfull].
    + split; [by left|]. intros [H|[Ht Hne]]; [exact H|]. congruence.
    + destruct (decide (TrimSpace host = host)) as [Ht|Ht].
      * rewrite Ht. rewrite lookup_insert_eq. split; [|by eexists].
        intros _. right. split; [reflexivity | congruence].
      * rewrite lookup_insert_ne by exact Ht. split; [by left|].
        intros [H|[Ht' _]]; [exact H | contradiction].
  - intros Hknown. subst res.
    rewrite <- Hsame in Hmiss'. rewrite (authHandler_miss ctx' pwd' st1 Hmiss').
    rewrite Hsame. unfold ladder.
    set (st0 := mkState _ (world st1) (logged st1)).
    assert (Eh : hasHost (ossh st0) host = true).
    { unfold hasHost, hasKey. cbn. by rewrite bool_decide_eq_true_2. }
    rewrite Eh. split; [reflexivity|].
    apply (addLoginSuccess_recorded (ctxUser ctx') pwd' host "host is back for more" st0).
Qed.

End Ladder.

End LadderFacts.

Module LadderDemo.
Import Server AuthFacts LadderFacts.

Definition peerCtx : Context := mkContext "sync" "192.168.0.2:40022".
Definition newcomer : Context := mkContext "root" "10.0.0.7:51000".
Definition other : Context := mkContext "admin" "10.0.0.1:51001".

(** A machine on which the dice say no: the unix time is not a multiple of 3. *)
Definition unlucky : State := mkState emptyServer (Demo.machine 10) [].

Lemma no_peer usr pwd host :
  usr <> "sync" ->
  forall node, node ∈ SyncNodes Demo.conf -> ~ isSyncTriple usr pwd host node.
Proof.
  intros Husr node Hnode. apply list_elem_of_singleton in Hnode as ->.
  intros (Hu & _). by apply Husr.
Defined.

Lemma sync_peer_is_accepted_witness :
  let res := authHandler Demo.conf peerCtx "s3cret" Demo.running in
  res.2 = true
  /\ syncClients (ossh res.1) !! "192.168.0.2" = Some true
  /\ (forall h, h <> "192.168.0.2" ->
                syncClients (ossh res.1) !! h = syncClients (ossh Demo.running) !! h)
  /\ ossh res.1 = withSyncClients (ossh Demo.running) (syncClients (ossh res.1))
  /\ world res.1 = world Demo.running
  /\ logged res.1 = logged Demo.running.
Proof.
  apply (sync_peer_is_accepted Demo.conf peerCtx "s3cret" Demo.running).
  exists (mkSyncNode "192.168.0.2" 22 "sync" "s3cret").
  split; [left | by repeat split].
Defined.

Lemma attacker_is_marked_witness :
  syncClients (ossh (authHandler Demo.conf Demo.ctx "hunter2" Demo.fresh).1)
  = <["10.0.0.1" := false]> (syncClients (ossh Demo.fresh)).
Proof.
  apply (attacker_is_marked Demo.conf Demo.ctx "hunter2" Demo.fresh).
  apply no_peer. discriminate.
Defined.

Lemma known_credentials_decide_witness :
  (authHandler Demo.conf newcomer "toor" Demo.running).2 = false
  /\ recorded "-" "host does not have new credentials" Demo.running
       (authHandler Demo.conf newcomer "toor" Demo.running).1.
Proof.
  apply (known_credentials_decide Demo.conf newcomer "toor" Demo.running).
  - apply no_peer. discriminate.
  - vm_compute. reflexivity.
  - exists 2. vm_compute. reflexivity.
  - exists 1. vm_compute. reflexivity.
Defined.

Lemma host_is_let_in_next_time_witness :
  let host := hostOf (ctxRemoteAddr Demo.ctx) in
  let st1 := (authHandler Demo.conf Demo.ctx "hunter2" unlucky).1 in
  let res := authHandler Demo.conf other "admin" st1 in
  Hosts (ossh st1)
  = (if String.eqb (TrimSpace host) EmptyString then Hosts (ossh unlucky)
     else <[TrimSpace host := uintWrap (getCount (Hosts (ossh unlucky)) (TrimSpace host) + 1)]>
            (Hosts (ossh unlucky)))
  /\ (is_Some (Hosts (ossh st1) !! host)
      <-> is_Some (Hosts (ossh unlucky) !! host)
          \/ (TrimSpace host = host /\ host <> EmptyString))
  /\ (is_Some (Hosts (ossh st1) !! host) ->
      res.2 = true /\ recorded "+" "host is back for more" st1 res.1).
Proof.
  apply (host_is_let_in_next_time Demo.conf Demo.ctx other "hunter2" "admin" unlucky).
  - reflexivity.
  - apply no_peer. discriminate.
  - apply no_peer. discriminate.
Defined.

(** The first attempt of the host was turned away, the second one is let in. *)
Example turned_away_then_let_in :
  let st1 := (authHandler Demo.conf Demo.ctx "hunter2" unlucky).1 in
  (authHandler Demo.conf Demo.ctx "hunter2" unlucky).2 = false
  /\ map_to_list (Hosts (ossh st1)) = [("10.0.0.1", 1)]
  /\ (authHandler Demo.conf other "admin" st1).2 = true.
Proof. vm_compute. repeat split; reflexivity. Qed.

(** A remote address without a host in front of its colon: the empty host
    is not stored, its counters are kept under the empty key, and the same
    attempt made again is not let in as a host that is back but turned
    away for its known credentials. *)
Definition nameless : Context := mkContext "root" ":50522".

Example empty_host_is_not_stored :
  let st1 := (authHandler Demo.conf nameless "hunter2" unlucky).1 in
  hostOf (ctxRemoteAddr nameless) = EmptyString
  /\ Hosts (ossh st1) = ∅
  /\ map_to_list (Attempts (ossh st1)) = [(EmptyString, 1)]
  /\ (authHandler Demo.conf nameless "hunter2" st1).2 = false.
Proof. vm_compute. repeat split; reflexivity. Qed.

End LadderDemo.

(* ===================================================================== *)
(** * Saving: corpus files and capture files *)
(* ===================================================================== *)

Module SaveFacts.
Import Server TrimFacts AddFacts CorpusFacts PersistFacts MultisetFacts.

(** What [os.WriteFile] does, by the outcome. *)
Lemma WriteFile_outcome path data perm w :
  let key := OS.resolve w path in
  let w' := (OS.WriteFile path data perm w).1 in
  (forall k, k <> key -> OS.nodes w' !! k = OS.nodes w !! k)
  /\ OS.mounts w' = OS.mounts w /\ OS.wd w' = OS.wd w /\ OS.clock w' = OS.clock w
  /\ OS.umask w' = OS.umask w
  /\ match (OS.WriteFile path data perm w).2 with
     | OS.Ok _ =>
         OS.nodes w' !! key
         = Some (OS.File (match OS.lookupNode w key with
                          | Some n => OS.modeOf n
                          | None => OS.createMode w perm
                          end) data)
         /\ FileExists path w' = true
         /\ (forall m, OS.lookupNode w key <> Some (OS.Dir m))
     | OS.Err _ => w' = w /\ FileExists path w = false
     end.
Proof.
  intros key w'. subst w'. unfold OS.WriteFile, FileExists. fold key.
  destruct (OS.lookupNode w key) as [[m|m d]|] eqn:Hk.
  - cbn [fst snd]. by repeat split.
  - cbn [fst snd OS.nodes OS.setNodes OS.mounts OS.wd OS.clock OS.umask].
    assert (Hroot : String.eqb key "/" = false).
    { unfold OS.lookupNode in Hk. destruct (String.eqb key "/"); [discriminate | reflexivity]. }
    split; [intros k Hne; by apply lookup_insert_ne|]. repeat split.
    + apply lookup_insert_eq.
    + change (OS.resolve (OS.setNodes w _) path) with key.
      unfold OS.lookupNode. rewrite Hroot. cbn [OS.nodes OS.setNodes].
      by rewrite lookup_insert_eq.
    + intros m'. congruence.
  - destruct (OS.lookupNode w (OS.parentOf key)) as [[m|m d]|] eqn:Hp;
      cbn [fst snd]; try (by repeat split).
    cbn [OS.nodes OS.setNodes OS.mounts OS.wd OS.clock OS.umask].
    assert (Hroot : String.eqb key "/" = false).
    { unfold OS.lookupNode in Hk. destruct (String.eqb key "/"); [discriminate | reflexivity]. }
    split; [intros k Hne; by apply lookup_insert_ne|]. repeat split.
    + apply lookup_insert_eq.
    + change (OS.resolve (OS.setNodes w _) path) with key.
      unfold OS.lookupNode. rewrite Hroot. cbn [OS.nodes OS.setNodes].
      by rewrite lookup_insert_eq.
    + intros m'. congruence.
Qed.

Section Saving.

Variable Conf : Config.
Variable StringToSha1 : string -> string.
Variable ParseTemplateToString : string -> CaptureData -> string.
Variable TimeString : Z -> string.
Variable maps_Keys : gmap string Z -> list string.

(** Saving a multiset, where [maps.Keys] gives the keys of a map in some
    order: the server is never changed and no file other than the one of
    the multiset is touched.  When the write goes through, the file holds
    the keys of the multiset and nothing else, each key once and each
    followed by a line feed (a single line feed when there is no key; the
    counts are not written), with mode 0644 less the umask if it is new
    and with its old mode otherwise, and nothing is logged.  When the
    write fails (the path is a directory, or its directory is missing) the
    machine stays as it is and one line is logged; the failure is not
    passed on. *)
Theorem save_effects (kind : Kind) (st : State) :
  (forall m, maps_Keys m ≡ₚ (map_to_list m).*1) ->
  let path := pathOf Conf kind in
  let key := OS.resolve (world st) path in
  let st' := saveOf Conf maps_Keys kind st in
  ossh st' = ossh st
  /\ (forall k, k <> key -> OS.nodes (world st') !! k = OS.nodes (world st) !! k)
  /\ (FileExists path (world st') = true ->
      (exists keys,
         keys ≡ₚ (map_to_list (field kind (ossh st))).*1
         /\ OS.nodes (world st') !! key
            = Some (OS.File (match OS.lookupNode (world st) key with
                             | Some n => OS.modeOf n
                             | None => Z.ldiff (OS.octal 644) (OS.umask (world st))
                             end)
                            (GoStrings.Join keys (String "010"%char EmptyString)
                             +:+ String "010"%char EmptyString)))
      /\ logged st' = logged st)
  /\ (FileExists path (world st') = false ->
      world st' = world st
      /\ exists line, logged st' = line :: logged st /\ logKind line = "x").
Proof.
  intros Hkeys path key st'.
  destruct (saveOf_saveWith Conf maps_Keys kind st) as [what Hsave].
  subst st'. rewrite Hsave. fold path. unfold saveWith.
  pose proof (WriteFile_outcome path (corpusText maps_Keys (field kind (ossh st)))
                (OS.octal 644) (world st)) as Hw.
  cbv zeta in Hw. fold key in Hw.
  destruct (OS.WriteFile path _ (OS.octal 644) (world st)) as [w' [[]|e]];
    cbn [fst snd] in Hw; destruct Hw as (Hframe & _ & _ & _ & _ & Hout).
  - cbn [ossh world logged]. destruct Hout as (Hnode & Hex & _).
    split; [reflexivity|]. split; [exact Hframe|]. split.
    + intros _. split; [|reflexivity].
      exists (maps_Keys (field kind (ossh st))). split; [apply Hkeys | exact Hnode].
    + intros Hno. congruence.
  - cbn [ossh world logged Log]. destruct Hout as [-> Hno].
    split; [reflexivity|]. split; [done|]. split.
    + intros Hex. congruence.
    + intros _. split; [reflexivity|]. eexists. by split.
Qed.

(** The text of the capture file of a session. *)
Definition captureText (stats : FakeShellStats) (st : State) : string :=
  let date := match shells (ossh st) !! statsHost stats with
              | Some shell => TimeString (created shell)
              | None => TimeString (OS.clock (world st))
              end in
  lineFeed +:+ ParseTemplateToString "command-history"
                 (mkCaptureData (GoStrings.Join (CommandHistory stats) lineFeed)
                                (statsHost stats) (statsUser stats) date)
  +:+ lineFeed +:+ lineFeed.

(** The server after the capture of a session that is new. *)
Lemma saveCapture_new_ossh (stats : FakeShellStats) (st : State) :
  FileExists (capturePath Conf StringToSha1 stats) (world st) = false ->
  ossh (saveCapture Conf StringToSha1 ParseTemplateToString TimeString stats st)
  = addFingerprint (StringToSha1 (GoStrings.Join (CommandHistory stats) lineFeed)) (ossh st).
Proof.
  intros Hnew. unfold saveCapture. cbn [dataCommands].
  fold (capturePath Conf StringToSha1 stats). rewrite Hnew. cbn [world onServer]. cbv zeta.
  by destruct (OS.WriteFile _ _ _ _) as [w' [[]|e]].
Qed.

(** A capture that is new: the hash of the joined commands, trimmed, is
    counted once more in [Fingerprints] (a hash that is blank is not
    stored) and nothing else in the server changes; this is done before the
    file is written, so it holds whether or not the write goes through.
    When the write goes through the capture file holds the rendered
    template between line feeds, with mode 0744 less the umask, and one
    line is logged; when it fails nothing is written and nothing is
    logged. *)
Theorem saveCapture_new (stats : FakeShellStats) (st : State) :
  let f := capturePath Conf StringToSha1 stats in
  let key := OS.resolve (world st) f in
  let sha := StringToSha1 (GoStrings.Join (CommandHistory stats) lineFeed) in
  let st' := saveCapture Conf StringToSha1 ParseTemplateToString TimeString stats st in
  FileExists f (world st) = false ->
  ossh st'
  = withFingerprints (ossh st)
      (if String.eqb (TrimSpace sha) EmptyString then Fingerprints (ossh st)
       else <[TrimSpace sha := uintWrap (getCount (Fingerprints (ossh st)) (TrimSpace sha) + 1)]>
              (Fingerprints (ossh st)))
  /\ (forall k, k <> key -> OS.nodes (world st') !! k = OS.nodes (world st) !! k)
  /\ (FileExists f (world st') = true ->
      OS.nodes (world st') !! key
      = Some (OS.File (Z.ldiff (OS.octal 744) (OS.umask (world st))) (captureText stats st))
      /\ exists line, logged st' = line :: logged st
                      /\ logFormat line = "Capture saved: %s")
  /\ (FileExists f (world st') = false ->
      world st' = world st /\ logged st' = logged st).
Proof.
  intros f key sha st' Hnew.
  split; [subst st' sha; rewrite (saveCapture_new_ossh stats st Hnew);
          apply addFingerprint_map|].
  subst st'. unfold saveCapture.
  cbn [dataCommands]. fold (capturePath Conf StringToSha1 stats). fold f. fold sha.
  rewrite Hnew. cbn [world onServer]. cbv zeta.
  change (OS.WriteFile f _ (OS.octal 744) (world st))
    with (OS.WriteFile f (captureText stats st) (OS.octal 744) (world st)).
  pose proof (WriteFile_outcome f (captureText stats st) (OS.octal 744) (world st)) as Hw.
  cbv zeta in Hw. fold key in Hw.
  destruct (OS.WriteFile f (captureText stats st) (OS.octal 744) (world st))
    as [w' [[]|e]]; cbn [fst snd] in Hw; destruct Hw as (Hframe & _ & _ & _ & _ & Hout);
    cbn [ossh world logged Log].
  - destruct Hout as (Hnode & Hex & Hdir).
    split; [exact Hframe|]. split; [|congruence].
    intros _. split; [|by eexists].
    rewrite Hnode. unfold FileExists in Hnew. fold key in Hnew.
    destruct (OS.lookupNode (world st) key) as [[m|m d]|]; [|discriminate|reflexivity].
    by destruct (Hdir m).
  - destruct Hout as [-> Hno].
    split; [done|]. split; [congruence|]. done.
Qed.

(** The machine after the four corpus files have been written, in the
    order of [sessionHandler]: users, passwords, hosts, fingerprints. *)
Definition writeCorpus (path : string) (m : gmap string Z) (w : OS.World) : OS.World :=
  (OS.WriteFile path (corpusText maps_Keys m) (OS.octal 644) w).1.

Definition persistWorld (o : OSSHServer) (w : OS.World) : OS.World :=
  writeCorpus (PathFingerprints Conf) (Fingerprints o)
    (writeCorpus (PathHosts Conf) (Hosts o)
       (writeCorpus (PathPasswords Conf) (Passwords o)
          (writeCorpus (PathUsers Conf) (Users o) w))).

Definition persist (st : State) : State :=
  saveFingerprints Conf maps_Keys
    (saveHosts Conf maps_Keys (savePasswords Conf maps_Keys (saveUsers Conf maps_Keys st))).

Lemma saveWith_writeCorpus path what m st :
  world (saveWith maps_Keys path what m st) = writeCorpus path m (world st).
Proof.
  unfold saveWith, writeCorpus. by destruct (OS.WriteFile _ _ _ _) as [w [[]|e]].
Qed.

Lemma persist_ossh st : ossh (persist st) = ossh st.
Proof.
  unfold persist, saveFingerprints, saveHosts, savePasswords, saveUsers.
  by rewrite !saveWith_ossh.
Qed.

Lemma persist_world st : world (persist st) = persistWorld (ossh st) (world st).
Proof.
  unfold persist, persistWorld, saveFingerprints, saveHosts, savePasswords, saveUsers.
  by rewrite !saveWith_writeCorpus, !saveWith_ossh.
Qed.

Lemma add_frame_all kind s o :
  shells (addOf kind s o) = shells o
  /\ syncClients (addOf kind s o) = syncClients o
  /\ TimeWasted (addOf kind s o) = TimeWasted o.
Proof.
  destruct kind; unfold addOf, addHost, addUser, addPassword, addFingerprint;
    (destruct (String.eqb _ _); [done|]); destruct (negb _); done.
Qed.

Lemma sessionHandler_shape host fs stats st :
  sessionHandler Conf StringToSha1 ParseTemplateToString TimeString maps_Keys
                 host fs stats st
  = let st1 := onServer (fun o => withShells o (<[host := fs]> (shells o))) st in
    let peer := default false (syncClients (ossh st) !! host) in
    let st2 :=
      if negb peer then
        Log checkMark "%s@%s spent %s running %s command(s)"
            [AColor (shellUser fs) 193; AColor host 229; AInt (TimeSpent stats);
             AInt (CommandsExecuted stats)]
            (onServer (fun o => withTimeWasted o (intWrap (TimeWasted o + TimeSpent stats)))
                      st1)
      else st1 in
    let st3 := persist st2 in
    let st4 := if negb peer
               then saveCapture Conf StringToSha1 ParseTemplateToString TimeString stats st3
               else st3 in
    onServer (fun o => withShells o (delete host (shells o))) st4.
Proof. reflexivity. Qed.

(** A session, from its end: the shell of the host is taken out of the
    registry; users, passwords, hosts, login counters and the marks of the
    sync clients are as before.  The session of a sync client adds no time
    to [TimeWasted], leaves [Fingerprints] alone and writes the four corpus
    files only.  The session of anyone else adds its time and, when its
    capture file is not there after the corpus files have been written,
    adds the hash of its commands to [Fingerprints]. *)
Theorem session_effects (host : string) (fs : FakeShell) (stats : FakeShellStats)
    (st : State) :
  let st' := sessionHandler Conf StringToSha1 ParseTemplateToString TimeString maps_Keys
                            host fs stats st in
  let peer := default false (syncClients (ossh st) !! host) in
  let o := ossh st in
  let o' := ossh st' in
  let sha := StringToSha1 (GoStrings.Join (CommandHistory stats) lineFeed) in
  shells o' = delete host (shells o)
  /\ (Users o' = Users o /\ Passwords o' = Passwords o /\ Hosts o' = Hosts o
      /\ Attempts o' = Attempts o /\ Failed o' = Failed o /\ OK o' = OK o
      /\ syncClients o' = syncClients o)
  /\ TimeWasted o' = (if peer then TimeWasted o
                      else intWrap (TimeWasted o + TimeSpent stats))
  /\ Fingerprints o'
     = (if peer || FileExists (capturePath Conf StringToSha1 stats)
                              (persistWorld o (world st))
        then Fingerprints o else addKey sha (Fingerprints o))
  /\ (peer = true -> world st' = persistWorld o (world st)).
Proof.
  intros st' peer o o' sha. subst st' o' peer. rewrite sessionHandler_shape. cbv zeta.
  fold o.
  set (st1 := onServer (fun o0 => withShells o0 (<[host:=fs]> (shells o0))) st).
  assert (Edrop : delete host (<[host:=fs]> (shells o)) = delete host (shells o))
    by apply delete_insert_eq.
  destruct (default false (syncClients o !! host)); cbn [negb orb].
  - cbn [onServer ossh world]. rewrite persist_ossh, persist_world.
    cbn [st1 onServer ossh world shells Users Passwords Hosts Attempts Failed OK
         syncClients TimeWasted Fingerprints withShells].
    fold o. rewrite Edrop. by repeat split.
  - set (st2 := Log _ _ _ _).
    set (o2 := withTimeWasted (withShells o (<[host:=fs]> (shells o)))
                 (intWrap (TimeWasted o + TimeSpent stats))).
    assert (E2 : ossh st2 = o2) by reflexivity.
    assert (W3 : world (persist st2) = persistWorld o (world st)).
    { rewrite persist_world, E2. reflexivity. }
    rewrite <- W3.
    set (cap := saveCapture Conf StringToSha1 ParseTemplateToString TimeString stats
                            (persist st2)).
    assert (Hcap : ossh cap
                   = if FileExists (capturePath Conf StringToSha1 stats)
                                   (world (persist st2))
                     then o2 else addOf KFingerprints sha o2).
    { subst cap.
      destruct (FileExists (capturePath Conf StringToSha1 stats) (world (persist st2)))
        eqn:Hex.
      - rewrite (CaptureFacts.saveCapture_exists Conf StringToSha1
                   ParseTemplateToString TimeString stats (persist st2) Hex).
        by rewrite persist_ossh.
      - rewrite (saveCapture_new_ossh stats (persist st2) Hex).
        by rewrite persist_ossh, E2. }
    destruct (add_frame_all KFingerprints sha o2) as (As & Ac & At).
    destruct (addFingerprint_sameCounters sha o2) as (Ca & Cf & Ck).
    pose proof (fun kind => field_addOf kind KFingerprints sha o2) as F.
    pose proof (F KUsers) as Fu. pose proof (F KPasswords) as Fp.
    pose proof (F KHosts) as Fh. pose proof (F KFingerprints) as Ff.
    rewrite decide_False in Fu by discriminate.
    rewrite decide_False in Fp by discriminate.
    rewrite decide_False in Fh by discriminate.
    rewrite decide_True in Ff by reflexivity.
    cbn [field addOf] in As, Ac, At, Fu, Fp, Fh, Ff.
    cbn [onServer ossh shells Users Passwords Hosts Attempts Failed OK
         syncClients TimeWasted Fingerprints withShells].
    rewrite Hcap.
    destruct (FileExists (capturePath Conf StringToSha1 stats) (world (persist st2))).
    + subst o2.
      cbn [shells Users Passwords Hosts Attempts Failed OK syncClients TimeWasted
           Fingerprints withShells withTimeWasted].
      rewrite Edrop. split; [reflexivity|]. split; [by repeat split|].
      split; [reflexivity|]. split; [reflexivity | discriminate].
    + cbn [addOf]. rewrite As, Ac, At, Fu, Fp, Fh, Ff, Ca, Cf, Ck. subst o2.
      cbn [shells Users Passwords Hosts Attempts Failed OK syncClients TimeWasted
           Fingerprints withShells withTimeWasted].
      rewrite Edrop. split; [reflexivity|]. split; [by repeat split|].
      split; [reflexivity|]. split; [reflexivity | discriminate].
Qed.

End Saving.

End SaveFacts.

(* ===================================================================== *)
(** * Loading a corpus file; the secrets of a sync node *)
(* ===================================================================== *)

Module LoadFacts.
Import Server TrimFacts CorpusFacts PersistFacts MultisetFacts.

(** How many of the lines are the key [k] once they are trimmed. *)
Definition occurrences (k : string) (lines : list string) : Z :=
  Z.of_nat (length (List.filter (fun line => String.eqb (TrimSpace line) k) lines)).

Lemma uintWrap_succ x n :
  0 <= n -> uintWrap (uintWrap (x + 1) + n) = uintWrap (x + (1 + n)).
Proof.
  intros _. unfold uintWrap. rewrite Zplus_mod_idemp_l. f_equal. lia.
Qed.

Lemma fold_addKey_count lines (m : gmap string Z) k :
  k <> EmptyString ->
  getCount (fold_left (fun acc s => addKey s acc) lines m) k
  = if occurrences k lines =? 0 then getCount m k
    else uintWrap (getCount m k + occurrences k lines).
Proof.
  intros Hk. revert m. induction lines as [|line lines IH]; intros m; [reflexivity|].
  cbn [fold_left]. rewrite IH. unfold occurrences. cbn [List.filter].
  set (n := Z.of_nat (length (List.filter (fun l => String.eqb (TrimSpace l) k) lines))).
  assert (Hn : 0 <= n) by (subst n; lia).
  destruct (String.eqb_spec (TrimSpace line) k) as [E|E].
  - cbn [length]. rewrite Nat2Z.inj_succ. fold n.
    assert (Hne : TrimSpace line <> EmptyString) by congruence.
    pose proof (getCount_addKey line m k Hne) as G.
    rewrite decide_True in G by congruence. rewrite G.
    destruct (Z.eqb_spec (Z.succ n) 0) as [?|_]; [lia|].
    destruct (Z.eqb_spec n 0) as [->|_]; [reflexivity|].
    rewrite uintWrap_succ by exact Hn. f_equal. lia.
  - fold n.
    assert (Hsame : getCount (addKey line m) k = getCount m k).
    { destruct (String.eqb_spec (TrimSpace line) EmptyString) as [Hemp|Hne].
      - unfold addKey. by rewrite Hemp.
      - pose proof (getCount_addKey line m k Hne) as G.
        rewrite decide_False in G by congruence. exact G. }
    by rewrite Hsame.
Qed.

Section Loading.

Variable Conf : Config.

(** Loading a corpus file: every line is trimmed and added, blank lines are
    skipped, and a key that stands on several lines is counted once for
    each of them.  When there is no file at the path the server stays as it
    is and nothing is logged. *)
Theorem load_counts_lines (kind : Kind) (st : State) :
  let path := pathOf Conf kind in
  let st' := loadOf Conf kind st in
  (FileExists path (world st) = false -> st' = st)
  /\ (forall mode content,
        OS.lookupNode (world st) (OS.resolve (world st) path)
        = Some (OS.File mode content) ->
        world st' = world st
        /\ (forall kind', kind' <> kind -> field kind' (ossh st') = field kind' (ossh st))
        /\ forall k, k <> EmptyString ->
             getCount (field kind (ossh st')) k
             = let n := occurrences k (Split content (byte 10)) in
               if n =? 0 then getCount (field kind (ossh st)) k
               else uintWrap (getCount (field kind (ossh st)) k + n)).
Proof.
  intros path st'. subst st'.
  assert (Hload : exists what, loadOf Conf kind = loadWith path what (addOf kind))
    by (destruct kind; eexists; reflexivity).
  destruct Hload as [what ->]. unfold loadWith. split.
  - intros ->. reflexivity.
  - intros mode content Hfile.
    unfold FileExists, OS.ReadFile. rewrite Hfile.
    set (lines := Split content (byte 10)).
    set (st0 := Log "+" _ _ st).
    assert (Hw : forall items s, world (fold_left (fun s item => onServer (addOf kind item) s)
                                            items s) = world s).
    { induction items as [|i items IH]; intros s; [reflexivity|]. cbn [fold_left].
      by rewrite IH. }
    assert (Hother : forall kind', kind' <> kind -> forall items s,
               field kind' (ossh (fold_left (fun s item => onServer (addOf kind item) s)
                                            items s)) = field kind' (ossh s)).
    { intros kind' Hne. induction items as [|i items IH]; intros s; [reflexivity|].
      cbn [fold_left]. rewrite IH. cbn [onServer ossh]. rewrite field_addOf.
      by rewrite decide_False. }
    split; [exact (Hw lines st0)|].
    split; [intros kind' Hne; exact (Hother kind' Hne lines st0)|].
    intros k Hk. rewrite (fold_field kind lines st0).
    exact (fold_addKey_count lines (field kind (ossh st)) k Hk).
Qed.

(** [getSyncSecrets]: the first configured node of the host, and the error
    "No sync secrets found for <host>" exactly when no node has that host. *)
Theorem getSyncSecrets_first (host : string) :
  match getSyncSecrets Conf host with
  | OS.Ok node =>
      nodeHost node = host
      /\ exists before after,
           SyncNodes Conf = before ++ node :: after
           /\ forall n, n ∈ before -> nodeHost n <> host
  | OS.Err msg =>
      msg = "No sync secrets found for " +:+ host
      /\ forall n, n ∈ SyncNodes Conf -> nodeHost n <> host
  end.
Proof.
  unfold getSyncSecrets.
  induction (SyncNodes Conf) as [|node rest IH]; cbn [firstNodeOf].
  - split; [reflexivity|]. intros n Hn. by apply elem_of_nil in Hn.
  - destruct (String.eqb_spec (nodeHost node) host) as [E|E].
    + split; [exact E|]. exists [], rest. split; [reflexivity|].
      intros n Hn. by apply elem_of_nil in Hn.
    + destruct (firstNodeOf rest host) as [found|].
      * destruct IH as (Hh & before & after & Hr & Hb). split; [exact Hh|].
        exists (node :: before), after. split; [by rewrite Hr|].
        intros n Hn. apply elem_of_cons in Hn as [->|Hn]; [exact E | by apply Hb].
      * destruct IH as (_ & Hnone). split; [reflexivity|].
        intros n Hn. apply elem_of_cons in Hn as [->|Hn]; [exact E | by apply Hnone].
Qed.

End Loading.

End LoadFacts.

Module SaveDemo.
Import Server TrimFacts PersistFacts SaveFacts LoadFacts.

Lemma save_effects_witness :
  let path := pathOf Demo.conf KUsers in
  let key := OS.resolve (world Demo.running) path in
  let st' := saveOf Demo.conf Demo.keys KUsers Demo.running in
  ossh st' = ossh Demo.running
  /\ (forall k, k <> key -> OS.nodes (world st') !! k = OS.nodes (world Demo.running) !! k)
  /\ (FileExists path (world st') = true ->
      (exists keys,
         keys ≡ₚ (map_to_list (field KUsers (ossh Demo.running))).*1
         /\ OS.nodes (world st') !! key
            = Some (OS.File (match OS.lookupNode (world Demo.running) key with
                             | Some n => OS.modeOf n
                             | None => Z.ldiff (OS.octal 644) (OS.umask (world Demo.running))
                             end)
                            (GoStrings.Join keys (String "010"%char EmptyString)
                             +:+ String "010"%char EmptyString)))
      /\ logged st' = logged Demo.running)
  /\ (FileExists path (world st') = false ->
      world st' = world Demo.running
      /\ exists line, logged st' = line :: logged Demo.running /\ logKind line = "x").
Proof.
  apply (save_effects Demo.conf Demo.keys KUsers Demo.running).
  intros m. reflexivity.
Defined.

(** The users file of the running server, byte by byte. *)
Example users_file_of_running :
  map_to_list (Users (ossh Demo.running)) = [("admin", 1); ("root", 2)]
  /\ OS.nodes (world (saveOf Demo.conf Demo.keys KUsers Demo.running)) !! "/var/ossh/users"
     = Some (OS.File (OS.octal 644)
               ("admin" +:+ String "010"%char EmptyString
                +:+ "root" +:+ String "010"%char EmptyString)).
Proof. vm_compute. split; reflexivity. Qed.

Lemma saveCapture_new_witness :
  let f := capturePath Demo.conf Demo.sha1 Demo.attack in
  let key := OS.resolve (world Demo.fresh) f in
  let sha := Demo.sha1 (GoStrings.Join (CommandHistory Demo.attack) lineFeed) in
  let st' := saveCapture Demo.conf Demo.sha1 Demo.template Demo.timeString
                         Demo.attack Demo.fresh in
  ossh st'
  = withFingerprints (ossh Demo.fresh)
      (if String.eqb (TrimSpace sha) EmptyString then Fingerprints (ossh Demo.fresh)
       else <[TrimSpace sha
              := uintWrap (getCount (Fingerprints (ossh Demo.fresh)) (TrimSpace sha) + 1)]>
              (Fingerprints (ossh Demo.fresh)))
  /\ (forall k, k <> key -> OS.nodes (world st') !! k = OS.nodes (world Demo.fresh) !! k)
  /\ (FileExists f (world st') = true ->
      OS.nodes (world st') !! key
      = Some (OS.File (Z.ldiff (OS.octal 744) (OS.umask (world Demo.fresh)))
                      (captureText Demo.template Demo.timeString Demo.attack Demo.fresh))
      /\ exists line, logged st' = line :: logged Demo.fresh
                      /\ logFormat line = "Capture saved: %s")
  /\ (FileExists f (world st') = false ->
      world st' = world Demo.fresh /\ logged st' = logged Demo.fresh).
Proof.
  apply (saveCapture_new Demo.conf Demo.sha1 Demo.template Demo.timeString
           Demo.attack Demo.fresh).
  vm_compute. reflexivity.
Defined.

(** The fingerprint of the capture is counted. *)
Example capture_is_counted :
  map_to_list (Fingerprints (ossh (saveCapture Demo.conf Demo.sha1 Demo.template
                                     Demo.timeString Demo.attack Demo.fresh)))
  = [(Demo.sha1 (GoStrings.Join (CommandHistory Demo.attack) lineFeed), 1)].
Proof. vm_compute. reflexivity. Qed.

(** A users file with a name on two lines, a blank line and a padded name. *)
Definition usersFile : string :=
  "root" +:+ lineFeed +:+ " admin " +:+ lineFeed +:+ lineFeed +:+ "root" +:+ lineFeed.

Definition withUsersFile : OS.World :=
  (OS.WriteFile "/var/ossh/users" usersFile (OS.octal 644) (Demo.machine 9)).1.

Example load_users_file :
  map_to_list (Users (ossh (loadUsers Demo.conf (mkState emptyServer withUsersFile []))))
  = [("admin", 1); ("root", 2)].
Proof. vm_compute. reflexivity. Qed.

End SaveDemo.

(* ===================================================================== *)
(** * The guard of a session: which paths count as inside the merged directory *)
(* ===================================================================== *)

Module MergedFacts.
Import TrimFacts LineFacts PathFacts SessionFacts CloseFacts MountFacts LayerOrder.
Import FilePath OS Overlay.

(** An element that [Clean] does not skip. *)
Definition kept (e : string) : bool := negb (String.eqb e EmptyString || isDot e).

Definition noDotDot (st : list string) : bool :=
  forallb (fun e => negb (isDotDot e)) st.

Lemma isName_noDotDot st : forallb isName st = true -> noDotDot st = true.
Proof.
  induction st as [|e st IH]; [reflexivity|]. cbn [forallb noDotDot].
  intros H. apply andb_prop in H as [He Hst]. unfold noDotDot in IH.
  rewrite (IH Hst), andb_true_r. unfold isName in He.
  destruct (isDotDot e); [|reflexivity].
  destruct (String.eqb e EmptyString), (isDot e); discriminate.
Qed.

(** In a rooted path the stack holds plain names only. *)
Lemma cleanStack_rooted_names elems stack :
  (forall e, e ∈ elems -> containsByte Separator e = false) ->
  forallb isName stack = true ->
  forallb isName (cleanStack true elems stack) = true.
Proof.
  revert stack. induction elems as [|e elems IH]; intros stack Hfree Hst; [exact Hst|].
  assert (Hrest : forall e', e' ∈ elems -> containsByte Separator e' = false)
    by (intros e' He'; apply Hfree; by right).
  cbn [cleanStack].
  destruct (String.eqb e EmptyString || isDot e) eqn:Hskip; [by apply IH|].
  destruct (isDotDot e) eqn:Hdd.
  - destruct stack as [|top below]; [by apply IH|].
    cbn [forallb] in Hst. apply andb_prop in Hst as [Htop Hbelow].
    destruct (isDotDot top) eqn:Ht; [|by apply IH].
    unfold isName in Htop. rewrite Ht in Htop.
    destruct (String.eqb top EmptyString), (isDot top); discriminate.
  - apply IH; [done|]. cbn [forallb]. rewrite Hst, andb_true_r.
    unfold isName. apply orb_false_elim in Hskip as [-> ->].
    rewrite Hdd, (Hfree e) by left. reflexivity.
Qed.

Lemma cleanStack_rooted_noDotDot elems stack :
  noDotDot stack = true -> noDotDot (cleanStack true elems stack) = true.
Proof.
  revert stack. induction elems as [|e elems IH]; intros stack Hst; [exact Hst|].
  cbn [cleanStack].
  destruct (String.eqb e EmptyString || isDot e); [by apply IH|].
  destruct (isDotDot e) eqn:Hdd.
  - destruct stack as [|top below]; [by apply IH|].
    cbn [noDotDot forallb] in Hst. apply andb_prop in Hst as [Htop Hbelow].
    destruct (isDotDot top); [discriminate | by apply IH].
  - apply IH. cbn [noDotDot forallb]. by rewrite Hdd.
Qed.

(** Every element of the stack was kept by the element loop. *)
Lemma cleanStack_kept rooted elems stack :
  forallb kept stack = true -> forallb kept (cleanStack rooted elems stack) = true.
Proof.
  revert stack. induction elems as [|e elems IH]; intros stack Hst; [exact Hst|].
  cbn [cleanStack].
  destruct (String.eqb e EmptyString || isDot e) eqn:Hskip; [by apply IH|].
  assert (Hpush : forallb kept (e :: stack) = true).
  { cbn [forallb]. unfold kept at 1. by rewrite Hskip. }
  destruct (isDotDot e) eqn:Hdd; [|by apply IH].
  destruct stack as [|top below].
  - destruct rooted; apply IH; [reflexivity|]. cbn [forallb]. unfold kept.
    by rewrite Hskip.
  - destruct (isDotDot top); [by apply IH|].
    cbn [forallb] in Hst. apply andb_prop in Hst as [_ Hbelow]. by apply IH.
Qed.

Lemma cleanStack_elem rooted elems stack e :
  e ∈ cleanStack rooted elems stack -> e ∈ elems \/ e ∈ stack.
Proof.
  revert stack. induction elems as [|x elems IH]; intros stack H; [by right|].
  cbn [cleanStack] in H.
  assert (Hlift : forall st, e ∈ cleanStack rooted elems st ->
                             (forall z, z ∈ st -> z = x \/ z ∈ stack) ->
                             e ∈ x :: elems \/ e ∈ stack).
  { intros st Hin Hst. apply IH in Hin as [Hin|Hin]; [left; by right|].
    apply Hst in Hin as [->|Hin]; [left; left | by right]. }
  destruct (String.eqb x EmptyString || isDot x).
  { apply (Hlift stack H). intros z Hz. by right. }
  destruct (isDotDot x).
  - destruct stack as [|top below].
    + destruct rooted.
      * apply (Hlift [] H). intros z Hz. by apply elem_of_nil in Hz.
      * apply (Hlift [x] H). intros z Hz. apply list_elem_of_singleton in Hz. by left.
    + destruct (isDotDot top).
      * apply (Hlift (x :: top :: below) H). intros z Hz.
        apply elem_of_cons in Hz as [->|Hz]; [by left | by right].
      * apply (Hlift below H). intros z Hz. right. by right.
  - apply (Hlift (x :: stack) H). intros z Hz.
    apply elem_of_cons in Hz as [->|Hz]; [by left | by right].
Qed.

(** The elements of a clean rooted path, read again. *)
Lemma cleanStack_render ys :
  forallb isName ys = true ->
  cleanStack true (Split (render true ys) Separator) [] = rev ys.
Proof.
  intros Hn. unfold render.
  change ("/" +:+ GoStrings.Join ys "/") with (String Separator (GoStrings.Join ys "/")).
  cbn [Split]. rewrite Ascii.eqb_refl.
  destruct ys as [|y ys]; [reflexivity|].
  rewrite Split_Join_names by done.
  change (cleanStack true (EmptyString :: y :: ys) []) with (cleanStack true (y :: ys) []).
  rewrite cleanStack_names by done. apply app_nil_r.
Qed.

Lemma IsAbs_nonempty p : IsAbs p = true -> p <> EmptyString.
Proof. by intros H ->. Qed.

Lemma Clean_rooted p :
  IsAbs p = true ->
  Clean p = render true (rev (cleanStack true (Split p Separator) [])).
Proof.
  intros H. rewrite Clean_render by (by apply IsAbs_nonempty).
  by rewrite H, cleanElems_cleanStack.
Qed.

Lemma IsAbs_render ys : IsAbs (render true ys) = true.
Proof. reflexivity. Qed.

(** [Clean] leaves a clean rooted path as it is. *)
Lemma Clean_canonical ys :
  forallb isName ys = true -> Clean (render true ys) = render true ys.
Proof.
  intros Hn. rewrite Clean_rooted by apply IsAbs_render.
  by rewrite cleanStack_render, rev_involutive.
Qed.

Lemma IsAbs_front q x : IsAbs q = true -> IsAbs (q +:+ x) = true.
Proof. destruct q as [|c q]; [discriminate | intros H; exact H]. Qed.

Lemma IsAbs_front_rel q x :
  q <> EmptyString -> IsAbs (q +:+ x) = IsAbs q.
Proof. destruct q as [|c q]; [contradiction | reflexivity]. Qed.

(** The elements of the key of [p] in the working directory [wd], last
    element first. *)
Definition keyStack (wd p : string) : list string :=
  cleanStack true (Split p Separator)
    (if IsAbs p then [] else cleanStack true (Split wd Separator) []).

Lemma Join_two a b :
  a <> EmptyString -> FilePath.Join [a; b] = Clean (a +:+ "/" +:+ b).
Proof.
  intros Ha. cbn [FilePath.Join]. destruct (String.eqb_spec a EmptyString); [contradiction|].
  reflexivity.
Qed.

Lemma Split_slash a b :
  Split (a +:+ "/" +:+ b) Separator = Split a Separator ++ Split b Separator.
Proof. exact (Split_append a b Separator). Qed.

Lemma Abs_keyStack wd p :
  IsAbs wd = true -> Abs wd p = render true (rev (keyStack wd p)).
Proof.
  intros Hwd. unfold Abs, keyStack. destruct (IsAbs p) eqn:Hp; [by apply Clean_rooted|].
  rewrite Join_two by (by apply IsAbs_nonempty).
  rewrite Clean_rooted by (by apply IsAbs_front).
  by rewrite Split_slash, cleanStack_app.
Qed.

Lemma keyStack_names wd p : forallb isName (keyStack wd p) = true.
Proof.
  unfold keyStack. apply cleanStack_rooted_names; [apply Split_pieces_free|].
  destruct (IsAbs p); [reflexivity|].
  apply cleanStack_rooted_names; [apply Split_pieces_free | reflexivity].
Qed.


(** One [..] on a rooted stack without [..]: the top goes, if there is one. *)
Lemma cleanStack_up elems e st :
  isDotDot e = true -> noDotDot st = true ->
  cleanStack true (e :: elems) st = cleanStack true elems (tail st).
Proof.
  intros He Hst. cbn [cleanStack].
  assert (Hskip : String.eqb e EmptyString || isDot e = false).
  { unfold isDotDot in He. apply String.eqb_eq in He as ->. reflexivity. }
  rewrite Hskip, He. destruct st as [|top below]; [reflexivity|].
  cbn [noDotDot forallb] in Hst. apply andb_prop in Hst as [Htop _].
  destruct (isDotDot top); [discriminate | reflexivity].
Qed.

Lemma cleanStack_push rooted elems e st :
  kept e = true -> isDotDot e = false ->
  cleanStack rooted (e :: elems) st = cleanStack rooted elems (e :: st).
Proof.
  intros Hk He. cbn [cleanStack]. unfold kept in Hk.
  apply negb_true_iff in Hk. by rewrite Hk, He.
Qed.

(** The elements of a clean relative path, read onto a rooted stack, do
    what the elements of the path itself do. *)
Lemma cleanStack_replay elems s st :
  forallb kept s = true -> noDotDot st = true ->
  cleanStack true (rev (cleanStack false elems s)) st
  = cleanStack true elems (cleanStack true (rev s) st).
Proof.
  revert s. induction elems as [|e elems IH]; intros s Hs Hst; [reflexivity|].
  pose proof (cleanStack_rooted_noDotDot (rev s) st Hst) as HT.
  destruct (String.eqb e EmptyString || isDot e) eqn:Hskip.
  { cbn [cleanStack]. rewrite Hskip. by apply IH. }
  assert (Hk : kept e = true) by (unfold kept; by rewrite Hskip).
  destruct (isDotDot e) eqn:Hdd.
  - rewrite (cleanStack_up elems e _ Hdd HT).
    assert (Hone : forall st', noDotDot st' = true -> cleanStack true [e] st' = tail st').
    { intros st' H. by rewrite (cleanStack_up [] e st' Hdd H). }
    cbn [cleanStack]. rewrite Hskip, Hdd.
    destruct s as [|top below].
    + rewrite IH by (done || (cbn [forallb]; by rewrite Hk)).
      cbn [rev app]. by rewrite Hone.
    + cbn [forallb] in Hs. apply andb_prop in Hs as [Htop Hbelow].
      destruct (isDotDot top) eqn:Ht.
      * rewrite IH by (done || (cbn [forallb]; by rewrite Hk, Htop, Hbelow)).
        change (rev (e :: top :: below)) with (rev (top :: below) ++ [e]).
        rewrite cleanStack_app. by rewrite Hone.
      * rewrite IH by done. cbn [rev]. rewrite (cleanStack_app true (rev below) [top]).
        rewrite (cleanStack_push true [] top _ Htop Ht). reflexivity.
  - rewrite (cleanStack_push true elems e _ Hk Hdd).
    rewrite (cleanStack_push false elems e _ Hk Hdd).
    rewrite IH by (done || (cbn [forallb]; by rewrite Hk, Hs)).
    cbn [rev]. rewrite cleanStack_app, (cleanStack_push true [] e _ Hk Hdd). reflexivity.
Qed.

Lemma Split_Join_free ys :
  ys <> [] -> (forall e, e ∈ ys -> containsByte Separator e = false) ->
  Split (GoStrings.Join ys "/") Separator = ys.
Proof.
  induction ys as [|e ys IH]; intros Hne H; [contradiction|].
  destruct ys as [|e' ys].
  - cbn [GoStrings.Join]. apply Split_free. apply H. left.
  - rewrite Join_cons2.
    change ("/" +:+ GoStrings.Join (e' :: ys) "/")
      with (String Separator (GoStrings.Join (e' :: ys) "/")).
    rewrite Split_append, (Split_free e) by (apply H; left).
    rewrite IH; [reflexivity | discriminate |]. intros x Hx. apply H. by right.
Qed.

(** A clean relative path is not rooted. *)
Lemma IsAbs_render_relative ys :
  forallb kept ys = true ->
  (forall e, e ∈ ys -> containsByte Separator e = false) ->
  IsAbs (render false ys) = false.
Proof.
  intros Hk Hfree. destruct ys as [|e ys]; [reflexivity|].
  cbn [forallb] in Hk. apply andb_prop in Hk as [He _].
  pose proof (Hfree e ltac:(left)) as Hf.
  destruct e as [|c e]; [discriminate|].
  cbn [containsByte] in Hf. apply orb_false_elim in Hf as [Hc _].
  unfold Separator in Hc. unfold render, IsAbs. destruct ys as [|e' ys].
  - cbn [GoStrings.Join HasPrefix]. by rewrite Hc.
  - rewrite Join_cons2, append_cons. cbn [HasPrefix]. by rewrite Hc.
Qed.

Lemma forallb_rev {A} (f : A -> bool) l : forallb f (rev l) = forallb f l.
Proof.
  induction l as [|x l IH]; [reflexivity|].
  cbn [rev forallb]. rewrite forallb_app, IH. cbn [forallb].
  rewrite andb_true_r. apply andb_comm.
Qed.

(** [Abs] of the cleaned path is [Abs] of the path. *)
Lemma keyStack_Clean wd p :
  p <> EmptyString -> keyStack wd (Clean p) = keyStack wd p.
Proof.
  intros Hp. unfold keyStack. destruct (IsAbs p) eqn:Hr.
  - rewrite Clean_rooted by done. rewrite IsAbs_render.
    rewrite cleanStack_render, rev_involutive; [reflexivity|].
    rewrite forallb_rev. apply cleanStack_rooted_names; [apply Split_pieces_free | done].
  - rewrite Clean_render, Hr, cleanElems_cleanStack by done.
    set (R := cleanStack false (Split p Separator) []).
    assert (HkR : forallb kept (rev R) = true).
    { rewrite forallb_rev. by apply cleanStack_kept. }
    assert (HfR : forall e, e ∈ rev R -> containsByte Separator e = false).
    { intros e He. apply list_elem_of_In, in_rev, list_elem_of_In in He.
      apply cleanStack_elem in He as [He|He].
      - by apply Split_pieces_free in He.
      - by apply elem_of_nil in He. }
    rewrite IsAbs_render_relative by done.
    set (W := cleanStack true (Split wd Separator) []).
    assert (HW : noDotDot W = true) by (by apply cleanStack_rooted_noDotDot).
    pose proof (cleanStack_replay (Split p Separator) [] W eq_refl HW) as L.
    fold R in L. cbn [rev cleanStack] in L. rewrite <- L.
    unfold render. destruct (rev R) as [|e ys] eqn:HR; [reflexivity|].
    rewrite <- HR in *. rewrite Split_Join_free; [reflexivity | by rewrite HR | done].
Qed.

Lemma resolve_Clean w p :
  IsAbs (wd w) = true -> p <> EmptyString -> resolve w (Clean p) = resolve w p.
Proof.
  intros Hwd Hp. unfold resolve. by rewrite !Abs_keyStack, keyStack_Clean.
Qed.

(** The key of [dir/path] on the stack of the key of [dir]. *)
Lemma keyStack_slash wd dir path :
  dir <> EmptyString ->
  keyStack wd (dir +:+ "/" +:+ path)
  = cleanStack true (Split path Separator) (keyStack wd dir).
Proof.
  intros Hd. unfold keyStack.
  rewrite Split_slash, cleanStack_app, IsAbs_front_rel by done. reflexivity.
Qed.

(** The file the wrappers of a session hand to the operating system. *)
Lemma target_key ofs path w :
  IsAbs (wd w) = true -> mergedDir ofs <> EmptyString ->
  resolve w (FilePath.Join [mergedDir ofs; path])
  = render true (rev (cleanStack true (Split path Separator)
                                 (keyStack (wd w) (mergedDir ofs)))).
Proof.
  intros Hwd Hm. rewrite Join_two by done.
  rewrite resolve_Clean by (done || by destruct (mergedDir ofs)).
  unfold resolve. by rewrite Abs_keyStack, keyStack_slash.
Qed.

(** The path [insideMerged] compares with the merged directory: the same file. *)
Lemma checked_key ofs path w :
  IsAbs (wd w) = true ->
  Abs (wd w) (FilePath.Join [Abs (wd w) (mergedDir ofs); path])
  = render true (rev (cleanStack true (Split path Separator)
                                 (keyStack (wd w) (mergedDir ofs)))).
Proof.
  intros Hwd. rewrite (Abs_keyStack _ (mergedDir ofs)) by done.
  set (SM := keyStack (wd w) (mergedDir ofs)).
  assert (HSM : forallb isName (rev SM) = true).
  { rewrite forallb_rev. apply keyStack_names. }
  rewrite Join_two by (by apply IsAbs_nonempty).
  rewrite Abs_keyStack by done.
  rewrite keyStack_Clean by (by destruct (render true (rev SM))).
  rewrite keyStack_slash by (by apply IsAbs_nonempty).
  unfold keyStack at 1. rewrite IsAbs_render, cleanStack_render, rev_involutive by done.
  reflexivity.
Qed.

Lemma insideMerged_keys ofs path w :
  IsAbs (wd w) = true ->
  insideMerged ofs path w
  = HasPrefix (render true (rev (cleanStack true (Split path Separator)
                                            (keyStack (wd w) (mergedDir ofs)))))
              (render true (rev (keyStack (wd w) (mergedDir ofs)))).
Proof.
  intros Hwd. unfold insideMerged. cbv zeta.
  by rewrite checked_key, Abs_keyStack.
Qed.


Lemma HasPrefix_refl s : HasPrefix s s = true.
Proof. induction s as [|c s IH]; [reflexivity|]. cbn [HasPrefix]. by rewrite Ascii.eqb_refl. Qed.

Lemma HasPrefix_app a b : HasPrefix (a +:+ b) a = true.
Proof. apply HasPrefix_append, HasPrefix_refl. Qed.

(** What is in a directory starts with the path of the directory. *)
Lemma within_HasPrefix dir key : within dir key = true -> HasPrefix key dir = true.
Proof.
  unfold within, below. intros H. apply orb_prop in H as [H|H].
  - apply String.eqb_eq in H as ->. apply HasPrefix_refl.
  - destruct (String.eqb_spec dir "/") as [->|_].
    + by apply andb_prop in H as [_ H].
    + by apply HasPrefix_shorter in H.
Qed.

Lemma render_nonroot ys :
  ys <> [] -> forallb isName ys = true -> String.eqb (render true ys) "/" = false.
Proof.
  intros Hne Hn. pose proof (Join_names_nonempty ys Hne Hn) as Hj.
  unfold render. destruct (GoStrings.Join ys "/"); [contradiction | reflexivity].
Qed.

(** A clean rooted path with more names at its end is in the directory. *)
Lemma within_render ys zs :
  forallb isName ys = true -> forallb isName zs = true ->
  within (render true ys) (render true (ys ++ zs)) = true.
Proof.
  intros Hy Hz. unfold within. destruct zs as [|z zs].
  - by rewrite app_nil_r, String.eqb_refl.
  - apply orb_true_intro. right. unfold below.
    destruct ys as [|y ys].
    + cbn [app]. change (render true []) with "/". rewrite String.eqb_refl.
      rewrite render_nonroot by done. reflexivity.
    + rewrite render_nonroot by done.
      rewrite render_app by discriminate.
      replace (render true (y :: ys) +:+ "/") with (front true (y :: ys))
        by (unfold front, render; by rewrite append_assoc).
      apply HasPrefix_app.
Qed.

(** Elements without [..] only add names to the stack. *)
Lemma cleanStack_plain rooted elems st :
  (forall e, e ∈ elems -> containsByte Separator e = false) ->
  (forall e, e ∈ elems -> e <> "..") ->
  exists extra, forallb isName extra = true /\ cleanStack rooted elems st = extra ++ st.
Proof.
  revert st. induction elems as [|e elems IH]; intros st Hfree Hup.
  { by exists []. }
  assert (Hf : forall e', e' ∈ elems -> containsByte Separator e' = false)
    by (intros e' He'; apply Hfree; by right).
  assert (Hu : forall e', e' ∈ elems -> e' <> "..")
    by (intros e' He'; apply Hup; by right).
  cbn [cleanStack].
  destruct (String.eqb e EmptyString || isDot e) eqn:Hskip; [by apply IH|].
  destruct (isDotDot e) eqn:Hdd.
  { unfold isDotDot in Hdd. apply String.eqb_eq in Hdd. destruct (Hup e); [left | done]. }
  destruct (IH (e :: st) Hf Hu) as (extra & Hn & ->).
  exists (extra ++ [e]). split; [|by rewrite <- app_assoc].
  rewrite forallb_app, Hn. cbn [forallb]. unfold isName.
  apply orb_false_elim in Hskip as [-> ->]. rewrite Hdd, (Hfree e) by left. reflexivity.
Qed.

(** The guard never turns away a path that is in the merged directory, and
    a path without a [..] element is always in it. *)
Theorem insideMerged_accepts_inside (ofs : OverlayFS) (w : World) (path : string) :
  IsAbs (wd w) = true -> mergedDir ofs <> EmptyString ->
  let merged := resolve w (mergedDir ofs) in
  let target := resolve w (FilePath.Join [mergedDir ofs; path]) in
  (within merged target = true -> insideMerged ofs path w = true)
  /\ ((forall e, e ∈ Split path Separator -> e <> "..") -> within merged target = true).
Proof.
  intros Hwd Hm merged target. subst merged target.
  rewrite target_key, insideMerged_keys by done.
  unfold resolve. rewrite !Abs_keyStack by done.
  set (SM := keyStack (wd w) (mergedDir ofs)).
  split; [apply within_HasPrefix|].
  intros Hup.
  destruct (cleanStack_plain true (Split path Separator) SM) as (extra & Hn & ->);
    [apply Split_pieces_free | exact Hup |].
  rewrite rev_app_distr. apply within_render; rewrite forallb_rev; [|done].
  apply keyStack_names.
Qed.

Lemma eqb_common a x y : String.eqb (a +:+ x) (a +:+ y) = String.eqb x y.
Proof.
  induction a as [|c a IH]; [reflexivity|].
  rewrite !append_cons. cbn [String.eqb]. by rewrite Ascii.eqb_refl.
Qed.

(** A string without separator does not start with [n/]. *)
Lemma HasPrefix_free y n :
  containsByte Separator y = false -> HasPrefix y (n +:+ "/") = false.
Proof.
  revert y. induction n as [|d n IH]; intros y Hy.
  - destruct y as [|c y]; [reflexivity|]. cbn [containsByte] in Hy.
    apply orb_false_elim in Hy as [Hc _]. unfold Separator in Hc.
    change (EmptyString +:+ "/") with "/". cbn [HasPrefix]. by rewrite Hc.
  - rewrite append_cons. destruct y as [|c y]; [reflexivity|].
    cbn [containsByte] in Hy. apply orb_false_elim in Hy as [_ Hy].
    cbn [HasPrefix]. destruct (Ascii.eqb c d); [by apply IH | reflexivity].
Qed.

Lemma isName_kept e : isName e = true -> kept e = true /\ isDotDot e = false.
Proof.
  unfold isName, kept. intros H.
  destruct (String.eqb e EmptyString), (isDot e), (isDotDot e); done.
Qed.

(** One step up and one name down: the guard looks at the name only.  A
    sibling of the merged directory is let through exactly when its name
    starts with the name of the merged directory, whether or not it is the
    merged directory itself; [Mkdir] then works on the sibling. *)
Theorem insideMerged_sibling (ofs : OverlayFS) (w : World) (q n y : string) :
  IsAbs (wd w) = true ->
  mergedDir ofs = q +:+ n -> slashEnded q -> isName n = true -> isName y = true ->
  exists parent,
    resolve w (mergedDir ofs) = parent +:+ n
    /\ resolve w (FilePath.Join [mergedDir ofs; "../" +:+ y]) = parent +:+ y
    /\ within (parent +:+ n) (parent +:+ y) = String.eqb y n
    /\ insideMerged ofs ("../" +:+ y) w = HasPrefix y n
    /\ forall mode,
         Overlay.Mkdir ofs ("../" +:+ y) mode w
         = if HasPrefix y n
           then OS.Mkdir (FilePath.Join [mergedDir ofs; "../" +:+ y]) mode w
           else (w, Err "path outside root").
Proof.
  intros Hwd Hm Hq Hn Hy.
  destruct (isName_kept n Hn) as [Hkn Hdn]. destruct (isName_kept y Hy) as [Hky Hdy].
  assert (Hne : mergedDir ofs <> EmptyString).
  { rewrite Hm. intros H. destruct q; [|discriminate].
    change (EmptyString +:+ n) with n in H. by rewrite H in Hn. }
  assert (exists rest, keyStack (wd w) (mergedDir ofs) = n :: rest) as [rest HSM].
  { unfold keyStack. rewrite Hm.
    change n with (GoStrings.Join [n] "/") at 1.
    rewrite Split_slashEnded by (done || (cbn [forallb]; by rewrite Hn)).
    rewrite cleanStack_app, (cleanStack_push true [] n _ Hkn Hdn). by eexists. }
  assert (Hnames : forallb isName (n :: rest) = true).
  { rewrite <- HSM. apply keyStack_names. }
  assert (HS' : cleanStack true (Split ("../" +:+ y) Separator) (n :: rest) = y :: rest).
  { change ("../" +:+ y) with (".." +:+ "/" +:+ y).
    rewrite Split_slash, (Split_free y) by (by apply isName_free).
    change (Split ".." Separator ++ [y]) with [".."; y].
    rewrite cleanStack_up by (reflexivity || by apply isName_noDotDot).
    by rewrite (cleanStack_push true [] y _ Hky Hdy). }
  assert (Hrender : forall e, render true (rev (e :: rest)) = front true (rev rest) +:+ e).
  { intros e. cbn [rev]. by rewrite render_app. }
  exists (front true (rev rest)).
  assert (Hguard : insideMerged ofs ("../" +:+ y) w = HasPrefix y n).
  { rewrite insideMerged_keys by done.
    by rewrite HSM, HS', !Hrender, HasPrefix_common. }
  repeat split.
  - unfold resolve. by rewrite Abs_keyStack, HSM, Hrender.
  - by rewrite target_key, HSM, HS', Hrender.
  - unfold within, below. rewrite eqb_common.
    rewrite <- (Hrender n), render_nonroot;
      [| cbn [rev]; by destruct (rev rest) | by rewrite forallb_rev].
    rewrite Hrender, append_assoc, HasPrefix_common.
    rewrite HasPrefix_free by (by apply isName_free). apply orb_false_r.
  - exact Hguard.
  - intros mode. unfold Overlay.Mkdir. rewrite Hguard.
    by destruct (HasPrefix y n).
Qed.

(** A directory made through the session is there for the session, and
    cannot be made a second time. *)
Theorem Mkdir_then_DirExists (ofs : OverlayFS) (path : string) (mode : Z) (w w' : World) :
  Overlay.Mkdir ofs path mode w = (w', Ok tt) ->
  insideMerged ofs path w = true
  /\ sessionDirExists ofs path w = (w, Ok false)
  /\ sessionDirExists ofs path w' = (w', Ok true)
  /\ Overlay.Mkdir ofs path mode w'
     = (w', Err ("mkdir " +:+ FilePath.Join [mergedDir ofs; path] +:+ ": file exists")).
Proof.
  unfold Overlay.Mkdir, sessionDirExists, DirExists. intros H.
  assert (Hin' : forall w2, wd w2 = wd w -> insideMerged ofs path w2 = insideMerged ofs path w).
  { intros w2 Hw. unfold insideMerged. by rewrite Hw. }
  destruct (insideMerged ofs path w) eqn:Hin; [|discriminate]. cbn [negb] in *.
  apply Mkdir_Ok in H as [Hnone Hw'].
  assert (Hwd : wd w' = wd w) by (by rewrite Hw').
  rewrite (Hin' w' Hwd). cbn [negb].
  assert (Hkey : resolve w' (FilePath.Join [mergedDir ofs; path])
                 = resolve w (FilePath.Join [mergedDir ofs; path])).
  { by apply resolve_wd. }
  set (key := resolve w (FilePath.Join [mergedDir ofs; path])) in *.
  assert (Hthere : lookupNode w' key = Some (Dir (createMode w mode))).
  { unfold lookupNode in *. destruct (String.eqb key "/"); [discriminate|].
    rewrite Hw'. cbn [nodes setNodes]. apply lookup_insert_eq. }
  repeat split.
  - by rewrite Hnone.
  - by rewrite Hkey, Hthere.
  - unfold OS.Mkdir. cbv zeta. by rewrite Hkey, Hthere.
Qed.

End MergedFacts.

Module MergedDemo.
Import PathFacts MergedFacts FilePath OS Overlay OverlayDemo.

(** The session of host [k], mounted. *)
Definition live : World := (Mount session before).1.

Lemma insideMerged_accepts_inside_witness :
  let merged := resolve live (mergedDir session) in
  let target := resolve live (FilePath.Join [mergedDir session; "/etc/./ssh//config"]) in
  (within merged target = true -> insideMerged session "/etc/./ssh//config" live = true)
  /\ ((forall e, e ∈ Split "/etc/./ssh//config" Separator -> e <> "..")
      -> within merged target = true).
Proof.
  apply (insideMerged_accepts_inside session live "/etc/./ssh//config");
    [reflexivity | discriminate].
Defined.

Lemma insideMerged_sibling_witness :
  exists parent,
    resolve live (mergedDir session) = parent +:+ "merge-1651420000"
    /\ resolve live (FilePath.Join [mergedDir session; "../" +:+ "merge-16514200001"])
       = parent +:+ "merge-16514200001"
    /\ within (parent +:+ "merge-1651420000") (parent +:+ "merge-16514200001")
       = String.eqb "merge-16514200001" "merge-1651420000"
    /\ insideMerged session ("../" +:+ "merge-16514200001") live
       = HasPrefix "merge-16514200001" "merge-1651420000"
    /\ forall mode,
         Overlay.Mkdir session ("../" +:+ "merge-16514200001") mode live
         = if HasPrefix "merge-16514200001" "merge-1651420000"
           then OS.Mkdir (FilePath.Join [mergedDir session; "../" +:+ "merge-16514200001"])
                         mode live
           else (live, Err "path outside root").
Proof.
  apply (insideMerged_sibling session live "/ofs/sandboxes/k/" "merge-1651420000"
           "merge-16514200001"); try reflexivity.
  right. by exists "/ofs/sandboxes/k".
Defined.

(** Through the session of host [k] a directory is made beside the merged
    directory, where the next sessions of the host are set up. *)
Example Mkdir_beside_merged :
  let after := (Overlay.Mkdir session "../merge-16514200001" (octal 755) live).1 in
  nodes live !! "/ofs/sandboxes/k/merge-16514200001" = None
  /\ nodes after !! "/ofs/sandboxes/k/merge-16514200001" = Some (Dir (octal 755))
  /\ insideMerged session "../work-1651420000" live = false
  /\ insideMerged session "../../k2" live = false
  /\ insideMerged session "a/../../merge-1651420000/b" live = true.
Proof. vm_compute. repeat split; reflexivity. Qed.

Lemma Mkdir_then_DirExists_witness :
  let made := (Overlay.Mkdir session "home" (octal 755) live).1 in
  insideMerged session "home" live = true
  /\ sessionDirExists session "home" live = (live, Ok false)
  /\ sessionDirExists session "home" made = (made, Ok true)
  /\ Overlay.Mkdir session "home" (octal 755) made
     = (made, Err ("mkdir " +:+ FilePath.Join [mergedDir session; "home"] +:+ ": file exists")).
Proof.
  apply (Mkdir_then_DirExists session "home" (octal 755) live
           (Overlay.Mkdir session "home" (octal 755) live).1).
  vm_compute. reflexivity.
Defined.

End MergedDemo.

(* ===================================================================== *)
(** * A session from mount to close *)
(* ===================================================================== *)

Module LifecycleFacts.
Import TrimFacts LineFacts PathFacts SessionFacts CloseFacts MountFacts LayerOrder MergedFacts.
Import FilePath OS Overlay.

(** Every node is keyed by its absolute clean path. *)
Definition wellKeyed (w : World) : bool :=
  forallb (fun kn : string * node => IsAbs kn.1 && String.eqb (Clean kn.1) kn.1)
          (map_to_list (nodes w)).

Lemma wellKeyed_key w k n :
  wellKeyed w = true -> nodes w !! k = Some n -> IsAbs k = true /\ Clean k = k.
Proof.
  unfold wellKeyed. rewrite forallb_forall. intros H Hk.
  apply elem_of_map_to_list, list_elem_of_In in Hk. apply H in Hk. cbn [fst] in Hk.
  apply andb_prop in Hk as [Ha Hc]. split; [exact Ha | by apply String.eqb_eq].
Qed.

Lemma canonical_render k :
  IsAbs k = true -> Clean k = k ->
  exists ys, forallb isName ys = true /\ k = render true ys.
Proof.
  intros Ha Hc. exists (rev (cleanStack true (Split k Separator) [])). split.
  - rewrite forallb_rev. apply cleanStack_rooted_names; [apply Split_pieces_free | done].
  - by rewrite <- Clean_rooted.
Qed.

Lemma resolve_canonical w p :
  IsAbs (wd w) = true ->
  exists ys, forallb isName ys = true /\ resolve w p = render true ys.
Proof.
  intros Hwd. exists (rev (keyStack (wd w) p)). split.
  - rewrite forallb_rev. apply keyStack_names.
  - unfold resolve. by apply Abs_keyStack.
Qed.

(** The directory of a clean rooted path: the path without its last name. *)
Lemma parentOf_render ys :
  forallb isName ys = true -> parentOf (render true ys) = render true (rev (tail (rev ys))).
Proof.
  intros Hn. unfold parentOf.
  change (render true ys +:+ "/..") with (render true ys +:+ "/" +:+ "..").
  rewrite Clean_rooted by (apply IsAbs_front, IsAbs_render).
  rewrite Split_slash, cleanStack_app, cleanStack_render by done.
  change (Split ".." Separator) with [".."].
  rewrite cleanStack_up; [reflexivity | reflexivity |].
  apply isName_noDotDot. by rewrite forallb_rev.
Qed.

(** A node whose directory is [dir] lies below [dir]. *)
Lemma parent_below k dir :
  IsAbs k = true -> Clean k = k -> parentOf k = dir -> k <> dir -> below dir k = true.
Proof.
  intros Ha Hc Hp Hne. destruct (canonical_render k Ha Hc) as (ys & Hn & ->).
  rewrite parentOf_render in Hp by done. subst dir.
  assert (Hrev : forallb isName (rev ys) = true) by (by rewrite forallb_rev).
  destruct (rev ys) as [|b r] eqn:Hr.
  - apply (f_equal (@rev string)) in Hr. rewrite rev_involutive in Hr. cbn [rev] in Hr.
    subst ys. by destruct Hne.
  - apply (f_equal (@rev string)) in Hr. rewrite rev_involutive in Hr. cbn [rev] in Hr.
    subst ys. cbn [tail] in *. cbn [forallb] in Hrev. apply andb_prop in Hrev as [Hb Hrest].
    assert (Hin : within (render true (rev r)) (render true (rev r ++ [b])) = true).
    { apply within_render; [by rewrite forallb_rev | cbn [forallb]; by rewrite Hb]. }
    unfold within in Hin. apply orb_prop in Hin as [Hin|Hin]; [|exact Hin].
    apply String.eqb_eq in Hin. by destruct Hne.
Qed.

Lemma omap_nil {A B} (f : A -> option B) (l : list A) :
  (forall x, x ∈ l -> f x = None) -> omap f l = [].
Proof.
  induction l as [|x l IH]; intros H; [reflexivity|].
  cbn [omap list_omap]. rewrite (H x) by left. apply IH. intros y Hy. apply H. by right.
Qed.

(** A directory that nothing lies below has no entries. *)
Lemma childrenOf_empty w key :
  wellKeyed w = true ->
  (forall k n, nodes w !! k = Some n -> below key k = false) ->
  childrenOf w key = [].
Proof.
  intros Hkeys Hnone. unfold childrenOf. rewrite omap_nil; [reflexivity|].
  intros [k n] Hk. apply elem_of_map_to_list in Hk. cbn [fst snd].
  destruct (wellKeyed_key w k n Hkeys Hk) as [Ha Hc].
  destruct (String.eqb_spec (parentOf k) key) as [Hp|]; [|reflexivity].
  destruct (String.eqb_spec k key) as [|Hne]; [reflexivity|].
  pose proof (Hnone k n Hk) as Hb.
  rewrite (parent_below k key Ha Hc Hp Hne) in Hb. discriminate.
Qed.

Lemma below_self dir : below dir dir = false.
Proof.
  unfold below. destruct (String.eqb_spec dir "/") as [->|_]; [reflexivity|].
  destruct (HasPrefix dir (dir +:+ "/")) eqn:H; [|reflexivity].
  apply length_HasPrefix in H. rewrite length_append in H. cbn in H. lia.
Qed.

Lemma MountOverlay_world target data w w' :
  MountOverlay target data w = (w', Ok tt) ->
  w' = setMounts w (<[resolve w target := data]> (mounts w)).
Proof.
  unfold MountOverlay. destruct (lookupNode w _) as [[m|m d]|]; try discriminate.
  by intros [= <-].
Qed.

(** What [Mount] leaves when it returns without error. *)
Lemma Mount_Ok ofs w w1 :
  Mount ofs w = (w1, Ok tt) ->
  let km := resolve w (mergedDir ofs) in
  let kw := resolve w (workDir ofs) in
  let ku := resolve w (upperDir ofs) in
  let made := Dir (createMode w 700) in
  (lookupNode w km = None /\ lookupNode w kw = None /\ lookupNode w ku = None)
  /\ (km <> kw /\ km <> ku /\ kw <> ku)
  /\ exists data,
       w1 = mkWorld (<[ku := made]> (<[kw := made]> (<[km := made]> (nodes w))))
                    (<[km := data]> (mounts w)) (umask w) (wd w) (clock w).
Proof.
  intros H. unfold Mount in H.
  apply bind_Ok in H as ([] & w1' & H1 & H).
  apply bind_Ok in H as ([] & w2 & H2 & H).
  apply bind_Ok in H as ([] & w3 & H3 & H).
  apply bind_Ok in H as ([] & w4 & H4 & H).
  apply wrapErr_Ok, Mkdir_Ok in H1 as [N1 ->].
  apply wrapErr_Ok, Mkdir_Ok in H2 as [N2 ->].
  apply wrapErr_Ok, Mkdir_Ok in H3 as [N3 ->].
  apply wrapErr_Ok, MountOverlay_world in H4 as ->.
  unfold mret, M_ret, ret in H. injection H as <-.
  unfold resolve, createMode in *. cbn [wd umask setNodes setMounts nodes mounts clock] in *.
  set (km := FilePath.Abs (wd w) (mergedDir ofs)) in *.
  set (kw := FilePath.Abs (wd w) (workDir ofs)) in *.
  set (ku := FilePath.Abs (wd w) (upperDir ofs)) in *.
  apply lookupNode_None in N2 as [N2 R2]. apply lookupNode_None in N3 as [N3 R3].
  cbn [nodes setNodes] in N2, N3.
  assert (Hmw : km <> kw) by (intros E; rewrite E, lookup_insert_eq in N2; discriminate).
  assert (Hwu : kw <> ku) by (intros E; rewrite E, lookup_insert_eq in N3; discriminate).
  assert (Hmu : km <> ku).
  { intros E. rewrite lookup_insert_ne in N3 by exact Hwu.
    rewrite E, lookup_insert_eq in N3. discriminate. }
  rewrite lookup_insert_ne in N2 by exact Hmw.
  rewrite !lookup_insert_ne in N3 by assumption.
  split; [|split; [done|by eexists]].
  split; [exact N1|]. unfold lookupNode.
  destruct (String.eqb_spec kw "/"), (String.eqb_spec ku "/"); try contradiction.
  by split.
Qed.

Lemma Unmount_Ok p w data :
  mounts w !! resolve w p = Some data ->
  Unmount p w
  = (mkWorld (filter (fun kn : string * node => below (resolve w p) kn.1 = false) (nodes w))
             (delete (resolve w p) (mounts w)) (umask w) (wd w) (clock w), Ok tt).
Proof. intros H. unfold Unmount. by rewrite H. Qed.

Lemma Remove_Ok p w n :
  lookupNode w (resolve w p) = Some n -> resolve w p <> "/" ->
  mounts w !! resolve w p = None -> childrenOf w (resolve w p) = [] ->
  Remove p w = (setNodes w (delete (resolve w p) (nodes w)), Ok tt).
Proof.
  intros Hn Hroot Hm Hc. unfold Remove. cbv zeta. rewrite Hn, Hm, Hc.
  destruct (String.eqb_spec (resolve w p) "/"); [contradiction|].
  rewrite bool_decide_eq_false_2 by (by intros [? ?]).
  rewrite bool_decide_eq_true_2 by done. cbn [orb negb]. by rewrite andb_false_r.
Qed.

Lemma RemoveAll_Ok p w :
  p <> EmptyString -> endsWithDot p = false ->
  RemoveAll p w
  = (setNodes w (filter (fun kn : string * node => within (resolve w p) kn.1 = false)
                        (nodes w)), Ok tt).
Proof.
  intros Hp Hd. unfold RemoveAll. rewrite Hd.
  by destruct (String.eqb_spec p EmptyString).
Qed.

Lemma within_self dir : within dir dir = true.
Proof. unfold within. by rewrite String.eqb_refl. Qed.

(** A session that [Mount] has set up can be closed: [Close] returns without
    error, the mount is gone, and of the three directories [Mount] made
    only the upper one is left; every other node is as it was before
    [Mount]. *)
Theorem Mount_then_Close (ofsm : OverlayFSManager) (sandboxKey : string)
    (w0 w0' : World) (ofs : OverlayFS) (w w1 : World) :
  NewSession ofsm sandboxKey w0 = (w0', Ok ofs) ->
  IsAbs (wd w) = true -> wellKeyed w = true ->
  Mount ofs w = (w1, Ok tt) ->
  let km := resolve w (mergedDir ofs) in
  let kw := resolve w (workDir ofs) in
  let ku := resolve w (upperDir ofs) in
  exists w2,
    Close ofs w1 = (w2, Ok tt)
    /\ mounts w2 = delete km (mounts w)
    /\ (umask w2 = umask w /\ wd w2 = wd w /\ clock w2 = clock w)
    /\ forall k,
         nodes w2 !! k
         = if within km k || within kw k then None
           else if String.eqb k ku then Some (Dir (Z.ldiff (octal 274) (umask w)))
           else nodes w !! k.
Proof.
  intros Hnew Hwd Hkeys Hmount km kw ku.
  destruct (NewSession_dirs _ _ _ _ _ Hnew) as (q & t & Hdirs).
  destruct (session_keys ofs q t w Hdirs) as (Ekm & Eku & Ekw).
  fold km in Ekm. fold ku in Eku. fold kw in Ekw.
  destruct (Mount_Ok ofs w w1 Hmount) as ((N1 & N2 & N3) & (Hmw & Hmu & Hwu) & data & Hw1).
  fold km kw ku in N1, N2, N3, Hmw, Hmu, Hwu, Hw1.
  change (createMode w 700) with (Z.ldiff (octal 274) (umask w)) in Hw1.
  set (made := Dir (Z.ldiff (octal 274) (umask w))) in *.
  apply lookupNode_None in N1 as [N1 R1].
  assert (Hres : forall p, resolve w1 p = resolve w p).
  { intros p. apply resolve_wd. by rewrite Hw1. }
  (* the upper directory is apart from the other two *)
  assert (Aum : within km ku = false).
  { rewrite Ekm.
    apply (within_apart (anchor (wd w) q) "l" ("ayers/" +:+ t) "m" ("erge-" +:+ t) ku);
      [done | done | done |].
    change (within (anchor (wd w) q +:+ "layers/" +:+ t) ku = true).
    rewrite <- Eku. apply within_self. }
  assert (Auw : within kw ku = false).
  { rewrite Ekw.
    apply (within_apart (anchor (wd w) q) "l" ("ayers/" +:+ t) "w" ("ork-" +:+ t) ku);
      [done | done | done |].
    change (within (anchor (wd w) q +:+ "layers/" +:+ t) ku = true).
    rewrite <- Eku. apply within_self. }
  assert (Amw : within kw km = false).
  { rewrite Ekw.
    apply (within_apart (anchor (wd w) q) "m" ("erge-" +:+ t) "w" ("ork-" +:+ t) km);
      [done | done | done |].
    change (within (anchor (wd w) q +:+ "merge-" +:+ t) km = true).
    rewrite <- Ekm. apply within_self. }
  assert (Awm : below km kw = false).
  { assert (H : within km kw = false).
    { rewrite Ekm.
      apply (within_apart (anchor (wd w) q) "w" ("ork-" +:+ t) "m" ("erge-" +:+ t) kw);
        [done | done | done |].
      change (within (anchor (wd w) q +:+ "work-" +:+ t) kw = true).
      rewrite <- Ekw. apply within_self. }
    unfold within in H. by apply orb_false_elim in H as [_ ?]. }
  (* the work directory has a name of its own *)
  destruct Hdirs as (Hmd & Hud & Hwdir & Hq & Ht & Hmn & Hwn).
  assert (Hwork : workDir ofs <> EmptyString).
  { rewrite Hwdir. destruct q; discriminate. }
  assert (Hdot : endsWithDot (workDir ofs) = false).
  { unfold endsWithDot, baseOf. rewrite Hwdir.
    change ("work-" +:+ t) with (GoStrings.Join ["work-" +:+ t] "/").
    rewrite Split_slashEnded by (done || (cbn [forallb]; by rewrite Hwn)).
    rewrite last_last. reflexivity. }
  (* unmount *)
  unfold Close, mbind, M_bind, bind, wrapErr, mret, M_ret, ret.
  rewrite (Unmount_Ok (mergedDir ofs) w1 data)
    by (rewrite Hres; fold km; rewrite Hw1; apply lookup_insert_eq).
  rewrite Hres. fold km.
  set (wU := mkWorld _ _ _ _ _).
  assert (HresU : forall p, resolve wU p = resolve w p).
  { intros p. apply resolve_wd. subst wU. by rewrite Hw1. }
  assert (HnU : forall k, nodes wU !! k = if below km k then None else nodes w1 !! k).
  { intros k. subst wU. cbn [nodes]. apply lookup_filter_key. }
  assert (Hn1 : forall k, nodes w1 !! k
                          = if String.eqb k ku then Some made
                            else if String.eqb k kw then Some made
                            else if String.eqb k km then Some made
                            else nodes w !! k).
  { intros k. rewrite Hw1. cbn [nodes].
    destruct (String.eqb_spec k ku) as [->|Hu]; [apply lookup_insert_eq|].
    rewrite lookup_insert_ne by done.
    destruct (String.eqb_spec k kw) as [->|Hk]; [apply lookup_insert_eq|].
    rewrite lookup_insert_ne by done.
    destruct (String.eqb_spec k km) as [->|Hm]; [apply lookup_insert_eq|].
    by rewrite lookup_insert_ne. }
  (* remove the merged directory *)
  assert (HkeysU : wellKeyed wU = true).
  { unfold wellKeyed. rewrite forallb_forall. intros [k n] Hk.
    apply list_elem_of_In, elem_of_map_to_list in Hk. cbn [fst].
    rewrite HnU in Hk. destruct (below km k); [discriminate|].
    assert (Hcan : forall p, IsAbs (resolve w p) && String.eqb (Clean (resolve w p)) (resolve w p) = true).
    { intros p. destruct (resolve_canonical w p Hwd) as (ys & Hys & ->).
      by rewrite IsAbs_render, Clean_canonical, String.eqb_refl. }
    rewrite Hn1 in Hk.
    destruct (String.eqb_spec k ku) as [->|_]; [apply Hcan|].
    destruct (String.eqb_spec k kw) as [->|_]; [apply Hcan|].
    destruct (String.eqb_spec k km) as [->|_]; [apply Hcan|].
    destruct (wellKeyed_key w k n Hkeys Hk) as [-> ->]. by rewrite String.eqb_refl. }
  rewrite (Remove_Ok (mergedDir ofs) wU made); rewrite ?HresU; fold km.
  2:{ unfold lookupNode. destruct (String.eqb_spec km "/"); [contradiction|].
      rewrite HnU, below_self, Hn1.
      destruct (String.eqb_spec km ku); [contradiction|].
      destruct (String.eqb_spec km kw); [contradiction|].
      by rewrite String.eqb_refl. }
  2:{ exact R1. }
  2:{ subst wU. cbn [mounts]. apply lookup_delete_eq. }
  2:{ apply childrenOf_empty; [exact HkeysU|]. intros k n Hk. rewrite HnU in Hk.
      by destruct (below km k). }
  set (wR := setNodes wU _).
  (* remove the work tree *)
  rewrite (RemoveAll_Ok (workDir ofs) wR Hwork Hdot).
  assert (HresR : resolve wR (workDir ofs) = kw).
  { unfold kw. apply resolve_wd. subst wR wU. by rewrite Hw1. }
  rewrite HresR.
  eexists. split; [reflexivity|].
  assert (Hrest : mounts w1 = <[km := data]> (mounts w)
                  /\ umask w1 = umask w /\ wd w1 = wd w /\ clock w1 = clock w).
  { by rewrite Hw1. }
  destruct Hrest as (Hm1 & Hrest).
  subst wR wU. cbn [mounts umask wd clock nodes setNodes].
  split; [rewrite Hm1; apply delete_insert_eq|].
  split; [exact Hrest|]. intros k.
  rewrite lookup_filter_key.
  destruct (within kw k) eqn:Hkw; [by rewrite orb_true_r|]. rewrite orb_false_r.
  unfold within at 1.
  destruct (String.eqb_spec k km) as [->|Hkm]; [cbn [orb]; apply lookup_delete_eq|].
  rewrite lookup_delete_ne by done. cbn [orb].
  rewrite lookup_filter_key. destruct (below km k) eqn:Hb; [reflexivity|].
  rewrite Hn1.
  destruct (String.eqb_spec k ku) as [->|Hku]; [reflexivity|].
  destruct (String.eqb_spec k kw) as [->|Hkw']; [by rewrite within_self in Hkw|].
  destruct (String.eqb_spec k km); [contradiction | reflexivity].
Qed.

End LifecycleFacts.

Module LifecycleDemo.
Import LifecycleFacts FilePath OS Overlay OverlayDemo.

Lemma Mount_then_Close_witness :
  let km := resolve before (mergedDir session) in
  let kw := resolve before (workDir session) in
  let ku := resolve before (upperDir session) in
  exists w2,
    Close session (Mount session before).1 = (w2, Ok tt)
    /\ mounts w2 = delete km (mounts before)
    /\ (umask w2 = umask before /\ wd w2 = wd before /\ clock w2 = clock before)
    /\ forall k,
         nodes w2 !! k
         = if within km k || within kw k then None
           else if String.eqb k ku then Some (Dir (Z.ldiff (octal 274) (umask before)))
           else nodes before !! k.
Proof.
  apply (Mount_then_Close manager "k" before (NewSession manager "k" before).1 session
           before (Mount session before).1).
  - vm_compute. reflexivity.
  - reflexivity.
  - vm_compute. reflexivity.
  - vm_compute. reflexivity.
Defined.

End LifecycleDemo.

(* ===================================================================== *)
(** * Setting up a session: what [NewSession] makes, and two sessions in one second *)
(* ===================================================================== *)

Module SetupFacts.
Import TrimFacts LineFacts PathFacts SessionFacts CloseFacts MountFacts LayerOrder.
Import MergedFacts LifecycleFacts FilePath OS Overlay.

(** The machine once the directory [path] has been seen or made. *)
Definition ensured (path : string) (w : World) : World :=
  match lookupNode w (resolve w path) with
  | Some (Dir _) => w
  | _ => setNodes w (<[resolve w path := Dir (createMode w (octal 755))]> (nodes w))
  end.

Lemma ensured_rest path w :
  mounts (ensured path w) = mounts w /\ umask (ensured path w) = umask w
  /\ wd (ensured path w) = wd w /\ clock (ensured path w) = clock w.
Proof. unfold ensured. by destruct (lookupNode w _) as [[]|]. Qed.

Lemma lookupNode_insert w k k' n :
  lookupNode (setNodes w (<[k := n]> (nodes w))) k'
  = if String.eqb k' "/" then Some (Dir (octal 755))
    else if String.eqb k' k then Some n else nodes w !! k'.
Proof.
  unfold lookupNode. cbn [nodes setNodes]. destruct (String.eqb k' "/"); [reflexivity|].
  destruct (String.eqb_spec k' k) as [->|Hne]; [apply lookup_insert_eq|].
  by apply lookup_insert_ne.
Qed.

(** One step of [NewSession]: the directory is there, or it is made. *)
Lemma ensure_step path pre w w1 there w2 u :
  DirExists path w = (w1, Ok there) ->
  (if there : bool then mret tt else wrapErr pre (OS.Mkdir path (octal 755))) w1 = (w2, Ok u) ->
  w2 = ensured path w
  /\ exists m, lookupNode w2 (resolve w path) = Some (Dir m)
               /\ (lookupNode w (resolve w path) = Some (Dir m)
                   \/ lookupNode w (resolve w path) = None
                      /\ m = Z.ldiff (octal 755) (umask w)).
Proof.
  unfold DirExists, ensured. intros [= <- <-] H.
  destruct (lookupNode w (resolve w path)) as [[m|m d]|] eqn:Hl.
  - unfold mret, M_ret, ret in H. injection H as <- _. split; [reflexivity|].
    exists m. split; [exact Hl | by left].
  - destruct u. apply wrapErr_Ok, Mkdir_Ok in H as [Hnone _]. congruence.
  - destruct u. apply wrapErr_Ok, Mkdir_Ok in H as [_ ->]. split; [reflexivity|].
    rewrite lookupNode_insert, String.eqb_refl.
    unfold lookupNode in Hl. destruct (String.eqb (resolve w path) "/"); [discriminate|].
    exists (createMode w (octal 755)). split; [reflexivity | by right].
Qed.

(** The session [NewSession] returns at unix time [now] when it finds the
    entries [entries] in the directory of the layers. *)
Definition sessionAt (ofsm : OverlayFSManager) (sandboxKey : string) (now : Z)
    (entries : list DirEntry) : OverlayFS :=
  let sp := FilePath.Join [baseDir ofsm; "sandboxes"; sandboxKey] in
  mkOverlayFS (FilePath.Join [sp; "merge-" +:+ FormatInt now])
              (FilePath.Join [sp; "layers"; FormatInt now])
              (FilePath.Join [sp; "work-" +:+ FormatInt now])
              (sortSlice lessLayer
                 (map (fun entry => FilePath.Join [sp; "layers"; Name entry])
                      (List.filter IsDir entries))
               ++ [FilePath.Join [baseDir ofsm; "defaultfs"]]).

Lemma NewSession_Ok ofsm sandboxKey w w' ofs :
  NewSession ofsm sandboxKey w = (w', Ok ofs) ->
  let sp := FilePath.Join [baseDir ofsm; "sandboxes"; sandboxKey] in
  let lp := FilePath.Join [sp; "layers"] in
  w' = ensured lp (ensured sp w)
  /\ (exists m, lookupNode (ensured sp w) (resolve w sp) = Some (Dir m)
                /\ (lookupNode w (resolve w sp) = Some (Dir m)
                    \/ lookupNode w (resolve w sp) = None
                       /\ m = Z.ldiff (octal 755) (umask w)))
  /\ (exists m, lookupNode w' (resolve w lp) = Some (Dir m)
                /\ (lookupNode (ensured sp w) (resolve w lp) = Some (Dir m)
                    \/ lookupNode (ensured sp w) (resolve w lp) = None
                       /\ m = Z.ldiff (octal 755) (umask w)))
  /\ ofs = sessionAt ofsm sandboxKey (clock w) (childrenOf w' (resolve w lp)).
Proof.
  intros H. cbv zeta. unfold NewSession in H.
  set (sp := FilePath.Join [baseDir ofsm; "sandboxes"; sandboxKey]) in *.
  set (lp := FilePath.Join [sp; "layers"]) in *.
  apply bind_Ok in H as (there1 & w1 & E1 & H).
  apply bind_Ok in H as (u1 & w2 & E2 & H).
  apply bind_Ok in H as (there2 & w3 & E3 & H).
  apply bind_Ok in H as (u2 & w4 & E4 & H).
  apply bind_Ok in H as (now & w5 & E5 & H).
  apply bind_Ok in H as (entries & w6 & Hread & H).
  destruct (ensure_step _ _ _ _ _ _ _ E1 E2) as (-> & Hs).
  destruct (ensured_rest sp w) as (_ & Hum & Hwd & Hclock).
  destruct (ensure_step _ _ _ _ _ _ _ E3 E4) as (-> & Hl).
  destruct (ensured_rest lp (ensured sp w)) as (_ & _ & Hwd' & Hclock').
  rewrite (resolve_wd w (ensured sp w) lp Hwd), Hum in Hl.
  unfold NowUnix in E5. injection E5 as <- <-.
  apply wrapErr_Ok, ReadDir_Ok in Hread as [-> ->].
  unfold mret, M_ret, ret in H. injection H as <- <-.
  rewrite (resolve_wd w _ lp (eq_trans Hwd' Hwd)), Hclock', Hclock.
  by repeat split.
Qed.

(** [NewSession] on a machine where both directories are there. *)
Lemma NewSession_ready ofsm sandboxKey w m1 m2 :
  let sp := FilePath.Join [baseDir ofsm; "sandboxes"; sandboxKey] in
  let lp := FilePath.Join [sp; "layers"] in
  lookupNode w (resolve w sp) = Some (Dir m1) ->
  lookupNode w (resolve w lp) = Some (Dir m2) ->
  NewSession ofsm sandboxKey w
  = (w, Ok (sessionAt ofsm sandboxKey (clock w) (childrenOf w (resolve w lp)))).
Proof.
  intros sp lp H1 H2.
  unfold NewSession, mbind, M_bind, bind, DirExists, NowUnix, wrapErr, OS.ReadDir.
  fold sp. fold lp. rewrite H1. unfold mret, M_ret, ret. by rewrite H2, H2.
Qed.

Lemma ensured_there path w m :
  lookupNode w (resolve w path) = Some (Dir m) -> ensured path w = w.
Proof. unfold ensured. by intros ->. Qed.

(** What [NewSession] does to the machine: it makes the directory of the
    sandbox and the directory of its layers where they are missing, with
    mode 0755 less the umask, and touches nothing else; the directories of
    the session itself are named after the unix time and are not made here.
    Asked again within the same second it answers with the same session. *)
Theorem NewSession_effect (ofsm : OverlayFSManager) (sandboxKey : string)
    (w w' : World) (ofs : OverlayFS) :
  NewSession ofsm sandboxKey w = (w', Ok ofs) ->
  let sp := FilePath.Join [baseDir ofsm; "sandboxes"; sandboxKey] in
  let ks := resolve w sp in
  let kl := resolve w (FilePath.Join [sp; "layers"]) in
  (mounts w' = mounts w /\ umask w' = umask w /\ wd w' = wd w /\ clock w' = clock w)
  /\ (forall k, k <> ks -> k <> kl -> nodes w' !! k = nodes w !! k)
  /\ (forall k, k = ks \/ k = kl ->
      exists m, lookupNode w' k = Some (Dir m)
                /\ (lookupNode w k = Some (Dir m) \/ m = Z.ldiff (octal 755) (umask w)))
  /\ (mergedDir ofs = FilePath.Join [sp; "merge-" +:+ FormatInt (clock w)]
      /\ workDir ofs = FilePath.Join [sp; "work-" +:+ FormatInt (clock w)]
      /\ upperDir ofs = FilePath.Join [sp; "layers"; FormatInt (clock w)])
  /\ NewSession ofsm sandboxKey w' = (w', Ok ofs).
Proof.
  intros H sp ks kl.
  destruct (NewSession_Ok _ _ _ _ _ H) as (Hw' & (ms & Hs & Hs0) & (ml & Hl & Hl0) & Hofs).
  fold sp in Hw', Hs, Hs0, Hl, Hl0, Hofs. fold ks in Hs, Hs0. fold kl in Hl, Hl0, Hofs.
  destruct (ensured_rest sp w) as (Hm1 & Hu1 & Hwd1 & Hc1).
  destruct (ensured_rest (FilePath.Join [sp; "layers"]) (ensured sp w)) as (Hm2 & Hu2 & Hwd2 & Hc2).
  rewrite <- Hw' in Hm2, Hu2, Hwd2, Hc2.
  assert (Hrest : mounts w' = mounts w /\ umask w' = umask w /\ wd w' = wd w
                  /\ clock w' = clock w) by (repeat split; congruence).
  assert (Hframe1 : forall k, k <> ks -> nodes (ensured sp w) !! k = nodes w !! k).
  { intros k Hk. unfold ensured. fold ks.
    destruct (lookupNode w ks) as [[]|]; try reflexivity;
      cbn [nodes setNodes]; by rewrite lookup_insert_ne. }
  assert (Hframe2 : forall k, k <> kl -> nodes w' !! k = nodes (ensured sp w) !! k).
  { intros k Hk. rewrite Hw'. unfold ensured at 1.
    rewrite (resolve_wd w (ensured sp w) _ Hwd1). fold kl.
    destruct (lookupNode (ensured sp w) kl) as [[]|]; try reflexivity;
      cbn [nodes setNodes]; by rewrite lookup_insert_ne. }
  assert (Hs' : lookupNode w' ks = Some (Dir ms)).
  { destruct (String.eqb_spec ks kl) as [E|Hne].
    - rewrite E in Hs. destruct Hl0 as [Hl0|[Hl0 _]]; congruence.
    - unfold lookupNode in *. destruct (String.eqb ks "/"); [exact Hs|].
      by rewrite Hframe2. }
  split; [exact Hrest|]. split; [|split; [|split]].
  - intros k Hks Hkl. by rewrite Hframe2, Hframe1.
  - intros k [->| ->].
    + exists ms. split; [exact Hs'|]. destruct Hs0 as [?|[_ ?]]; [by left | by right].
    + exists ml. split; [exact Hl|]. destruct Hl0 as [Hl0|[_ ?]]; [|by right].
      destruct (String.eqb_spec kl ks) as [E|Hne].
      * rewrite E in *. assert (ml = ms) as -> by congruence.
        destruct Hs0 as [?|[_ ?]]; [by left | by right].
      * left. unfold lookupNode in *. destruct (String.eqb kl "/"); [exact Hl0|].
        by rewrite <- Hframe1.
  - by rewrite Hofs.
  - destruct Hrest as (_ & _ & Hwd & Hclock).
    rewrite (NewSession_ready ofsm sandboxKey w' ms ml).
    + fold sp. rewrite (resolve_wd w w' _ Hwd). fold kl. by rewrite Hclock, Hofs.
    + fold sp. by rewrite (resolve_wd w w' _ Hwd).
    + fold sp. by rewrite (resolve_wd w w' _ Hwd).
Qed.

(** [Mount] only adds nodes. *)
Lemma Mount_keeps ofs w w1 k n :
  Mount ofs w = (w1, Ok tt) -> lookupNode w k = Some n -> lookupNode w1 k = Some n.
Proof.
  intros H Hk.
  destruct (Mount_Ok ofs w w1 H) as ((N1 & N2 & N3) & _ & data & ->).
  unfold lookupNode in *. cbn [nodes].
  destruct (String.eqb k "/") eqn:Hroot; [exact Hk|].
  rewrite !lookup_insert_ne; [exact Hk | | |];
    intros E; rewrite E, Hroot in *; congruence.
Qed.

(** The names of a session hold the second it was set up in and nothing
    else that tells two sessions apart: a session of the same sandbox set
    up in the same second, while the first one is mounted, gets the same
    three directories, and its [Mount] fails on the first of them and
    changes nothing. *)
Theorem same_second_session_cannot_mount (ofsm : OverlayFSManager) (sandboxKey : string)
    (w w1 w2 : World) (ofs : OverlayFS) :
  NewSession ofsm sandboxKey w = (w1, Ok ofs) ->
  Mount ofs w1 = (w2, Ok tt) ->
  exists ofs',
    NewSession ofsm sandboxKey w2 = (w2, Ok ofs')
    /\ (mergedDir ofs' = mergedDir ofs /\ workDir ofs' = workDir ofs
        /\ upperDir ofs' = upperDir ofs)
    /\ Mount ofs' w2
       = (w2, Err ("mkdir merged: " +:+ "mkdir " +:+ mergedDir ofs +:+ ": file exists")).
Proof.
  intros Hnew Hmount.
  destruct (NewSession_Ok _ _ _ _ _ Hnew) as (Hw1 & (ms & Hs & _) & (ml & Hl & _) & Hofs).
  set (sp := FilePath.Join [baseDir ofsm; "sandboxes"; sandboxKey]) in *.
  set (lp := FilePath.Join [sp; "layers"]) in *.
  destruct (ensured_rest sp w) as (_ & _ & Hwd0 & Hc0).
  destruct (ensured_rest lp (ensured sp w)) as (_ & _ & Hwd1 & Hc1).
  rewrite <- Hw1 in Hwd1, Hc1.
  assert (Hwd : wd w1 = wd w) by congruence.
  assert (Hclock : clock w1 = clock w) by congruence.
  assert (Hs1 : lookupNode w1 (resolve w sp) = Some (Dir ms)).
  { destruct (String.eqb_spec (resolve w sp) (resolve w lp)) as [E|Hne].
    - rewrite Hw1. unfold ensured at 1.
      rewrite (resolve_wd w (ensured sp w) lp Hwd0), <- E, Hs. exact Hs.
    - rewrite Hw1. unfold ensured at 1.
      rewrite (resolve_wd w (ensured sp w) lp Hwd0).
      destruct (lookupNode (ensured sp w) (resolve w lp)) as [[]|]; try exact Hs;
        rewrite lookupNode_insert;
        unfold lookupNode in Hs;
        destruct (String.eqb (resolve w sp) "/"); try exact Hs;
        destruct (String.eqb_spec (resolve w sp) (resolve w lp)); try contradiction;
        exact Hs. }
  destruct (Mount_Ok ofs w1 w2 Hmount) as ((N1 & _) & _ & data & Hw2).
  assert (Hwd2 : wd w2 = wd w1) by (by rewrite Hw2).
  assert (Hclock2 : clock w2 = clock w1) by (by rewrite Hw2).
  pose proof (Mount_keeps ofs w1 w2 _ _ Hmount Hs1) as Hs2.
  pose proof (Mount_keeps ofs w1 w2 _ _ Hmount Hl) as Hl2.
  eexists. split; [|split].
  - apply (NewSession_ready ofsm sandboxKey w2 ms ml); fold sp; fold lp;
      rewrite (resolve_wd w w2 _ (eq_trans Hwd2 Hwd)); assumption.
  - rewrite Hofs, Hclock2, Hclock. by repeat split.
  - set (ofs' := sessionAt _ _ _ _).
    assert (Hm : mergedDir ofs' = mergedDir ofs).
    { subst ofs'. by rewrite Hofs, Hclock2, Hclock. }
    assert (Hthere : lookupNode w2 (resolve w2 (mergedDir ofs'))
                     = Some (Dir (createMode w1 700))).
    { rewrite Hm, (resolve_wd w1 w2 _ Hwd2).
      set (km := resolve w1 (mergedDir ofs)) in *.
      unfold lookupNode in *. destruct (String.eqb km "/"); [discriminate|].
      destruct (Mount_Ok ofs w1 w2 Hmount) as (_ & (Hmw & Hmu & _) & data' & ->).
      fold km in Hmw, Hmu. cbn [nodes].
      rewrite !lookup_insert_ne by congruence. apply lookup_insert_eq. }
    unfold Mount, mbind, M_bind, bind, wrapErr, OS.Mkdir. cbv zeta.
    by rewrite Hthere, Hm.
Qed.


Lemma Mkdir_Err name perm w w' e :
  OS.Mkdir name perm w = (w', Err e) -> w' = w.
Proof.
  unfold OS.Mkdir. cbv zeta. destruct (lookupNode w _); [by intros [= <-]|].
  destruct (lookupNode w _) as [[]|]; by intros [= <-].
Qed.

Lemma MountOverlay_Err target data w w' e :
  MountOverlay target data w = (w', Err e) -> w' = w.
Proof.
  unfold MountOverlay. destruct (lookupNode w _) as [[]|]; by intros [= <-].
Qed.

(** [Mount] does not clean up after itself: when it fails, nothing is
    mounted, and the directories made before the step that failed stay. *)
Theorem Mount_failure_keeps_directories (ofs : OverlayFS) (w w' : World) (msg : string) :
  Mount ofs w = (w', Err msg) ->
  let km := resolve w (mergedDir ofs) in
  let kw := resolve w (workDir ofs) in
  let ku := resolve w (upperDir ofs) in
  let made := Dir (Z.ldiff (octal 274) (umask w)) in
  mounts w' = mounts w
  /\ ((exists e, msg = "mkdir merged: " +:+ e) /\ nodes w' = nodes w
      \/ (exists e, msg = "mkdir workdir: " +:+ e) /\ nodes w' = <[km := made]> (nodes w)
      \/ (exists e, msg = "mkdir upper: " +:+ e)
         /\ nodes w' = <[kw := made]> (<[km := made]> (nodes w))
      \/ (exists e, msg = "mount: " +:+ e)
         /\ nodes w' = <[ku := made]> (<[kw := made]> (<[km := made]> (nodes w)))).
Proof.
  intros H km kw ku made. unfold Mount, mbind, M_bind, bind, wrapErr in H.
  destruct (OS.Mkdir (mergedDir ofs) 700 w) as [w1 [[]|e1]] eqn:E1.
  2:{ injection H as <- <-. apply Mkdir_Err in E1 as ->. split; [done|]. left. eauto. }
  apply Mkdir_Ok in E1 as [_ ->].
  destruct (OS.Mkdir (workDir ofs) 700 _) as [w2 [[]|e2]] eqn:E2.
  2:{ injection H as <- <-. apply Mkdir_Err in E2 as ->. split; [done|].
      right. left. eauto. }
  apply Mkdir_Ok in E2 as [_ ->].
  destruct (OS.Mkdir (upperDir ofs) 700 _) as [w3 [[]|e3]] eqn:E3.
  2:{ injection H as <- <-. apply Mkdir_Err in E3 as ->. split; [done|].
      right. right. left. eauto. }
  apply Mkdir_Ok in E3 as [_ ->].
  destruct (MountOverlay (mergedDir ofs) _ _) as [w4 [[]|e4]] eqn:E4; [discriminate|].
  injection H as <- <-. apply MountOverlay_Err in E4 as ->. split; [done|].
  right. right. right. eauto.
Qed.

End SetupFacts.

Module SetupDemo.
Import SetupFacts FilePath OS Overlay OverlayDemo.

(** The first session of a host that has no sandbox yet. *)
Definition first : OverlayFS :=
  mkOverlayFS "/ofs/sandboxes/new/merge-1651420000"
              "/ofs/sandboxes/new/layers/1651420000"
              "/ofs/sandboxes/new/work-1651420000"
              ["/ofs/defaultfs"].

Lemma NewSession_effect_witness :
  let w' := (NewSession manager "new" before).1 in
  let sp := FilePath.Join [baseDir manager; "sandboxes"; "new"] in
  let ks := resolve before sp in
  let kl := resolve before (FilePath.Join [sp; "layers"]) in
  (mounts w' = mounts before /\ umask w' = umask before /\ wd w' = wd before
   /\ clock w' = clock before)
  /\ (forall k, k <> ks -> k <> kl -> nodes w' !! k = nodes before !! k)
  /\ (forall k, k = ks \/ k = kl ->
      exists m, lookupNode w' k = Some (Dir m)
                /\ (lookupNode before k = Some (Dir m)
                    \/ m = Z.ldiff (octal 755) (umask before)))
  /\ (mergedDir first = FilePath.Join [sp; "merge-" +:+ FormatInt (clock before)]
      /\ workDir first = FilePath.Join [sp; "work-" +:+ FormatInt (clock before)]
      /\ upperDir first = FilePath.Join [sp; "layers"; FormatInt (clock before)])
  /\ NewSession manager "new" w' = (w', Ok first).
Proof.
  apply (NewSession_effect manager "new" before (NewSession manager "new" before).1 first).
  vm_compute. reflexivity.
Defined.

Lemma same_second_session_cannot_mount_witness :
  let w1 := (NewSession manager "k" before).1 in
  let w2 := (Mount session w1).1 in
  exists ofs',
    NewSession manager "k" w2 = (w2, Ok ofs')
    /\ (mergedDir ofs' = mergedDir session /\ workDir ofs' = workDir session
        /\ upperDir ofs' = upperDir session)
    /\ Mount ofs' w2
       = (w2, Err ("mkdir merged: " +:+ "mkdir " +:+ mergedDir session +:+ ": file exists")).
Proof.
  apply (same_second_session_cannot_mount manager "k" before
           (NewSession manager "k" before).1 (Mount session (NewSession manager "k" before).1).1
           session).
  - vm_compute. reflexivity.
  - vm_compute. reflexivity.
Defined.

(** A machine on which the work directory of the session is in the way. *)
Definition blocked : World :=
  (OS.Mkdir "/ofs/sandboxes/k/work-1651420000" (octal 755) before).1.

Lemma Mount_failure_keeps_directories_witness :
  let w' := (Mount session blocked).1 in
  let msg := "mkdir workdir: mkdir /ofs/sandboxes/k/work-1651420000: file exists" in
  let km := resolve blocked (mergedDir session) in
  let kw := resolve blocked (workDir session) in
  let ku := resolve blocked (upperDir session) in
  let made := Dir (Z.ldiff (octal 274) (umask blocked)) in
  mounts w' = mounts blocked
  /\ ((exists e, msg = "mkdir merged: " +:+ e) /\ nodes w' = nodes blocked
      \/ (exists e, msg = "mkdir workdir: " +:+ e)
         /\ nodes w' = <[km := made]> (nodes blocked)
      \/ (exists e, msg = "mkdir upper: " +:+ e)
         /\ nodes w' = <[kw := made]> (<[km := made]> (nodes blocked))
      \/ (exists e, msg = "mount: " +:+ e)
         /\ nodes w' = <[ku := made]> (<[kw := made]> (<[km := made]> (nodes blocked)))).
Proof.
  apply (Mount_failure_keeps_directories session blocked (Mount session blocked).1
           "mkdir workdir: mkdir /ofs/sandboxes/k/work-1651420000: file exists").
  vm_compute. reflexivity.
Defined.

End SetupDemo.

(* ===================================================================== *)
(** * Starting the server: the four loads of [init] *)
(* ===================================================================== *)

Module InitFacts.
Import Server TrimFacts CorpusFacts PersistFacts MultisetFacts LoginFacts LoadFacts.

(** A multiset after the file at [path] has been loaded into it. *)
Definition loaded (path : string) (w : OS.World) (m : gmap string Z) : gmap string Z :=
  if FileExists path w then
    match OS.ReadFile path w with
    | (_, OS.Ok content) => fold_left (fun m s => addKey s m) (Split content (byte 10)) m
    | (_, OS.Err _) => m
    end
  else m.

(** The login counters stand at 0 for the hosts of the corpus, and for no
    other key. *)
Definition zeroed (o : OSSHServer) : Prop :=
  Attempts o = (fun _ => 0) <$> Hosts o
  /\ Failed o = (fun _ => 0) <$> Hosts o
  /\ OK o = (fun _ => 0) <$> Hosts o.

(** What stays whatever is added to a multiset. *)
Definition sameRest (o o' : OSSHServer) : Prop :=
  shells o' = shells o /\ syncClients o' = syncClients o /\ TimeWasted o' = TimeWasted o.

Lemma addHost_zeroed host o : zeroed o -> zeroed (addHost host o).
Proof.
  intros (Ha & Hf & Hk). unfold addHost, hasHost, hasKey, increment.
  destruct (String.eqb (TrimSpace host) EmptyString); [done|].
  set (h := TrimSpace host).
  destruct (bool_decide (is_Some (Hosts o !! h))) eqn:Hh; cbn [negb].
  - apply bool_decide_eq_true in Hh as [c Hc].
    assert (Hid : forall m, m = (fun _ : Z => 0) <$> Hosts o ->
                  m = (fun _ : Z => 0) <$> <[h := uintWrap (getCount (Hosts o) h + 1)]> (Hosts o)).
    { intros m ->. rewrite fmap_insert. symmetry. apply insert_id.
      by rewrite lookup_fmap, Hc. }
    unfold zeroed.
    cbn [Attempts Failed OK Hosts withHosts withAttempts withFailed withOK].
    by repeat split; apply Hid.
  - unfold zeroed.
    cbn [Attempts Failed OK Hosts withHosts withAttempts withFailed withOK].
    rewrite !fmap_insert, insert_insert_eq, Ha, Hf, Hk.
    by repeat split.
Qed.

Lemma addOf_zeroed kind s o : zeroed o -> zeroed (addOf kind s o).
Proof.
  destruct kind; [apply addHost_zeroed| | |]; intros (Ha & Hf & Hk); cbn [addOf].
  - destruct (addUser_sameCounters s o) as (Ea & Ef & Ek).
    pose proof (field_addOf KHosts KUsers s o) as Eh. cbn [field addOf] in Eh.
    rewrite decide_False in Eh by done. unfold zeroed. by rewrite Ea, Ef, Ek, Eh.
  - destruct (addPassword_sameCounters s o) as (Ea & Ef & Ek).
    pose proof (field_addOf KHosts KPasswords s o) as Eh. cbn [field addOf] in Eh.
    rewrite decide_False in Eh by done. unfold zeroed. by rewrite Ea, Ef, Ek, Eh.
  - destruct (addFingerprint_sameCounters s o) as (Ea & Ef & Ek).
    pose proof (field_addOf KHosts KFingerprints s o) as Eh. cbn [field addOf] in Eh.
    rewrite decide_False in Eh by done. unfold zeroed. by rewrite Ea, Ef, Ek, Eh.
Qed.

Section Starting.

Variable Conf : Config.

(** One load: the machine is only read, the multiset of the load takes the
    lines of its file, and nothing else in the server moves. *)
Lemma loadOf_effect kind st :
  world (loadOf Conf kind st) = world st
  /\ (forall kind',
        field kind' (ossh (loadOf Conf kind st))
        = if decide (kind' = kind)
          then loaded (pathOf Conf kind) (world st) (field kind (ossh st))
          else field kind' (ossh st))
  /\ (zeroed (ossh st) -> zeroed (ossh (loadOf Conf kind st)))
  /\ sameRest (ossh st) (ossh (loadOf Conf kind st)).
Proof.
  destruct (loadOf_loadWith Conf kind) as [what ->]. unfold loadWith, loaded.
  assert (Hsame : forall kind', field kind' (ossh st)
                  = if decide (kind' = kind) then field kind (ossh st)
                    else field kind' (ossh st)).
  { intros kind'. by destruct (decide (kind' = kind)) as [->|]. }
  assert (Hnone : forall s : State,
            world s = world st -> ossh s = ossh st ->
            world s = world st
            /\ (forall kind', field kind' (ossh s)
                  = if decide (kind' = kind) then field kind (ossh st)
                    else field kind' (ossh st))
            /\ (zeroed (ossh st) -> zeroed (ossh s))
            /\ sameRest (ossh st) (ossh s)).
  { intros s Hw Ho. rewrite Ho. split; [exact Hw|]. split; [exact Hsame|].
    split; [done | by unfold sameRest]. }
  destruct (FileExists _ _); [|by apply Hnone].
  destruct (OS.ReadFile _ _) as [w' [content|e]]; [|by apply Hnone].
  set (lines := Split content (byte 10)). set (st0 := Log "+" _ _ st).
  assert (Hfold : forall items s,
            let s' := fold_left (fun s item => onServer (addOf kind item) s) items s in
            world s' = world s
            /\ (forall kind', kind' <> kind -> field kind' (ossh s') = field kind' (ossh s))
            /\ (zeroed (ossh s) -> zeroed (ossh s'))
            /\ sameRest (ossh s) (ossh s')).
  { induction items as [|i items IH]; intros s; [by unfold sameRest|].
    cbn [fold_left]. cbv zeta. destruct (IH (onServer (addOf kind i) s)) as (Hw & Ho & Hz & Hr).
    split; [exact Hw|]. split; [|split].
    - intros kind' Hne. rewrite (Ho kind' Hne). cbn [onServer ossh].
      rewrite field_addOf. by rewrite decide_False.
    - intros Hzero. apply Hz. cbn [onServer ossh]. by apply addOf_zeroed.
    - destruct Hr as (H1 & H2 & H3).
      destruct (add_frame kind i (ossh s)) as (F1 & F2 & F3).
      cbn [onServer ossh] in H1, H2, H3. unfold sameRest. by rewrite H1, H2, H3. }
  destruct (Hfold lines st0) as (Hw & Ho & Hz & Hr).
  assert (E0 : world st0 = world st /\ ossh st0 = ossh st) by (by subst st0).
  destruct E0 as [Ew Eo]. rewrite Ew in Hw. rewrite Eo in Hz, Hr.
  split; [exact Hw|]. split; [|split; [exact Hz | exact Hr]].
  intros kind'. destruct (decide (kind' = kind)) as [->|Hne].
  - rewrite <- Eo. apply fold_field.
  - rewrite <- Eo. by apply Ho.
Qed.

(** [init]: each of the four multisets takes the lines of its own file,
    whatever the other three files hold; the machine is only read; login
    counters that stand at 0 for the hosts of the corpus do so afterwards,
    for all the hosts loaded; shells, sync marks and the time wasted stay. *)
Theorem init_loads_each_file (st : State) :
  let st' := init Conf st in
  world st' = world st
  /\ (forall kind,
        field kind (ossh st')
        = loaded (pathOf Conf kind) (world st) (field kind (ossh st)))
  /\ (zeroed (ossh st) -> zeroed (ossh st'))
  /\ sameRest (ossh st) (ossh st').
Proof.
  cbv zeta. unfold init.
  change (loadHosts Conf) with (loadOf Conf KHosts).
  change (loadUsers Conf) with (loadOf Conf KUsers).
  change (loadPasswords Conf) with (loadOf Conf KPasswords).
  change (loadFingerprints Conf) with (loadOf Conf KFingerprints).
  set (s1 := loadOf Conf KHosts st). set (s2 := loadOf Conf KUsers s1).
  set (s3 := loadOf Conf KPasswords s2).
  destruct (loadOf_effect KHosts st) as (W1 & F1 & Z1 & R1). fold s1 in W1, F1, Z1, R1.
  destruct (loadOf_effect KUsers s1) as (W2 & F2 & Z2 & R2). fold s2 in W2, F2, Z2, R2.
  destruct (loadOf_effect KPasswords s2) as (W3 & F3 & Z3 & R3). fold s3 in W3, F3, Z3, R3.
  destruct (loadOf_effect KFingerprints s3) as (W4 & F4 & Z4 & R4).
  split; [congruence|]. split; [|split].
  - intros kind. rewrite F4, W3, W2, W1.
    destruct kind; cbn [decide]; repeat case_decide; try congruence.
    + rewrite F3. case_decide; [congruence|]. rewrite F2. case_decide; [congruence|].
      rewrite F1. by case_decide.
    + rewrite F3. case_decide; [congruence|]. rewrite F2, W1. case_decide; [|congruence].
      rewrite F1. by case_decide.
    + rewrite F3, W2, W1. case_decide; [|congruence].
      rewrite F2. case_decide; [congruence|]. rewrite F1. by case_decide.
    + rewrite F3. case_decide; [congruence|]. rewrite F2. case_decide; [congruence|].
      rewrite F1. by case_decide.
  - auto.
  - destruct R1 as (?&?&?), R2 as (?&?&?), R3 as (?&?&?), R4 as (?&?&?).
    unfold sameRest. repeat split; congruence.
Qed.

End Starting.

End InitFacts.

Module InitDemo.
Import Server PersistFacts InitFacts.

(** A machine with a hosts file (one host on two lines, one padded with
    blanks) and a users file, and no passwords or fingerprints file. *)
Definition restarted : OS.World :=
  (OS.WriteFile "/var/ossh/users" ("root" +:+ lineFeed +:+ "admin" +:+ lineFeed)
     (OS.octal 644)
     (OS.WriteFile "/var/ossh/hosts"
        ("10.0.0.1" +:+ lineFeed +:+ " 10.0.0.1 " +:+ lineFeed +:+ "10.0.0.2" +:+ lineFeed)
        (OS.octal 644) (Demo.machine 9)).1).1.

Example init_restarted :
  let o := ossh (init Demo.conf (mkState emptyServer restarted [])) in
  map_to_list (Hosts o) = [("10.0.0.1", 2); ("10.0.0.2", 1)]
  /\ map_to_list (Users o) = [("admin", 1); ("root", 1)]
  /\ Passwords o = ∅ /\ Fingerprints o = ∅
  /\ map_to_list (Attempts o) = [("10.0.0.1", 0); ("10.0.0.2", 0)]
  /\ Failed o = Attempts o /\ OK o = Attempts o.
Proof. vm_compute. repeat split; reflexivity. Qed.

End InitDemo.
